(** * microDL: tile correspondence and metadata bookkeeping

    A shallow embedding of the non-uniform tiler
    ([micro_dl/preprocessing/tile_nonuniform_images.py]), of the z-score
    parameter aggregation and the table of intensity samples
    ([micro_dl/utils/meta_utils.py]), of the mask processor
    ([micro_dl/preprocessing/generate_masks.py]) and of the metrics
    estimator ([micro_dl/inference/evaluation_metrics.py]), with the
    properties the specification states about them and further properties
    of the code.

    Conventions.  Python integers are [Z]; Python dicts are association
    lists kept in insertion order (the loops of the tiler depend on that
    order); pandas tables are lists of records, with a missing value (NaN)
    as [None]; intensities and fractions are exact rationals [Q]; raised
    exceptions are the [Raise] branch of [Py.result], and code that mutates
    the object or the file system runs in the state-and-exception monad
    [Py.M], in which the state reached before a raise is kept. *)

From Stdlib Require Import ZArith List String Bool Lia QArith Qround Permutation.
From Stdlib Require Import Sorted Lqa.
From Stdlib Require Import Ascii DecimalString.
Import ListNotations.

Open Scope string_scope.
Open Scope list_scope.
Open Scope Z_scope.

(* ================================================================== *)
(** ** Python run-time: exceptions, dicts, lists *)
(* ================================================================== *)

Module Py.

Inductive exn : Type :=
| AssertionError (msg : string)
| KeyError
| IndexError
| ValueError
| UnboundLocalError
| FileNotFoundError
| FileExistsError
| OSError.

Inductive result (A : Type) : Type :=
| Ok (a : A)
| Raise (e : exn).
Arguments Ok {A} a.
Arguments Raise {A} e.

Definition bind {A B} (c : result A) (k : A -> result B) : result B :=
  match c with
  | Ok a => k a
  | Raise e => Raise e
  end.

Definition is_ok {A} (c : result A) : bool :=
  match c with Ok _ => true | Raise _ => false end.

(** A [for] loop whose body may raise: the accumulator is threaded from
    left to right and the first exception ends the loop. *)
Fixpoint for_each {A S} (l : list A) (body : A -> S -> result S) (s : S)
  : result S :=
  match l with
  | [] => Ok s
  | a :: l' => bind (body a s) (for_each l' body)
  end.

(** *** dict with integer keys, in insertion order *)

Definition dict (V : Type) : Type := list (Z * V).

Section Dict.
Context {V : Type}.

Fixpoint dict_get (k : Z) (d : dict V) : option V :=
  match d with
  | [] => None
  | (k', v) :: d' => if k' =? k then Some v else dict_get k d'
  end.

(** [d[k]] *)
Definition getitem (d : dict V) (k : Z) : result V :=
  match dict_get k d with
  | Some v => Ok v
  | None => Raise KeyError
  end.

(** [d[k] = v]: an existing key keeps its place, a new one goes last. *)
Fixpoint setitem (d : dict V) (k : Z) (v : V) : dict V :=
  match d with
  | [] => [(k, v)]
  | (k', v') :: d' =>
      if k' =? k then (k', v) :: d' else (k', v') :: setitem d' k v
  end.

(** [del d[k]] *)
Fixpoint delitem (d : dict V) (k : Z) : result (dict V) :=
  match d with
  | [] => Raise KeyError
  | (k', v') :: d' =>
      if k' =? k then Ok d'
      else bind (delitem d' k) (fun d'' => Ok ((k', v') :: d''))
  end.

Definition keys (d : dict V) : list Z := map fst d.

(** The association lists that are Python dicts: no key twice. *)
Definition wf (d : dict V) : Prop := NoDup (keys d).
End Dict.

(** [l.index(x)] *)
Fixpoint index (l : list Z) (x : Z) : result Z :=
  match l with
  | [] => Raise ValueError
  | y :: l' => if y =? x then Ok 0 else bind (index l' x) (fun i => Ok (i + 1))
  end.

(** [l[0]] *)
Definition first (l : list Z) : result Z :=
  match l with
  | [] => Raise IndexError
  | x :: _ => Ok x
  end.

(** [l.pop(0)]: the element and what is left of the list. *)
Definition pop0 (l : list Z) : result (Z * list Z) :=
  match l with
  | [] => Raise IndexError
  | x :: l' => Ok (x, l')
  end.

(** *** State and exceptions *)

Definition M (S A : Type) : Type := S -> result A * S.

Definition ret {S A} (a : A) : M S A := fun s => (Ok a, s).

Definition mbind {S A B} (c : M S A) (k : A -> M S B) : M S B :=
  fun s =>
    match c s with
    | (Ok a, s') => k a s'
    | (Raise e, s') => (Raise e, s')
    end.

Definition lift {S A} (c : result A) : M S A := fun s => (c, s).
Definition get {S} : M S S := fun s => (Ok s, s).
Definition put {S} (s : S) : M S unit := fun _ => (Ok tt, s).
Definition modify {S} (f : S -> S) : M S unit := fun s => (Ok tt, f s).

(** [assert c, msg] *)
Definition assert {S} (c : bool) (msg : string) : M S unit :=
  if c then ret tt else lift (Raise (AssertionError msg)).

End Py.

Import Py.

Declare Scope py_scope.
Delimit Scope py_scope with py.
Notation "x <- c ;; k" := (Py.bind c (fun x => k))
  (at level 61, c at next level, right associativity) : py_scope.

Declare Scope m_scope.
Delimit Scope m_scope with m.
Notation "x <- c ;; k" := (Py.mbind c (fun x => k))
  (at level 61, c at next level, right associativity) : m_scope.
Notation "c ;; k" := (Py.mbind c (fun _ => k))
  (at level 61, right associativity) : m_scope.

(* ================================================================== *)
(** ** The index tree *)
(* ================================================================== *)

(** [nested_id_dict]: time_idx -> channel_idx -> pos_idx -> slice indices. *)
Definition PosDict : Type := dict (list Z).
Definition ChannelDict : Type := dict PosDict.
Definition IndexTree : Type := dict ChannelDict.

(** [(tp, ch, pos, sl)] is a leaf of the tree. *)
Definition leaf (t : IndexTree) (tp ch pos sl : Z) : Prop :=
  exists tp_dict ch_dict sl_idx_list,
    In (tp, tp_dict) t /\ In (ch, ch_dict) tp_dict /\
    In (pos, sl_idx_list) ch_dict /\ In sl sl_idx_list.

(** Every dict of the tree is a Python dict. *)
Definition tree_wf (t : IndexTree) : Prop :=
  wf t /\ Forall (fun e => wf (snd e)) t.

(** The tree restricted to one channel, in the words of the specification:
    each time point keeps that channel's entry and nothing else. *)
Definition restrict_channel (c : Z) (t : IndexTree) : IndexTree :=
  map (fun e => (fst e, filter (fun ce => fst ce =? c) (snd e))) t.

(** The tree with one channel's entries removed. *)
Definition remove_channel (c : Z) (t : IndexTree) : IndexTree :=
  map (fun e => (fst e, filter (fun ce => negb (fst ce =? c)) (snd e))) t.

(* ================================================================== *)
(** ** Metadata tables and the file system *)
(* ================================================================== *)

(** A row of [frames_meta.csv] of an image directory.  The derived columns
    are optional: [None] is a missing value (NaN, or a column that was
    never filled). *)
Module Frame.
Record t : Type := mk {
  dir_name : string;
  time_idx : Z;
  channel_idx : Z;
  slice_idx : Z;
  pos_idx : Z;
  file_name : string;
  zscore_median : option Q;
  zscore_iqr : option Q;
  fg_frac : option Q
}.
End Frame.

(** A row of [frames_meta.csv] of a tile directory. *)
Module Tile.
Record t : Type := mk {
  time_idx : Z;
  channel_idx : Z;
  slice_idx : Z;
  pos_idx : Z;
  row_start : Z;
  col_start : Z;
  file_name : string
}.
End Tile.

(** A row of the intensity-sample table: the identity of the sampled frame,
    one sampled intensity and the frame's foreground fraction when known. *)
Module Ints.
Record t : Type := mk {
  dir_name : string;
  time_idx : Z;
  channel_idx : Z;
  slice_idx : Z;
  pos_idx : Z;
  intensity : Q;
  fg_frac : option Q
}.
End Ints.

Module Fs.

Inductive file : Type :=
| Directory
| FramesMeta (rows : list Frame.t)
| TilesMeta (rows : list Tile.t)
| IntsMeta (rows : list Ints.t)
| Image.

(** Paths with what they hold. *)
Definition t : Type := list (string * file).

Fixpoint lookup (p : string) (fs : t) : option file :=
  match fs with
  | [] => None
  | (p', f) :: fs' => if String.eqb p' p then Some f else lookup p fs'
  end.

Fixpoint write (p : string) (f : file) (fs : t) : t :=
  match fs with
  | [] => [(p, f)]
  | (p', f') :: fs' =>
      if String.eqb p' p then (p', f) :: fs' else (p', f') :: write p f fs'
  end.

(** [os.path.exists] *)
Definition path_exists (p : string) (fs : t) : bool :=
  match lookup p fs with Some _ => true | None => false end.

Definition is_dir (f : file) : bool :=
  match f with Directory => true | _ => false end.

(** Everything on disk that is not a directory: tables and images. *)
Definition regular_files (fs : t) : t :=
  filter (fun e => negb (is_dir (snd e))) fs.

Definition ends_with_slash (a : string) : bool :=
  match rev (list_ascii_of_string a) with
  | c :: _ => Ascii.eqb c "/"%char
  | [] => false
  end.

(** [os.path.join] of two components. *)
Definition join (a b : string) : string :=
  if String.prefix "/" b then b
  else if String.eqb a "" then b
  else if ends_with_slash a then (a ++ b)%string
  else (a ++ "/" ++ b)%string.

(** [os.makedirs(p, exist_ok=True)] *)
Definition makedirs (p : string) : M t unit :=
  fun fs =>
    match lookup p fs with
    | None => (Ok tt, write p Directory fs)
    | Some Directory => (Ok tt, fs)
    | Some _ => (Raise FileExistsError, fs)
    end.

Definition is_slash (c : ascii) : bool := Ascii.eqb c "/"%char.

(** The part of a path up to its last slash, the slash included. *)
Fixpoint head_chars (l : list ascii) : list ascii :=
  match l with
  | [] => []
  | c :: l' =>
      match head_chars l' with
      | [] => if is_slash c then [c] else []
      | h => c :: h
      end
  end.

Fixpoint lstrip_slashes (l : list ascii) : list ascii :=
  match l with
  | c :: l' => if is_slash c then lstrip_slashes l' else l
  | [] => []
  end.

(** [os.path.dirname]: the head of the path without its trailing
    slashes, unless it is slashes only. *)
Definition dirname (p : string) : string :=
  let head := head_chars (list_ascii_of_string p) in
  if forallb is_slash head then string_of_list_ascii head
  else string_of_list_ascii (rev (lstrip_slashes (rev head))).

(** Opening the file [p] for writing: its directory has to be on the
    disk (the current directory and the root always are), and [p] must
    be no directory.  Otherwise an [OSError] is raised; which of its
    subclasses is left open. *)
Definition open_for_writing (p : string) (fs : t) : result unit :=
  let d := dirname p in
  match
    if forallb is_slash (list_ascii_of_string d) then Some Directory
    else lookup d fs
  with
  | Some Directory =>
      match lookup p fs with
      | Some Directory => Raise OSError
      | _ => Ok tt
      end
  | _ => Raise OSError
  end.

(** [df.to_csv(p)] *)
Definition to_csv (p : string) (f : file) : M t unit :=
  fun fs =>
    match open_for_writing p fs with
    | Ok _ => (Ok tt, write p f fs)
    | Raise e => (Raise e, fs)
    end.

End Fs.

(** [aux_utils.read_meta(dir)]: the frames table of a directory. *)
Definition read_meta (dir : string) : M Fs.t (list Frame.t) :=
  fun fs =>
    match Fs.lookup (Fs.join dir "frames_meta.csv") fs with
    | Some (Fs.FramesMeta rows) => (Ok rows, fs)
    | _ => (Raise FileNotFoundError, fs)
    end.

(** [pd.concat(l, ignore_index=True)]: pandas refuses an empty list of
    tables ("No objects to concatenate"). *)
Definition pd_concat {A} (l : list (list A)) : result (list A) :=
  match l with
  | [] => Raise ValueError
  | _ => Ok (List.concat l)
  end.

(** [df.sort_values(by=['file_name'])] on tile tables: ascending order of
    the file names.  pandas does not fix the order of rows with equal
    names; here they keep their order. *)
Fixpoint insert_by_name (r : Tile.t) (l : list Tile.t) : list Tile.t :=
  match l with
  | [] => [r]
  | r' :: l' =>
      if String.leb (Tile.file_name r) (Tile.file_name r') then r :: l
      else r' :: insert_by_name r l'
  end.

Definition sort_values_file_name (l : list Tile.t) : list Tile.t :=
  fold_right insert_by_name [] l.

(* ================================================================== *)
(** ** Collaborators of the tiler that are not in the sources *)
(* ================================================================== *)

(** A crop window [row_start, row_end, col_start, col_end]. *)
Definition TileIndex : Type := (Z * Z * Z * Z)%type.

Definition depth_window (k margin : Z) : list Z :=
  map (fun i => k - margin + Z.of_nat i) (seq 0 (Z.to_nat (2 * margin + 1))).

(** Modelled from the spec: [aux_utils.adjust_slice_margins] is not among
    the sources.  The specification: "a stack of depth consecutive slices
    must exist centered at each selected slice", "drop candidate slices
    whose depth window would exceed the available slice range", "a channel
    with depth 5 centered at slice k requires slices k-2..k+2 to exist".
    A slice is kept when every slice of its window is in the list. *)
Definition adjust_slice_margins (slice_ids : list Z) (depth : Z) : list Z :=
  let margin := depth / 2 in
  filter
    (fun k =>
       forallb (fun j => existsb (Z.eqb j) slice_ids) (depth_window k margin))
    slice_ids.

Definition tile_key (time_idx channel_idx pos_idx slice_idx : Z) (r : Tile.t)
  : bool :=
  (Tile.channel_idx r =? channel_idx) && (Tile.slice_idx r =? slice_idx)
  && (Tile.pos_idx r =? pos_idx) && (Tile.time_idx r =? time_idx).

(** Modelled from the spec: [ImageTilerUniform._get_tile_indices] is not
    among the sources.  The specification: "look up the tile coordinate
    set previously recorded for the reference channel at the matching
    (time, pos, slice) key"; a tile is "a fixed-size rectangular crop of a
    frame at a given origin", so each recorded origin gives the window of
    [tile_size] rows and columns that starts there. *)
Definition _get_tile_indices (tile_size : Z * Z) (tiled_meta : list Tile.t)
  (time_idx channel_idx pos_idx slice_idx : Z) : list TileIndex :=
  map
    (fun r =>
       (Tile.row_start r, Tile.row_start r + fst tile_size,
        Tile.col_start r, Tile.col_start r + snd tile_size))
    (filter (tile_key time_idx channel_idx pos_idx slice_idx) tiled_meta).

(** [np.any] of a list of crop windows: some entry is not zero. *)
Definition np_any (l : list TileIndex) : bool :=
  existsb
    (fun '(r0, r1, c0, c1) =>
       negb (r0 =? 0) || negb (r1 =? 0) || negb (c0 =? 0) || negb (c1 =? 0))
    l.

Inductive task : Type :=
| TileTask (tile_size step_size : Z * Z) (mask_dir : option string)
| CropTask (tile_indices : list TileIndex).

(** The argument tuple of one job of the worker pool. *)
Record CropTileArgs : Type := {
  a_channel_idx : Z;
  a_time_idx : Z;
  a_slice_idx : Z;
  a_pos_idx : Z;
  a_task : task;
  a_tile_dir : string
}.

(* ================================================================== *)
(** ** [ImageTilerNonUniform] *)
(* ================================================================== *)

(** A request for indices: [-1] (all of them), or a list. *)
Inductive ids : Type :=
| AllIds
| Ids (l : list Z).

Record MetadataIds : Type := {
  m_time_ids : list Z;
  m_channel_ids : list Z;
  m_slice_ids : list Z;
  m_pos_ids : list Z
}.

(** The fields of the tiler object that the non-uniform tiler reads or
    writes (2-D tiling, the default [tile_3d=False]).  The fields are set
    by the superclass; [channel_depth] and [normalize_channels] are read
    with a channel index as key. *)
Record Tiler : Type := {
  tile_dir : string;
  tile_size : Z * Z;
  step_size : Z * Z;
  channel_ids : list Z;
  channel_depth : dict Z;
  normalize_channels : dict bool;
  nested_id_dict : IndexTree;
  frames_metadata : list Frame.t;
  time_ids : ids;
  slice_ids : ids;
  pos_ids : ids;
  mask_depth : option Z
}.

Definition set_channel_ids (ids : list Z) (self : Tiler) : Tiler :=
  {| tile_dir := tile_dir self;
     tile_size := tile_size self;
     step_size := step_size self;
     channel_ids := ids;
     channel_depth := channel_depth self;
     normalize_channels := normalize_channels self;
     nested_id_dict := nested_id_dict self;
     frames_metadata := frames_metadata self;
     time_ids := time_ids self;
     slice_ids := slice_ids self;
     pos_ids := pos_ids self;
     mask_depth := mask_depth self |}.

Definition set_nested_id_dict (t : IndexTree) (self : Tiler) : Tiler :=
  {| tile_dir := tile_dir self;
     tile_size := tile_size self;
     step_size := step_size self;
     channel_ids := channel_ids self;
     channel_depth := channel_depth self;
     normalize_channels := normalize_channels self;
     nested_id_dict := t;
     frames_metadata := frames_metadata self;
     time_ids := time_ids self;
     slice_ids := slice_ids self;
     pos_ids := pos_ids self;
     mask_depth := mask_depth self |}.

Definition set_mask_depth (d : Z) (self : Tiler) : Tiler :=
  {| tile_dir := tile_dir self;
     tile_size := tile_size self;
     step_size := step_size self;
     channel_ids := channel_ids self;
     channel_depth := channel_depth self;
     normalize_channels := normalize_channels self;
     nested_id_dict := nested_id_dict self;
     frames_metadata := frames_metadata self;
     time_ids := time_ids self;
     slice_ids := slice_ids self;
     pos_ids := pos_ids self;
     mask_depth := Some d |}.

(** The object and the disk. *)
Definition World : Type := (Tiler * Fs.t)%type.

Definition on_fs {A} (c : M Fs.t A) : M World A :=
  fun w => let (r, fs') := c (snd w) in (r, (fst w, fs')).

(** Lines 200-210 of [tile_stack]: the loop that builds [ch0_ids] and
    deletes the first channel from the copy of the tree.  [ch0_dict] is a
    local variable of the method: it is unbound until the first channel has
    been met, and it keeps its value from one time point to the next.

    The body of the inner loop, for the channel entry [(ch_idx, ch_dict)]
    of time point [tp_idx]: *)
Definition tile_stack_ids_channel (ch_to_tile tp_idx : Z)
  : Z * PosDict -> option ChannelDict * IndexTree ->
    result (option ChannelDict * IndexTree) :=
  fun '(ch_idx, ch_dict) '(ch0_dict, nested_id_dict_copy) =>
    (if ch_idx =? ch_to_tile then
       tp_copy <- getitem nested_id_dict_copy tp_idx ;;
       tp_copy <- delitem tp_copy ch_idx ;;
       Ok (Some [(ch_idx, ch_dict)],
           setitem nested_id_dict_copy tp_idx tp_copy)
     else Ok (ch0_dict, nested_id_dict_copy))%py.

(** The body of the outer loop, for the time point [(tp_idx, tp_dict)]:
    the inner loop, then [ch0_ids[tp_idx] = ch0_dict]. *)
Definition tile_stack_ids_time (ch_to_tile : Z)
  : Z * ChannelDict -> option ChannelDict * IndexTree * IndexTree ->
    result (option ChannelDict * IndexTree * IndexTree) :=
  fun '(tp_idx, tp_dict) '(ch0_dict, nested_id_dict_copy, ch0_ids) =>
    (st <- for_each tp_dict (tile_stack_ids_channel ch_to_tile tp_idx)
            (ch0_dict, nested_id_dict_copy) ;;
     match fst st with
     | None => Raise UnboundLocalError
     | Some d => Ok (fst st, snd st, setitem ch0_ids tp_idx d)
     end)%py.

Definition tile_stack_ids (ch_to_tile : Z) (nested_id_dict : IndexTree)
  : result (IndexTree * IndexTree) :=
  (let nested_id_dict_copy := nested_id_dict in
   st <- for_each nested_id_dict (tile_stack_ids_time ch_to_tile)
           (None, nested_id_dict_copy, []) ;;
   Ok (snd st, snd (fst st)))%py.

(** Lines 258-264 of [tile_mask_stack]: the same selection for the mask
    channel; here the time point is entered inside the test. *)
Definition tile_mask_stack_ids (mask_channel : Z)
  (mask_nested_id_dict : IndexTree) : IndexTree :=
  fold_left
    (fun mask_ch_ids '(tp_idx, tp_dict) =>
       fold_left
         (fun mask_ch_ids '(ch_idx, ch_dict) =>
            if ch_idx =? mask_channel then
              setitem mask_ch_ids tp_idx [(mask_channel, ch_dict)]
            else mask_ch_ids)
         tp_dict mask_ch_ids)
    mask_nested_id_dict [].

Section Tiling.

(** The tiling worker, up to the rows it reports: the origins of the
    tiles it keeps for one job (image decoding, the regular grid, the
    foreground filter when the job tiles a mask). *)
Variable tile_image : CropTileArgs -> list (Z * Z).

(** [aux_utils.validate_metadata_indices]: a function of the table and of
    the requested indices, without effect; it is not among the sources and
    is left open. *)
Variable validate_metadata_indices :
  list Frame.t -> ids -> ids -> ids -> ids -> bool ->
  result (MetadataIds * IndexTree).

(** The name of a tile's file, from its time, channel, slice and
    position indices and its origin. *)
Variable tile_name : Z -> Z -> Z -> Z -> Z -> Z -> string.

(** Modelled from the spec: [ImageTilerUniform.get_crop_tile_args] is
    not among the sources.  The specification: "jobs are pure functions
    of their argument tuple (input file paths, geometry, output
    directory)"; the tuple is kept up to the indices of the frame, the
    task and the tile directory. *)
Definition get_crop_tile_args (self : Tiler)
  (channel_idx time_idx slice_idx pos_idx : Z) (tk : task) : CropTileArgs :=
  {| a_channel_idx := channel_idx;
     a_time_idx := time_idx;
     a_slice_idx := slice_idx;
     a_pos_idx := pos_idx;
     a_task := tk;
     a_tile_dir := tile_dir self |}.

Definition tile_row (a : CropTileArgs) (row_start col_start : Z) : Tile.t :=
  Tile.mk (a_time_idx a) (a_channel_idx a) (a_slice_idx a) (a_pos_idx a)
    row_start col_start
    (tile_name (a_time_idx a) (a_channel_idx a) (a_slice_idx a)
       (a_pos_idx a) row_start col_start).

(** Modelled from the spec: the job of [mp_utils.mp_tile_save] is not
    among the sources.  The specification: "each retained tile is saved
    as a file and recorded as a TileRecord". *)
Definition tile_and_save (a : CropTileArgs) : list Tile.t :=
  map (fun o => tile_row a (fst o) (snd o)) (tile_image a).

(** Modelled from the spec: the job of [mp_utils.mp_crop_save] is not
    among the sources.  The specification: "crop exactly those
    coordinates from the current channel's frame, save, and record a
    TileRecord reusing the coordinates" of the reference tile. *)
Definition crop_and_save (a : CropTileArgs) : list Tile.t :=
  match a_task a with
  | CropTask tile_indices =>
      map (fun '(r0, _, c0, _) => tile_row a r0 c0) tile_indices
  | TileTask _ _ _ => []
  end.

Definition save_tiles (a : CropTileArgs) (rows : list Tile.t) (fs : Fs.t)
  : Fs.t :=
  fold_left
    (fun fs r =>
       Fs.write (Fs.join (a_tile_dir a) (Tile.file_name r)) Fs.Image fs)
    rows fs.

(** The pool: every job runs, writes its own files and returns its rows;
    the results come back in submission order. *)
Fixpoint mp_save (job : CropTileArgs -> list Tile.t)
  (fn_args : list CropTileArgs) : M Fs.t (list (list Tile.t)) :=
  match fn_args with
  | [] => ret []
  | a :: rest =>
      (_ <- modify (save_tiles a (job a)) ;;
       dfs <- mp_save job rest ;;
       ret (job a :: dfs))%m
  end.

Definition mp_tile_save := mp_save tile_and_save.
Definition mp_crop_save := mp_save crop_and_save.

(** Lines 93-113 of [tile_first_channel]: the jobs of the first channel
    or of the mask. *)
Definition tile_first_channel_args (self : Tiler) (channel0_ids : IndexTree)
  (channel0_depth : Z) (cur_mask_dir : option string) (is_mask : bool)
  : result (list CropTileArgs) :=
  for_each channel0_ids
    (fun '(tp_idx, tp_dict) fn_args =>
       for_each tp_dict
         (fun '(ch_idx, ch_dict) fn_args =>
            (normalize_im <-
               (if is_mask then Ok false
                else getitem (normalize_channels self) ch_idx) ;;
             for_each ch_dict
               (fun '(pos_idx, sl_idx_list) fn_args =>
                  let cur_sl_idx_list :=
                    adjust_slice_margins sl_idx_list channel0_depth in
                  for_each cur_sl_idx_list
                    (fun sl_idx fn_args =>
                       let cur_args :=
                         get_crop_tile_args self ch_idx tp_idx sl_idx pos_idx
                           (TileTask (tile_size self) (step_size self)
                              cur_mask_dir) in
                       Ok (fn_args ++ [cur_args]))
                    fn_args)
               fn_args)%py)
         fn_args)
    [].

Definition tile_first_channel (channel0_ids : IndexTree)
  (channel0_depth : Z) (cur_mask_dir : option string) (is_mask : bool)
  : M World (list Tile.t) :=
  (w <- get ;;
   let self := fst w in
   fn_args <-
     lift (tile_first_channel_args self channel0_ids channel0_depth
             cur_mask_dir is_mask) ;;
   ch0_meta_df_list <- on_fs (mp_tile_save fn_args) ;;
   ch0_meta_df <- lift (pd_concat ch0_meta_df_list) ;;
   let ch0_meta_df := sort_values_file_name ch0_meta_df in
   _ <- on_fs (Fs.to_csv (Fs.join (tile_dir self) "frames_meta.csv")
                 (Fs.TilesMeta ch0_meta_df)) ;;
   ret ch0_meta_df)%m.

(** Lines 138-164 of [tile_remaining_channels]: the crop jobs. *)
Definition tile_remaining_channels_args (self : Tiler)
  (nested_id_dict : IndexTree) (tiled_ch_id : Z) (cur_meta_df : list Tile.t)
  : result (list CropTileArgs) :=
  for_each nested_id_dict
    (fun '(tp_idx, tp_dict) fn_args =>
       for_each tp_dict
         (fun '(ch_idx, ch_dict) fn_args =>
            for_each ch_dict
              (fun '(pos_idx, sl_idx_list) fn_args =>
                 (depth <- getitem (channel_depth self) ch_idx ;;
                  let cur_sl_idx_list :=
                    adjust_slice_margins sl_idx_list depth in
                  for_each cur_sl_idx_list
                    (fun sl_idx fn_args =>
                       let cur_tile_indices :=
                         _get_tile_indices (tile_size self) cur_meta_df
                           tp_idx tiled_ch_id pos_idx sl_idx in
                       list_idx <- index (channel_ids self) ch_idx ;;
                       if np_any cur_tile_indices then
                         let cur_args :=
                           get_crop_tile_args self ch_idx tp_idx sl_idx
                             pos_idx (CropTask cur_tile_indices) in
                         Ok (fn_args ++ [cur_args])
                       else Ok fn_args)
                    fn_args)%py)
              fn_args)
         fn_args)
    [].

(** The rows that the crop jobs of [tile_remaining_channels] return:
    [tiled_metadata] before it is joined to [cur_meta_df]. *)
Definition cropped_metadata (self : Tiler) (nested_id_dict : IndexTree)
  (tiled_ch_id : Z) (cur_meta_df : list Tile.t) : result (list Tile.t) :=
  (fn_args <-
     tile_remaining_channels_args self nested_id_dict tiled_ch_id
       cur_meta_df ;;
   pd_concat (map crop_and_save fn_args))%py.

Definition tile_remaining_channels (nested_id_dict : IndexTree)
  (tiled_ch_id : Z) (cur_meta_df : list Tile.t) : M World unit :=
  (w <- get ;;
   let self := fst w in
   fn_args <-
     lift (tile_remaining_channels_args self nested_id_dict tiled_ch_id
             cur_meta_df) ;;
   tiled_meta_df_list <- on_fs (mp_crop_save fn_args) ;;
   tiled_metadata <- lift (pd_concat tiled_meta_df_list) ;;
   let tiled_metadata := cur_meta_df ++ tiled_metadata in
   let tiled_metadata := sort_values_file_name tiled_metadata in
   on_fs (Fs.to_csv (Fs.join (tile_dir self) "frames_meta.csv")
            (Fs.TilesMeta tiled_metadata)))%m.

(** [_ = self.channel_ids.pop(0)] *)
Definition pop_channel_ids : M World unit :=
  (w <- get ;;
   popped <- lift (pop0 (channel_ids (fst w))) ;;
   put (set_channel_ids (snd popped) (fst w), snd w))%m.

Definition tile_stack : M World unit :=
  (w <- get ;;
   let self := fst w in
   ch_to_tile <- lift (first (channel_ids self)) ;;
   ch_depth <- lift (getitem (channel_depth self) ch_to_tile) ;;
   ids <- lift (tile_stack_ids ch_to_tile (nested_id_dict self)) ;;
   let ch0_ids := fst ids in
   let nested_id_dict_copy := snd ids in
   meta_df <- tile_first_channel ch0_ids ch_depth None false ;;
   _ <- pop_channel_ids ;;
   w <- get ;;
   match channel_ids (fst w) with
   | [] => ret tt
   | _ :: _ =>
       tile_remaining_channels nested_id_dict_copy ch_to_tile meta_df
   end)%m.

(** [max(self.channel_depth.values())] *)
Definition max_depth (channel_depth : dict Z) : result Z :=
  match map snd channel_depth with
  | [] => Raise ValueError
  | d :: ds => Ok (fold_left Z.max ds d)
  end.

Definition tile_mask_stack (mask_dir : string) (mask_channel mask_depth : Z)
  : M World unit :=
  (w <- get ;;
   deepest <- lift (max_depth (channel_depth (fst w))) ;;
   _ <- assert (mask_depth <=? deepest) "" ;;
   _ <- put (set_mask_depth mask_depth (fst w), snd w) ;;
   w <- get ;;
   let self := fst w in
   mask_meta_df <- on_fs (read_meta mask_dir) ;;
   validated <-
     lift (validate_metadata_indices mask_meta_df (time_ids self)
             (Ids [mask_channel]) (slice_ids self) (pos_ids self) false) ;;
   let mask_nested_id_dict := snd validated in
   let mask_ch_ids := tile_mask_stack_ids mask_channel mask_nested_id_dict in
   meta_df <- tile_first_channel mask_ch_ids mask_depth (Some mask_dir) true ;;
   tile_remaining_channels (nested_id_dict self) mask_channel meta_df)%m.

End Tiling.

(** *** Propagation, leaf by leaf *)

(** The slices of a leaf that propagation visits for channel [ch_idx]:
    the leaf's slice list, adjusted for the depth of that channel. *)
Definition propagated_slices (self : Tiler) (ch_idx : Z) (sl_idx_list : list Z)
  : list Z :=
  match dict_get ch_idx (channel_depth self) with
  | Some depth => adjust_slice_margins sl_idx_list depth
  | None => []
  end.

(** The crop job of one visited slice, if the tiled channel has tiles
    there. *)
Definition slice_crop_args (self : Tiler) (tiled_ch_id : Z)
  (cur_meta_df : list Tile.t) (tp_idx ch_idx pos_idx sl_idx : Z)
  : list CropTileArgs :=
  let cur_tile_indices :=
    _get_tile_indices (tile_size self) cur_meta_df tp_idx tiled_ch_id pos_idx
      sl_idx in
  if np_any cur_tile_indices then
    [get_crop_tile_args self ch_idx tp_idx sl_idx pos_idx
       (CropTask cur_tile_indices)]
  else [].

(** The crop jobs of a whole tree, in the order of the loops. *)
Definition crop_jobs (self : Tiler) (nested_id_dict : IndexTree)
  (tiled_ch_id : Z) (cur_meta_df : list Tile.t) : list CropTileArgs :=
  flat_map
    (fun '(tp_idx, tp_dict) =>
       flat_map
         (fun '(ch_idx, ch_dict) =>
            flat_map
              (fun '(pos_idx, sl_idx_list) =>
                 flat_map
                   (slice_crop_args self tiled_ch_id cur_meta_df tp_idx ch_idx
                      pos_idx)
                   (propagated_slices self ch_idx sl_idx_list))
              ch_dict)
         tp_dict)
    nested_id_dict.

(** The jobs of the first channel, in the order of the loops. *)
Definition first_channel_jobs (self : Tiler) (channel0_ids : IndexTree)
  (channel0_depth : Z) (cur_mask_dir : option string) : list CropTileArgs :=
  flat_map
    (fun '(tp_idx, tp_dict) =>
       flat_map
         (fun '(ch_idx, ch_dict) =>
            flat_map
              (fun '(pos_idx, sl_idx_list) =>
                 map
                   (fun sl_idx =>
                      get_crop_tile_args self ch_idx tp_idx sl_idx pos_idx
                        (TileTask (tile_size self) (step_size self)
                           cur_mask_dir))
                   (adjust_slice_margins sl_idx_list channel0_depth))
              ch_dict)
         tp_dict)
    channel0_ids.

(* ================================================================== *)
(** ** A small data set *)
(* ================================================================== *)

(** [str(z)] *)
Definition py_str (z : Z) : string := NilZero.string_of_int (Z.to_int z).

Module Demo.

(** A naming scheme for tile files. *)
Definition tile_name (t c z p r0 c0 : Z) : string :=
  ("im_c" ++ py_str c ++ "_z" ++ py_str z ++ "_t" ++ py_str t ++ "_p"
   ++ py_str p ++ "_r" ++ py_str r0 ++ "_c" ++ py_str c0)%string.

Definition grid_axis (size tile step : Z) : list Z :=
  if tile <=? size then
    map (fun i => Z.of_nat i * step)
      (seq 0 (Z.to_nat ((size - tile) / step + 1)))
  else [].

(** Modelled from the spec: the tiling of one frame is not among the
    sources.  The specification: "origins are row_start = i*step_h,
    col_start = j*step_w for all i,j such that the tile fits fully within
    the image", [floor((H-th)/sh)+1] by [floor((W-tw)/sw)+1] of them. *)
Definition grid_origins (shape tile_size step_size : Z * Z) : list (Z * Z) :=
  list_prod (grid_axis (fst shape) (fst tile_size) (fst step_size))
    (grid_axis (snd shape) (snd tile_size) (snd step_size)).

(** A tiling worker over frames that all have the same shape. *)
Definition tile_image (shape : Z * Z) (a : CropTileArgs) : list (Z * Z) :=
  match a_task a with
  | TileTask tile_size step_size _ => grid_origins shape tile_size step_size
  | CropTask _ => []
  end.

(** Scenario B of the specification: at time 0 and position 0 the first
    channel has slices 0, 1, 2 and the second channel slices 0, 1. *)
Definition tree_B : IndexTree :=
  [(0, [(0, [(0, [0; 1; 2])]); (1, [(0, [0; 1])])])].

Definition tiler_B : Tiler :=
  {| tile_dir := "out/tiles_128_step_64";
     tile_size := (128, 128);
     step_size := (64, 64);
     channel_ids := [0; 1];
     channel_depth := [(0, 1); (1, 1)];
     normalize_channels := [(0, true); (1, true)];
     nested_id_dict := tree_B;
     frames_metadata := [];
     time_ids := AllIds;
     slice_ids := AllIds;
     pos_ids := AllIds;
     mask_depth := None |}.

Definition world_B : World := (tiler_B, [("out/tiles_128_step_64", Fs.Directory)]).

(** Frames of 128 rows and 192 columns: two tiles a frame. *)
Definition shape_B : Z * Z := (128, 192).

(** The table of the first channel of scenario B. *)
Definition ref_B : list Tile.t :=
  flat_map
    (fun sl =>
       map (fun o => Tile.mk 0 0 sl 0 (fst o) (snd o)
                       (tile_name 0 0 sl 0 (fst o) (snd o)))
         (grid_origins shape_B (128, 128) (64, 64)))
    [0; 1; 2].

(** The tree of the remaining channel of scenario B. *)
Definition remaining_B : IndexTree := [(0, [(1, [(0, [0; 1])])])].

(** A tree in which the first channel has no frame at time 1. *)
Definition tree_gap : IndexTree :=
  [(0, [(0, [(0, [0; 1; 2])]); (1, [(0, [0; 1])])]);
   (1, [(1, [(0, [0])])])].

(** Two channels of depths 1 and 3 over the same five slices. *)
Definition tree_depths : IndexTree :=
  [(0, [(1, [(0, [0; 1; 2; 3; 4])]); (2, [(0, [0; 1; 2; 3; 4])])])].

Definition tiler_depths : Tiler :=
  {| tile_dir := "out/tiles_128_step_64";
     tile_size := (128, 128);
     step_size := (64, 64);
     channel_ids := [1; 2];
     channel_depth := [(0, 5); (1, 1); (2, 3)];
     normalize_channels := [(0, true); (1, true); (2, true)];
     nested_id_dict := tree_depths;
     frames_metadata := [];
     time_ids := AllIds;
     slice_ids := AllIds;
     pos_ids := AllIds;
     mask_depth := None |}.

Definition ref_depths : list Tile.t :=
  map (fun sl => Tile.mk 0 0 sl 0 0 0 (tile_name 0 0 sl 0 0 0))
    [0; 1; 2; 3; 4].


(** The same two channels with depths 2 and 3. *)
Definition tiler_depths_2_3 : Tiler :=
  {| tile_dir := "out/tiles_128_step_64";
     tile_size := (128, 128);
     step_size := (64, 64);
     channel_ids := [1; 2];
     channel_depth := [(0, 5); (1, 2); (2, 3)];
     normalize_channels := [(0, true); (1, true); (2, true)];
     nested_id_dict := tree_depths;
     frames_metadata := [];
     time_ids := AllIds;
     slice_ids := AllIds;
     pos_ids := AllIds;
     mask_depth := None |}.

End Demo.

Module DemoRuns.

(** Scenario B after its second phase. *)
Definition world_B_propagated : World :=
  snd (tile_remaining_channels Demo.tile_name Demo.remaining_B 0 Demo.ref_B
         Demo.world_B).

(** Scenario B after its first phase. *)
Definition world_B_first : World :=
  snd (tile_first_channel (Demo.tile_image Demo.shape_B) Demo.tile_name
         (restrict_channel 0 Demo.tree_B) 1 None false Demo.world_B).

(** Scenario B after a whole run of [tile_stack]. *)
Definition world_B_tiled : World :=
  snd (tile_stack (Demo.tile_image Demo.shape_B) Demo.tile_name Demo.world_B).

End DemoRuns.

(** *** Words for the properties of tiling *)

Module TilingSpec.


(** The statement that nothing is tiled into a tile directory that holds
    a table already, for one run of [tile_stack]: when
    [frames_meta.csv] is in the tile directory, the tables and images on
    the disk after the run are those before it. *)
Definition no_tiling_into_existing_set
  (tile_image : CropTileArgs -> list (Z * Z))
  (tile_name : Z -> Z -> Z -> Z -> Z -> Z -> string) (w : World) : Prop :=
  Fs.path_exists (Fs.join (tile_dir (fst w)) "frames_meta.csv") (snd w)
  = true ->
  Fs.regular_files (snd (snd (tile_stack tile_image tile_name w)))
  = Fs.regular_files (snd w).

End TilingSpec.

(* ================================================================== *)
(** ** Construction of [ImageTilerNonUniform] *)
(* ================================================================== *)

Module Args.
Record t : Type := {
  input_dir : string;
  output_dir : string;
  tile_size : Z * Z;
  step_size : Z * Z;
  depths : dict Z;
  time_ids : ids;
  channel_ids : ids;
  normalize_channels : dict bool;
  slice_ids : ids;
  pos_ids : ids
}.
End Args.

Section Construction.

(** [aux_utils.validate_metadata_indices]: a function of the table and of
    the requested indices, without effect; it is not among the sources
    and is left open. *)
Variable validate_metadata_indices :
  list Frame.t -> ids -> ids -> ids -> ids -> bool ->
  result (MetadataIds * IndexTree).

(** The name of the tile directory, from the tile and step sizes. *)
Variable tile_dir_name : Z * Z -> Z * Z -> string.

Definition target_tile_dir (args : Args.t) : string :=
  Fs.join (Args.output_dir args)
    (tile_dir_name (Args.tile_size args) (Args.step_size args)).

(** Modelled from the spec: [ImageTilerUniform.__init__] is not among the
    sources.  What is known of it: it reads the frames table of the input
    directory, validates the requested indices, fills the fields of the
    object from its arguments, and creates the tile directory (the
    subclass: "self.tile_dir is already created in super()"); the
    specification: "tile outputs live under a tile directory whose
    presence of a metadata table is the already-tiled guard". *)
Definition ImageTilerUniform__init__ (args : Args.t) : M Fs.t Tiler :=
  (frames_metadata <- read_meta (Args.input_dir args) ;;
   validated <-
     lift (validate_metadata_indices frames_metadata (Args.time_ids args)
             (Args.channel_ids args) (Args.slice_ids args)
             (Args.pos_ids args) true) ;;
   _ <- Fs.makedirs (target_tile_dir args) ;;
   ret {| tile_dir := target_tile_dir args;
          tile_size := Args.tile_size args;
          step_size := Args.step_size args;
          channel_ids := m_channel_ids (fst validated);
          channel_depth := Args.depths args;
          normalize_channels := Args.normalize_channels args;
          nested_id_dict := [];
          frames_metadata := frames_metadata;
          time_ids := Args.time_ids args;
          slice_ids := Args.slice_ids args;
          pos_ids := Args.pos_ids args;
          mask_depth := None |})%m.

(** [ImageTilerNonUniform.__init__] *)
Definition ImageTilerNonUniform__init__ (args : Args.t) : M Fs.t Tiler :=
  (self <- ImageTilerUniform__init__ args ;;
   validated <-
     lift (validate_metadata_indices (frames_metadata self)
             (Args.time_ids args) (Args.channel_ids args)
             (Args.slice_ids args) (Args.pos_ids args) false) ;;
   let self := set_nested_id_dict (snd validated) self in
   let meta_path := Fs.join (tile_dir self) "frames_meta.csv" in
   fs <- get ;;
   _ <- assert (negb (Fs.path_exists meta_path fs))
          "Tile dir exists. cannot add to existing dir" ;;
   ret self)%m.

End Construction.

Module DemoInit.

Definition frames : list Frame.t :=
  [Frame.mk "in" 0 0 0 0 "im_c0_z0_t0_p0.png" None None None;
   Frame.mk "in" 0 1 0 0 "im_c1_z0_t0_p0.png" None None None].

Definition validate (frames_metadata : list Frame.t)
  (time_ids channel_ids slice_ids pos_ids : ids) (uniform : bool)
  : result (MetadataIds * IndexTree) :=
  Ok ({| m_time_ids := [0]; m_channel_ids := [0; 1]; m_slice_ids := [0];
         m_pos_ids := [0] |},
      [(0, [(0, [(0, [0])]); (1, [(0, [0])])])]).

Definition tile_dir_name (tile_size step_size : Z * Z) : string :=
  ("tiles_" ++ py_str (fst tile_size) ++ "_step_" ++ py_str (fst step_size))%string.

Definition args : Args.t :=
  {| Args.input_dir := "in";
     Args.output_dir := "out";
     Args.tile_size := (128, 128);
     Args.step_size := (64, 64);
     Args.depths := [(0, 1); (1, 1)];
     Args.time_ids := AllIds;
     Args.channel_ids := AllIds;
     Args.normalize_channels := [(0, true); (1, true)];
     Args.slice_ids := AllIds;
     Args.pos_ids := AllIds |}.

(** A disk with the input frames only. *)
Definition fresh : Fs.t :=
  [("in", Fs.Directory); ("in/frames_meta.csv", Fs.FramesMeta frames)].

(** The same disk after an earlier tiling. *)
Definition tiled : Fs.t :=
  fresh ++
  [("out/tiles_128_step_64", Fs.Directory);
   ("out/tiles_128_step_64/im_c0_z0_t0_p0_r0_c0", Fs.Image);
   ("out/tiles_128_step_64/frames_meta.csv",
    Fs.TilesMeta [Tile.mk 0 0 0 0 0 0 "im_c0_z0_t0_p0_r0_c0"])].

End DemoInit.

(* ================================================================== *)
(** ** [meta_utils.compute_zscore_params] *)
(* ================================================================== *)

Module MetaUtils.

(** The columns that the aggregation groups by. *)
Inductive col : Type := TimeIdx | ChannelIdx | DirName | PosIdx | SliceIdx.

Inductive cell : Type :=
| CInt (z : Z)
| CStr (s : string).

Definition key : Type := list cell.

Definition frame_cell (r : Frame.t) (c : col) : cell :=
  match c with
  | TimeIdx => CInt (Frame.time_idx r)
  | ChannelIdx => CInt (Frame.channel_idx r)
  | DirName => CStr (Frame.dir_name r)
  | PosIdx => CInt (Frame.pos_idx r)
  | SliceIdx => CInt (Frame.slice_idx r)
  end.

Definition ints_cell (r : Ints.t) (c : col) : cell :=
  match c with
  | TimeIdx => CInt (Ints.time_idx r)
  | ChannelIdx => CInt (Ints.channel_idx r)
  | DirName => CStr (Ints.dir_name r)
  | PosIdx => CInt (Ints.pos_idx r)
  | SliceIdx => CInt (Ints.slice_idx r)
  end.

Definition frame_key (agg_cols : list col) (r : Frame.t) : key :=
  map (frame_cell r) agg_cols.

Definition ints_key (agg_cols : list col) (r : Ints.t) : key :=
  map (ints_cell r) agg_cols.

Definition cell_eqb (a b : cell) : bool :=
  match a, b with
  | CInt x, CInt y => x =? y
  | CStr x, CStr y => String.eqb x y
  | _, _ => false
  end.

Definition cell_ltb (a b : cell) : bool :=
  match a, b with
  | CInt x, CInt y => x <? y
  | CStr x, CStr y => String.ltb x y
  | CInt _, CStr _ => true
  | CStr _, CInt _ => false
  end.

Fixpoint key_eqb (a b : key) : bool :=
  match a, b with
  | [], [] => true
  | x :: a', y :: b' => cell_eqb x y && key_eqb a' b'
  | _, _ => false
  end.

(** Lexicographic order of group keys. *)
Fixpoint key_leb (a b : key) : bool :=
  match a, b with
  | [], _ => true
  | _ :: _, [] => false
  | x :: a', y :: b' =>
      cell_ltb x y || (cell_eqb x y && key_leb a' b')
  end.

(** *** Order statistics *)

Fixpoint insert_q (x : Q) (l : list Q) : list Q :=
  match l with
  | [] => [x]
  | y :: l' => if Qle_bool x y then x :: l else y :: insert_q x l'
  end.

Definition sort_q (l : list Q) : list Q := fold_right insert_q [] l.

(** [Series.quantile(q)] with pandas' default linear interpolation
    between the two closest ranks; [None] on no value. *)
Definition quantile (q : Q) (l : list Q) : option Q :=
  match sort_q l with
  | [] => None
  | (x0 :: _) as s =>
      let pos := (inject_Z (Z.of_nat (List.length s) - 1) * q)%Q in
      let lo := Qfloor pos in
      let frac := (pos - inject_Z lo)%Q in
      let a := nth (Z.to_nat lo) s x0 in
      let b := nth (Z.to_nat (lo + 1)) s a in
      Some (Qred (a + (b - a) * frac))
  end.

(** [Series.median()] *)
Definition median (l : list Q) : option Q := quantile (1 # 2) l.

(** *** [groupby(agg_cols)] on the intensity samples *)

Definition groups : Type := list (key * list Q).

(** One more sample: into its group, or into a new group. *)
Fixpoint group_add (k : key) (v : Q) (gs : groups) : groups :=
  match gs with
  | [] => [(k, [v])]
  | (k', vs) :: gs' =>
      if key_eqb k' k then (k', vs ++ [v]) :: gs'
      else (k', vs) :: group_add k v gs'
  end.

Fixpoint insert_group (g : key * list Q) (gs : groups) : groups :=
  match gs with
  | [] => [g]
  | g' :: gs' =>
      if key_leb (fst g) (fst g') then g :: gs else g' :: insert_group g gs'
  end.

(** The groups of [ints_meta[agg_cols + ['intensity']].groupby(agg_cols)],
    each with its intensities in row order; pandas sorts the groups by
    key. *)
Definition groupby (agg_cols : list col) (ints_meta : list Ints.t) : groups :=
  fold_right insert_group []
    (fold_left
       (fun gs r => group_add (ints_key agg_cols r) (Ints.intensity r) gs)
       ints_meta []).

(** A row of [ints_agg]: the group key, [zscore_median], [zscore_iqr]. *)
Definition agg_row : Type := (key * option Q * option Q)%type.

Definition sub_opt (a b : option Q) : option Q :=
  match a, b with
  | Some x, Some y => Some (Qred (x - y))
  | _, _ => None
  end.

Definition aggregate (gs : groups) : list agg_row :=
  map
    (fun g =>
       (fst g, median (snd g),
        sub_opt (quantile (3 # 4) (snd g)) (quantile (1 # 4) (snd g))))
    gs.

(** [ints_meta['fg_frac'] >= min_fraction]: a comparison with a missing
    value is false. *)
Definition fg_frac_ge (min_fraction : Q) (r : Ints.t) : bool :=
  match Ints.fg_frac r with
  | Some f => Qle_bool min_fraction f
  | None => false
  end.

Definition set_zscore_median (v : option Q) (r : Frame.t) : Frame.t :=
  Frame.mk (Frame.dir_name r) (Frame.time_idx r) (Frame.channel_idx r)
    (Frame.slice_idx r) (Frame.pos_idx r) (Frame.file_name r) v
    (Frame.zscore_iqr r) (Frame.fg_frac r).

Definition set_zscore (median iqr : option Q) (r : Frame.t) : Frame.t :=
  Frame.mk (Frame.dir_name r) (Frame.time_idx r) (Frame.channel_idx r)
    (Frame.slice_idx r) (Frame.pos_idx r) (Frame.file_name r) median iqr
    (Frame.fg_frac r).

(** [pd.merge(frames_meta[cols_to_merge], ints_agg, how='left',
    on=agg_cols)]: the rows of the left table in their order, each once
    for every row of the right table with the same key, and once with
    missing values when there is none.  [cols_to_merge] leaves the two
    z-score columns of the left table out. *)
Definition merge_left (agg_cols : list col) (frames_meta : list Frame.t)
  (ints_agg : list agg_row) : list Frame.t :=
  flat_map
    (fun r =>
       match
         filter (fun a => key_eqb (fst (fst a)) (frame_key agg_cols r))
           ints_agg
       with
       | [] => [set_zscore None None r]
       | matches =>
           map (fun a => set_zscore (snd (fst a)) (snd a) r) matches
       end)
    frames_meta.

Definition normalize_im_valid (normalize_im : option string) : bool :=
  match normalize_im with
  | None => true
  | Some s =>
      String.eqb s "slice" || String.eqb s "volume" || String.eqb s "dataset"
  end.

Definition agg_cols_of (scheme : string) : list col :=
  if String.eqb scheme "dataset" then [TimeIdx; ChannelIdx; DirName]
  else if String.eqb scheme "volume" then
    [TimeIdx; ChannelIdx; DirName; PosIdx]
  else [TimeIdx; ChannelIdx; DirName; PosIdx; SliceIdx].

(** The table [ints_agg] of lines 142-152. *)
Definition ints_agg_of (agg_cols : list col) (ints_meta : list Ints.t)
  (min_fraction : Q) : list agg_row :=
  let ints_meta := filter (fg_frac_ge min_fraction) ints_meta in
  aggregate (groupby agg_cols ints_meta).

(** A word in double quotes. *)
Definition quoted (s : string) : string :=
  String "034"%char (s ++ String "034"%char EmptyString)%string.

(** The message of the assertion of line 126. *)
Definition normalize_im_message : string :=
  ("normalize_im must be None or " ++ quoted "slice" ++ " or "
   ++ quoted "volume" ++ " or " ++ quoted "dataset")%string.

Definition compute_zscore_params (frames_meta : list Frame.t)
  (ints_meta : list Ints.t) (input_dir : string)
  (normalize_im : option string) (min_fraction : Q)
  : M Fs.t (list Frame.t) :=
  (_ <- assert (normalize_im_valid normalize_im) normalize_im_message ;;
   match normalize_im with
   | None =>
       let frames_meta := map (set_zscore_median (Some 0%Q)) frames_meta in
       let frames_meta := map (set_zscore_median (Some 1%Q)) frames_meta in
       ret frames_meta
   | Some scheme =>
       let agg_cols := agg_cols_of scheme in
       let ints_agg := ints_agg_of agg_cols ints_meta min_fraction in
       let frames_meta := merge_left agg_cols frames_meta ints_agg in
       let frames_meta_filename := Fs.join input_dir "frames_meta.csv" in
       _ <- Fs.to_csv frames_meta_filename (Fs.FramesMeta frames_meta) ;;
       ret frames_meta
   end)%m.

End MetaUtils.

(** *** Words for the properties of the merge *)

Module MetaSpec.
Import MetaUtils.

(** Every column but the two z-score columns is the same. *)
Definition same_other_columns (r r' : Frame.t) : Prop :=
  Frame.dir_name r' = Frame.dir_name r /\
  Frame.time_idx r' = Frame.time_idx r /\
  Frame.channel_idx r' = Frame.channel_idx r /\
  Frame.slice_idx r' = Frame.slice_idx r /\
  Frame.pos_idx r' = Frame.pos_idx r /\
  Frame.file_name r' = Frame.file_name r /\
  Frame.fg_frac r' = Frame.fg_frac r.

(** The frame matches no aggregation group. *)
Definition unmatched (agg_cols : list col) (ints_agg : list agg_row)
  (r : Frame.t) : Prop :=
  forall a, In a ints_agg -> fst (fst a) <> frame_key agg_cols r.

(** The statement that unmatched rows keep their earlier z-score values,
    for one call: the result has the rows of [frames_meta] one for one,
    each with its other columns, and with its earlier z-score values when
    no group matches it. *)
Definition keeps_prior_zscore (frames_meta : list Frame.t)
  (ints_meta : list Ints.t) (input_dir scheme : string) (min_fraction : Q)
  (fs : Fs.t) : Prop :=
  forall out fs',
    compute_zscore_params frames_meta ints_meta input_dir (Some scheme)
      min_fraction fs = (Ok out, fs') ->
    Forall2
      (fun r r' =>
         same_other_columns r r' /\
         (unmatched (agg_cols_of scheme)
            (ints_agg_of (agg_cols_of scheme) ints_meta min_fraction) r ->
          Frame.zscore_median r' = Frame.zscore_median r /\
          Frame.zscore_iqr r' = Frame.zscore_iqr r))
      frames_meta out.

(** The sample has a foreground fraction. *)
Definition has_fg_frac (r : Ints.t) : bool :=
  match Ints.fg_frac r with Some _ => true | None => false end.

(** Two frames of one directory, the first with z-score values from an
    earlier run, and samples of the first frame only; the sample of the
    second frame has no foreground fraction. *)
Definition frames : list Frame.t :=
  [Frame.mk "in" 0 0 0 0 "im_c0_z0_t0_p0.png" (Some (5 # 1)) (Some (2 # 1))
     None;
   Frame.mk "in" 0 1 0 0 "im_c1_z0_t0_p0.png" (Some (7 # 1)) (Some (3 # 1))
     (Some (1 # 2))].

Definition ints : list Ints.t :=
  [Ints.mk "in" 0 0 0 0 (10 # 1) (Some (1 # 2));
   Ints.mk "in" 0 0 0 0 (20 # 1) (Some (1 # 2));
   Ints.mk "in" 0 0 0 0 (40 # 1) (Some (1 # 2));
   Ints.mk "in" 0 0 0 0 (30 # 1) (Some (1 # 2));
   Ints.mk "in" 0 1 0 0 (7 # 1) None].

(** A disk with the input directory [in] and nothing in it. *)
Definition disk : Fs.t := [("in", Fs.Directory)].

End MetaSpec.

(* ================================================================== *)
(** ** Construction of [MaskProcessor] *)
(* ================================================================== *)

Module MaskArgs.
Record t : Type := {
  input_dir : string;
  output_dir : string;
  channel_ids : ids;
  flat_field_dir : option string;
  time_ids : ids;
  slice_ids : ids;
  pos_ids : ids;
  int2str_len : Z;
  uniform_struct : bool;
  num_workers : Z;
  mask_type : string;
  mask_channel : option Z;
  mask_ext : string
}.
End MaskArgs.

(** A row of [channel_thr_df]: directory, channel, threshold. *)
Definition ThrRow : Type := (string * Z * Q)%type.

Record MaskProcessor : Type := {
  mp_input_dir : string;
  mp_output_dir : string;
  mp_flat_field_dir : option string;
  mp_num_workers : Z;
  mp_frames_metadata : list Frame.t;
  mp_mask_channel : Z;
  mp_frames_meta_sub : list Frame.t;
  mp_channel_ids : list Z;
  mp_mask_dir : string;
  mp_int2str_len : Z;
  mp_uniform_struct : bool;
  mp_nested_id_dict : IndexTree;
  mp_mask_type : string;
  mp_ints_metadata : option (list Ints.t);
  mp_channel_thr_df : option (list ThrRow);
  mp_mask_ext : string
}.

(** [aux_utils.read_meta(dir, 'intensity_meta.csv')] *)
Definition read_ints_meta (dir meta_fname : string) : M Fs.t (list Ints.t) :=
  fun fs =>
    match Fs.lookup (Fs.join dir meta_fname) fs with
    | Some (Fs.IntsMeta rows) => (Ok rows, fs)
    | _ => (Raise FileNotFoundError, fs)
    end.

(** [int(frames_metadata['channel_idx'].max() + 1)]: the maximum of an
    empty column is missing, and [int] of a missing value raises. *)
Definition next_channel (frames_metadata : list Frame.t) : result Z :=
  match map Frame.channel_idx frames_metadata with
  | [] => Raise ValueError
  | c :: cs => Ok (fold_left Z.max cs c + 1)
  end.

(** [str(mask_channel)] of the constructor's argument. *)
Definition str_mask_channel (mask_channel : option Z) : string :=
  match mask_channel with
  | None => "None"
  | Some c => py_str c
  end.

(** [mask_type in ['otsu', 'unimodal', 'dataset otsu',
    'borders_weight_loss_map']] *)
Definition mask_type_supported (mask_type : string) : bool :=
  existsb (String.eqb mask_type)
    ["otsu"; "unimodal"; "dataset otsu"; "borders_weight_loss_map"].

Section MaskConstruction.

(** Collaborators that are not among the sources, left open:
    [aux_utils.validate_metadata_indices] and [aux_utils.get_sub_meta],
    functions of the table and the requested indices, and
    [skimage.filters.threshold_otsu], which may reject its input. *)
Variable validate_metadata_indices :
  list Frame.t -> ids -> ids -> ids -> ids -> bool ->
  result (MetadataIds * IndexTree).
Variable get_sub_meta :
  list Frame.t -> list Z -> list Z -> list Z -> list Z -> list Frame.t.
Variable threshold_otsu : list Q -> result Q.

(** Whether two equal strings are one object for the test [is] of line
    88 (interning is up to the interpreter). *)
Variable interned : bool.

(** [MaskProcessor.get_channel_thr_df] *)
Definition get_channel_thr_df (ints_metadata : list Ints.t)
  (channel_ids : list Z) : result (list ThrRow) :=
  let ints_meta_sub :=
    filter (fun r => existsb (Z.eqb (Ints.channel_idx r)) channel_ids)
      ints_metadata in
  for_each
    (MetaUtils.groupby [MetaUtils.DirName; MetaUtils.ChannelIdx]
       ints_meta_sub)
    (fun g rows =>
       (thr <- threshold_otsu (snd g) ;;
        match fst g with
        | [MetaUtils.CStr d; MetaUtils.CInt c] => Ok (rows ++ [(d, c, thr)])
        | _ => Ok rows
        end)%py)
    [].

(** Lines 55-99 of [MaskProcessor.__init__]: everything before the test
    of [mask_type].  [frames_metadata] always has its [dir_name] column
    here, so line 62 has nothing to add. *)
Definition MaskProcessor_setup (args : MaskArgs.t) : M Fs.t MaskProcessor :=
  (frames_metadata <- read_meta (MaskArgs.input_dir args) ;;
   mask_channel <-
     lift (match MaskArgs.mask_channel args with
           | None => next_channel frames_metadata
           | Some c => Ok c
           end) ;;
   validated <-
     lift (validate_metadata_indices frames_metadata (MaskArgs.time_ids args)
             (MaskArgs.channel_ids args) (MaskArgs.slice_ids args)
             (MaskArgs.pos_ids args) (MaskArgs.uniform_struct args)) ;;
   let metadata_ids := fst validated in
   let frames_meta_sub :=
     get_sub_meta frames_metadata (m_time_ids metadata_ids)
       (m_channel_ids metadata_ids) (m_slice_ids metadata_ids)
       (m_pos_ids metadata_ids) in
   let channel_ids := m_channel_ids metadata_ids in
   let output_channels := String.concat "-" (map py_str channel_ids) in
   let output_channels :=
     if interned
        && String.eqb (MaskArgs.mask_type args) "borders_weight_loss_map"
     then str_mask_channel (MaskArgs.mask_channel args)
     else output_channels in
   let mask_dir :=
     Fs.join (MaskArgs.output_dir args)
       ("mask_channels_" ++ output_channels)%string in
   _ <- Fs.makedirs mask_dir ;;
   ret {| mp_input_dir := MaskArgs.input_dir args;
          mp_output_dir := MaskArgs.output_dir args;
          mp_flat_field_dir := MaskArgs.flat_field_dir args;
          mp_num_workers := MaskArgs.num_workers args;
          mp_frames_metadata := frames_metadata;
          mp_mask_channel := mask_channel;
          mp_frames_meta_sub := frames_meta_sub;
          mp_channel_ids := channel_ids;
          mp_mask_dir := mask_dir;
          mp_int2str_len := MaskArgs.int2str_len args;
          mp_uniform_struct := MaskArgs.uniform_struct args;
          mp_nested_id_dict := snd validated;
          mp_mask_type := "";
          mp_ints_metadata := None;
          mp_channel_thr_df := None;
          mp_mask_ext := "" |})%m.

Definition set_mask_fields (mask_type : string)
  (ints_metadata : option (list Ints.t))
  (channel_thr_df : option (list ThrRow)) (mask_ext : string)
  (self : MaskProcessor) : MaskProcessor :=
  {| mp_input_dir := mp_input_dir self;
     mp_output_dir := mp_output_dir self;
     mp_flat_field_dir := mp_flat_field_dir self;
     mp_num_workers := mp_num_workers self;
     mp_frames_metadata := mp_frames_metadata self;
     mp_mask_channel := mp_mask_channel self;
     mp_frames_meta_sub := mp_frames_meta_sub self;
     mp_channel_ids := mp_channel_ids self;
     mp_mask_dir := mp_mask_dir self;
     mp_int2str_len := mp_int2str_len self;
     mp_uniform_struct := mp_uniform_struct self;
     mp_nested_id_dict := mp_nested_id_dict self;
     mp_mask_type := mask_type;
     mp_ints_metadata := ints_metadata;
     mp_channel_thr_df := channel_thr_df;
     mp_mask_ext := mask_ext |}.

(** Lines 107-109: the thresholds of the dataset-level Otsu policy. *)
Definition dataset_thresholds (args : MaskArgs.t) (self : MaskProcessor)
  : M Fs.t (list Ints.t * list ThrRow) :=
  (ints_metadata <-
     read_ints_meta (MaskArgs.input_dir args) "intensity_meta.csv" ;;
   channel_thr_df <-
     lift (get_channel_thr_df ints_metadata (mp_channel_ids self)) ;;
   ret (ints_metadata, channel_thr_df))%m.

(** [MaskProcessor.__init__] *)
Definition MaskProcessor__init__ (args : MaskArgs.t) : M Fs.t MaskProcessor :=
  (self <- MaskProcessor_setup args ;;
   let mask_type := MaskArgs.mask_type args in
   _ <- assert (mask_type_supported mask_type)
          "Masking method invalid, 'otsu', 'unimodal', 'dataset otsu', 'borders_weight_loss_map'             are currently supported" ;;
   if String.eqb mask_type "dataset otsu" then
     thr <- dataset_thresholds args self ;;
     ret (set_mask_fields mask_type (Some (fst thr)) (Some (snd thr))
            (MaskArgs.mask_ext args) self)
   else
     ret (set_mask_fields mask_type None None (MaskArgs.mask_ext args) self))%m.

End MaskConstruction.

Module DemoMask.

Definition get_sub_meta (frames_metadata : list Frame.t)
  (time_ids channel_ids slice_ids pos_ids : list Z) : list Frame.t :=
  filter
    (fun r =>
       existsb (Z.eqb (Frame.time_idx r)) time_ids
       && existsb (Z.eqb (Frame.channel_idx r)) channel_ids
       && existsb (Z.eqb (Frame.slice_idx r)) slice_ids
       && existsb (Z.eqb (Frame.pos_idx r)) pos_ids)
    frames_metadata.

(** A stand-in for the thresholding: the mean of the smallest and the
    largest sample. *)
Definition threshold (l : list Q) : result Q :=
  match MetaUtils.sort_q l with
  | [] => Raise ValueError
  | x :: rest => Ok (Qred ((x + last rest x) / (2 # 1)))
  end.

Definition args (mask_type : string) : MaskArgs.t :=
  {| MaskArgs.input_dir := "in";
     MaskArgs.output_dir := "out";
     MaskArgs.channel_ids := Ids [0; 1];
     MaskArgs.flat_field_dir := None;
     MaskArgs.time_ids := AllIds;
     MaskArgs.slice_ids := AllIds;
     MaskArgs.pos_ids := AllIds;
     MaskArgs.int2str_len := 3;
     MaskArgs.uniform_struct := true;
     MaskArgs.num_workers := 4;
     MaskArgs.mask_type := mask_type;
     MaskArgs.mask_channel := None;
     MaskArgs.mask_ext := ".npy" |}.

(** The input directory with its frames table and intensity samples. *)
Definition disk : Fs.t :=
  DemoInit.fresh ++ [("in/intensity_meta.csv", Fs.IntsMeta MetaSpec.ints)].

Definition init (mask_type : string) : result MaskProcessor * Fs.t :=
  MaskProcessor__init__ DemoInit.validate get_sub_meta threshold true
    (args mask_type) disk.

End DemoMask.

(** The four policies as the specification names them, and the statement
    that construction succeeds exactly for them, on the demo disk. *)
Definition spec_mask_types : list string :=
  ["otsu"; "unimodal"; "dataset_otsu"; "borders_weight_loss_map"].

Definition succeeds_exactly_on_spec_policies (mask_type : string) : Prop :=
  is_ok (fst (DemoMask.init mask_type)) = true <-> In mask_type spec_mask_types.

(** The object and the disk after the steps before the test of
    [mask_type], on the demo disk. *)
Definition MaskProcessor_setup_value (mask_type : string)
  : MaskProcessor * Fs.t :=
  match
    MaskProcessor_setup DemoInit.validate DemoMask.get_sub_meta true
      (DemoMask.args mask_type) DemoMask.disk
  with
  | (Ok self, fs1) => (self, fs1)
  | (Raise _, fs1) =>
      (set_mask_fields "" None None ""
         {| mp_input_dir := ""; mp_output_dir := ""; mp_flat_field_dir := None;
            mp_num_workers := 0; mp_frames_metadata := [];
            mp_mask_channel := 0; mp_frames_meta_sub := [];
            mp_channel_ids := []; mp_mask_dir := ""; mp_int2str_len := 0;
            mp_uniform_struct := false; mp_nested_id_dict := [];
            mp_mask_type := ""; mp_ints_metadata := None;
            mp_channel_thr_df := None; mp_mask_ext := "" |}, fs1)
  end.

(** Tiling scenario B against a mask: the masks of channel 2 cover slices
    0, 1, 2 of position 0, and the worker keeps the tile at the origin
    only (the other tile of the grid has too little foreground). *)
Module DemoMaskTiling.

Definition mask_frames : list Frame.t :=
  map (fun sl => Frame.mk "masks" 0 2 sl 0 "mask.npy" None None (Some (1 # 4)))
    [0; 1; 2].

Definition validate (frames_metadata : list Frame.t)
  (time_ids channel_ids slice_ids pos_ids : ids) (uniform : bool)
  : result (MetadataIds * IndexTree) :=
  Ok ({| m_time_ids := [0]; m_channel_ids := [2]; m_slice_ids := [0; 1; 2];
         m_pos_ids := [0] |},
      [(0, [(2, [(0, [0; 1; 2])])])]).

Definition tile_image (a : CropTileArgs) : list (Z * Z) :=
  match a_task a with
  | TileTask _ _ (Some _) => [(0, 0)]
  | _ => []
  end.

Definition world : World :=
  (Demo.tiler_B,
   [("out/tiles_128_step_64", Fs.Directory);
    ("masks/frames_meta.csv", Fs.FramesMeta mask_frames)]).

Definition run : result unit * World :=
  tile_mask_stack tile_image validate Demo.tile_name "masks" 2 1 world.

End DemoMaskTiling.

(* ================================================================== *)
(** ** Words for further properties of the tiler *)
(* ================================================================== *)

(** The entry of channel [c] at each time point that has one, and nothing
    for the other time points. *)
Definition time_points_with (c : Z) (t : IndexTree) : IndexTree :=
  flat_map
    (fun e =>
       match dict_get c (snd e) with
       | Some ch_dict => [(fst e, [(c, ch_dict)])]
       | None => []
       end)
    t.

(** The file name of the first row is not after that of the second. *)
Definition name_le (a b : Tile.t) : Prop :=
  String.leb (Tile.file_name a) (Tile.file_name b) = true.

(** What [tile_remaining_channels] needs of the object for a tree: a depth
    for every channel that has a position, and a place in
    [self.channel_ids] for every channel of which a slice is visited. *)
Definition channels_known (self : Tiler) (t : IndexTree) : Prop :=
  forall tp_idx tp_dict ch_idx ch_dict pos_idx sl_idx_list,
    In (tp_idx, tp_dict) t -> In (ch_idx, ch_dict) tp_dict ->
    In (pos_idx, sl_idx_list) ch_dict ->
    exists depth,
      dict_get ch_idx (channel_depth self) = Some depth /\
      (adjust_slice_margins sl_idx_list depth <> [] ->
       In ch_idx (channel_ids self)).

(* ================================================================== *)
(** ** Words for further properties of the z-score parameters *)
(* ================================================================== *)

Module ZScoreSpec.
Import MetaUtils.

(** The intensities of the samples with key [k], in row order. *)
Definition samples_of (agg_cols : list col) (k : key) (rows : list Ints.t)
  : list Q :=
  map Ints.intensity
    (filter (fun s => key_eqb (ints_key agg_cols s) k) rows).

(** The intensities that count for a frame: those of the samples that
    share its grouping columns and pass the foreground test. *)
Definition frame_samples (agg_cols : list col) (ints_meta : list Ints.t)
  (min_fraction : Q) (r : Frame.t) : list Q :=
  samples_of agg_cols (frame_key agg_cols r)
    (filter (fg_frac_ge min_fraction) ints_meta).

(** [zscore_iqr] as the function computes it from the intensities of a
    group. *)
Definition iqr (vals : list Q) : option Q :=
  sub_opt (quantile (3 # 4) vals) (quantile (1 # 4) vals).

End ZScoreSpec.

(* ================================================================== *)
(** ** Mask generation *)
(* ================================================================== *)

(** *** Two more built-in exceptions
    The mask generation meets a [TypeError] (a path joined to a missing
    directory) and an [AttributeError] (a column of a table that is
    [None]) besides the exceptions of [Py]. *)
Module Px.

Inductive exn : Type :=
| Std (e : Py.exn)
| TypeError
| AttributeError.

Inductive result (A : Type) : Type :=
| Ok (a : A)
| Raise (e : exn).
Arguments Ok {A} a.
Arguments Raise {A} e.

Definition of_py {A} (c : Py.result A) : result A :=
  match c with
  | Py.Ok a => Ok a
  | Py.Raise e => Raise (Std e)
  end.

Definition bind {A B} (c : result A) (k : A -> result B) : result B :=
  match c with
  | Ok a => k a
  | Raise e => Raise e
  end.

Fixpoint for_each {A S} (l : list A) (body : A -> S -> result S) (s : S)
  : result S :=
  match l with
  | [] => Ok s
  | a :: l' => bind (body a s) (for_each l' body)
  end.

Definition M (S A : Type) : Type := S -> result A * S.

Definition ret {S A} (a : A) : M S A := fun s => (Ok a, s).

Definition mbind {S A B} (c : M S A) (k : A -> M S B) : M S B :=
  fun s =>
    match c s with
    | (Ok a, s') => k a s'
    | (Raise e, s') => (Raise e, s')
    end.

Definition lift {S A} (c : result A) : M S A := fun s => (c, s).

Definition get {S} : M S S := fun s => (Ok s, s).

Definition modify {S} (f : S -> S) : M S unit := fun s => (Ok tt, f s).

(** A computation that raises standard exceptions only. *)
Definition of_m {S A} (c : Py.M S A) : M S A :=
  fun s => let (r, s') := c s in (of_py r, s').

End Px.

Declare Scope px_scope.
Delimit Scope px_scope with px.
Notation "x <- c ;; k" := (Px.bind c (fun x => k))
  (at level 61, c at next level, right associativity) : px_scope.

Declare Scope pxm_scope.
Delimit Scope pxm_scope with pxm.
Notation "x <- c ;; k" := (Px.mbind c (fun x => k))
  (at level 61, c at next level, right associativity) : pxm_scope.
Notation "c ;; k" := (Px.mbind c (fun _ => k))
  (at level 61, right associativity) : pxm_scope.

(** The last element of the argument tuple of a mask job: the tuple of
    the uniform branch has a twelfth element, [channel_thrs], which is
    [None] or the thresholds of the directory; the tuple of the other
    branch has eleven. *)
Inductive thr_arg : Type :=
| NoThrs
| Thrs (channel_thrs : option (list Q)).

(** [cur_args] of [generate_masks]. *)
Module MaskJob.
Record t : Type := mk {
  input_fnames : list string;
  ff_fname : option string;
  str_elem_radius : Z;
  mask_dir : string;
  mask_channel : Z;
  time_idx : Z;
  pos_idx : Z;
  slice_idx : Z;
  int2str_len : Z;
  mask_type : string;
  mask_ext : string;
  channel_thrs : thr_arg
}.
End MaskJob.

(** A row of [frames_meta_sub[['dir_name', 'time_idx', 'pos_idx',
    'slice_idx']]]. *)
Definition id_row : Type := (string * Z * Z * Z)%type.

Definition id_of (r : Frame.t) : id_row :=
  (Frame.dir_name r, Frame.time_idx r, Frame.pos_idx r, Frame.slice_idx r).

Definition id_row_eqb (a b : id_row) : bool :=
  let '(d, t, p, s) := a in
  let '(d', t', p', s') := b in
  String.eqb d d' && (t =? t') && (p =? p') && (s =? s').

(** [df.drop_duplicates()]: the first of equal rows stays, in its
    place. *)
Fixpoint drop_duplicates (l : list id_row) : list id_row :=
  match l with
  | [] => []
  | x :: l' =>
      x :: filter (fun y => negb (id_row_eqb y x)) (drop_duplicates l')
  end.

(** [frames_metadata.loc[frame_idx, 'file_name']], the rows labelled by
    their position. *)
Definition loc_file_name (frames_metadata : list Frame.t) (frame_idx : Z)
  : result string :=
  if frame_idx <? 0 then Raise KeyError
  else
    match nth_error frames_metadata (Z.to_nat frame_idx) with
    | Some r => Ok (Frame.file_name r)
    | None => Raise KeyError
    end.

(** [channel_thr_df.loc[channel_thr_df['dir_name'] == dir_name,
    'intensity'].to_numpy()] *)
Definition thresholds_of_dir (channel_thr_df : list ThrRow)
  (dir_name : string) : list Q :=
  map (fun row : ThrRow => snd row)
    (filter (fun row : ThrRow => String.eqb (fst (fst row)) dir_name)
       channel_thr_df).

(** The value of the loop variable after [for x in l], when the loop ran
    at all. *)
Definition last_of (l : list Z) : option Z :=
  match rev l with
  | x :: _ => Some x
  | [] => None
  end.

(** [frames_metadata[columns != 'fg_frac']] with the [fg_frac] of a mask
    row. *)
Definition set_fg_frac (v : option Q) (r : Frame.t) : Frame.t :=
  Frame.mk (Frame.dir_name r) (Frame.time_idx r) (Frame.channel_idx r)
    (Frame.slice_idx r) (Frame.pos_idx r) (Frame.file_name r)
    (Frame.zscore_median r) (Frame.zscore_iqr r) v.

(** The mask row and the frame agree on [pos_idx], [time_idx] and
    [slice_idx]. *)
Definition same_place (m r : Frame.t) : bool :=
  (Frame.pos_idx m =? Frame.pos_idx r)
  && (Frame.time_idx m =? Frame.time_idx r)
  && (Frame.slice_idx m =? Frame.slice_idx r).

(** [pd.merge(frames_metadata[cols_to_merge], mask_meta_df[['pos_idx',
    'time_idx', 'slice_idx', 'fg_frac']], how='left', on=['pos_idx',
    'time_idx', 'slice_idx'])]: the frames in their order, each once for
    every mask row of its place, and once without a value when there is
    none. *)
Definition merge_fg_frac (frames_metadata mask_meta_df : list Frame.t)
  : list Frame.t :=
  flat_map
    (fun r =>
       match filter (fun m => same_place m r) mask_meta_df with
       | [] => [set_fg_frac None r]
       | ms => map (fun m => set_fg_frac (Frame.fg_frac m) r) ms
       end)
    frames_metadata.

Fixpoint insert_frame_by_name (r : Frame.t) (l : list Frame.t)
  : list Frame.t :=
  match l with
  | [] => [r]
  | r' :: l' =>
      if String.leb (Frame.file_name r) (Frame.file_name r') then r :: l
      else r' :: insert_frame_by_name r l'
  end.

(** [pd.DataFrame.from_dict(mask_meta_list).sort_values(by=['file_name'])]:
    the table of an empty list has no column to sort by. *)
Definition sort_mask_meta (mask_meta_list : list Frame.t)
  : result (list Frame.t) :=
  match mask_meta_list with
  | [] => Raise KeyError
  | _ :: _ => Ok (fold_right insert_frame_by_name [] mask_meta_list)
  end.

Definition set_frames_metadata (frames_metadata : list Frame.t)
  (self : MaskProcessor) : MaskProcessor :=
  {| mp_input_dir := mp_input_dir self;
     mp_output_dir := mp_output_dir self;
     mp_flat_field_dir := mp_flat_field_dir self;
     mp_num_workers := mp_num_workers self;
     mp_frames_metadata := frames_metadata;
     mp_mask_channel := mp_mask_channel self;
     mp_frames_meta_sub := mp_frames_meta_sub self;
     mp_channel_ids := mp_channel_ids self;
     mp_mask_dir := mp_mask_dir self;
     mp_int2str_len := mp_int2str_len self;
     mp_uniform_struct := mp_uniform_struct self;
     mp_nested_id_dict := mp_nested_id_dict self;
     mp_mask_type := mp_mask_type self;
     mp_ints_metadata := mp_ints_metadata self;
     mp_channel_thr_df := mp_channel_thr_df self;
     mp_mask_ext := mp_mask_ext self |}.

Section MaskGeneration.

(** Collaborators that are not among the sources, left open:
    [aux_utils.get_meta_idx], the label of the frame with the given
    indices, and [mp_utils.mp_create_save_mask], the pool that makes and
    saves the masks and returns their rows. *)
Variable get_meta_idx : list Frame.t -> Z -> Z -> Z -> Z -> result Z.
Variable mp_create_save_mask :
  list MaskJob.t -> Z -> Px.M Fs.t (list Frame.t).

(** [isinstance(channel_idx, (int, float))] for the elements of
    [channel_ids]: true of Python integers, not of numpy's. *)
Variable channel_is_number : bool.

(** [MaskProcessor._get_args_read_image].  After the loop [channel_idx]
    is the last channel; the branch for a tuple or list is not taken for
    the elements of a list of channel indices. *)
Definition _get_args_read_image (self : MaskProcessor) (time_idx : Z)
  (channel_ids : list Z) (slice_idx pos_idx : Z) (correct_flat_field : bool)
  : Px.result (list string * option string) :=
  (input_fnames <-
     Px.of_py
       (for_each channel_ids
          (fun channel_idx input_fnames =>
             (frame_idx <-
                get_meta_idx (mp_frames_metadata self) time_idx channel_idx
                  slice_idx pos_idx ;;
              file_name <- loc_file_name (mp_frames_metadata self) frame_idx ;;
              Ok (input_fnames ++ [Fs.join (mp_input_dir self) file_name]))%py)
          []) ;;
   if correct_flat_field then
     match last_of channel_ids with
     | None => Px.Raise (Px.Std UnboundLocalError)
     | Some channel_idx =>
         if channel_is_number then
           match mp_flat_field_dir self with
           | None => Px.Raise Px.TypeError
           | Some flat_field_dir =>
               Px.Ok
                 (input_fnames,
                  Some
                    (Fs.join flat_field_dir
                       ("flat-field_channel-" ++ py_str channel_idx ++ ".npy")
                       %string))
           end
         else Px.Ok (input_fnames, None)
     end
   else Px.Ok (input_fnames, None))%px.

Definition mask_job (self : MaskProcessor) (names : list string * option string)
  (str_elem_radius time_idx pos_idx slice_idx : Z) (channel_thrs : thr_arg)
  : MaskJob.t :=
  MaskJob.mk (fst names) (snd names) str_elem_radius (mp_mask_dir self)
    (mp_mask_channel self) time_idx pos_idx slice_idx (mp_int2str_len self)
    (mp_mask_type self) (mp_mask_ext self) channel_thrs.

(** Lines 213-237 of [generate_masks]: the jobs of the uniform branch,
    with [channel_thrs] as the loop leaves it. *)
Definition uniform_mask_args (self : MaskProcessor)
  (correct_flat_field : bool) (str_elem_radius : Z)
  : Px.result (option (list Q) * list MaskJob.t) :=
  Px.for_each (drop_duplicates (map id_of (mp_frames_meta_sub self)))
    (fun (id : id_row) (acc : option (list Q) * list MaskJob.t) =>
       let '(dir_name, time_idx, pos_idx, slice_idx) := id in
       (names <-
          _get_args_read_image self time_idx (mp_channel_ids self) slice_idx
            pos_idx correct_flat_field ;;
        channel_thrs <-
          (if String.eqb (mp_mask_type self) "dataset otsu" then
             match mp_channel_thr_df self with
             | None => Px.Raise Px.AttributeError
             | Some channel_thr_df =>
                 Px.Ok (Some (thresholds_of_dir channel_thr_df dir_name))
             end
           else Px.Ok (fst acc)) ;;
        Px.Ok
          (channel_thrs,
           snd acc
           ++ [mask_job self names str_elem_radius time_idx pos_idx slice_idx
                 (Thrs channel_thrs)]))%px)
    (None, []).

(** Lines 239-261 of [generate_masks]: the jobs of the other branch. *)
Definition nonuniform_mask_args (self : MaskProcessor)
  (correct_flat_field : bool) (str_elem_radius : Z)
  : Px.result (list MaskJob.t) :=
  Px.for_each (mp_nested_id_dict self)
    (fun (tp : Z * ChannelDict) (fn_args : list MaskJob.t) =>
       (mask_channel_dict <-
          Px.of_py
            (ch0 <- first (mp_channel_ids self) ;; getitem (snd tp) ch0)%py ;;
        Px.for_each mask_channel_dict
          (fun (pe : Z * list Z) (fn_args : list MaskJob.t) =>
             Px.for_each (snd pe)
               (fun (sl_idx : Z) (fn_args : list MaskJob.t) =>
                  (names <-
                     _get_args_read_image self (fst tp) (mp_channel_ids self)
                       sl_idx (fst pe) correct_flat_field ;;
                   Px.Ok
                     (fn_args
                      ++ [mask_job self names str_elem_radius (fst tp)
                            (fst pe) sl_idx NoThrs]))%px)
               fn_args)
          fn_args)%px)
    [].

Definition mask_args (self : MaskProcessor) (correct_flat_field : bool)
  (str_elem_radius : Z) : Px.result (list MaskJob.t) :=
  if mp_uniform_struct self then
    (acc <- uniform_mask_args self correct_flat_field str_elem_radius ;;
     Px.Ok (snd acc))%px
  else nonuniform_mask_args self correct_flat_field str_elem_radius.

(** [MaskProcessor.generate_masks], on the object and the disk. *)
Definition generate_masks (self : MaskProcessor) (correct_flat_field : bool)
  (str_elem_radius : Z) : Px.M Fs.t MaskProcessor :=
  (fn_args <- Px.lift (mask_args self correct_flat_field str_elem_radius) ;;
   mask_meta_list <- mp_create_save_mask fn_args (mp_num_workers self) ;;
   mask_meta_df <- Px.lift (Px.of_py (sort_mask_meta mask_meta_list)) ;;
   _ <- Px.of_m
          (Fs.to_csv (Fs.join (mp_mask_dir self) "frames_meta.csv")
             (Fs.FramesMeta mask_meta_df)) ;;
   let frames_metadata :=
     merge_fg_frac (mp_frames_metadata self) mask_meta_df in
   _ <- Px.of_m
          (Fs.to_csv (Fs.join (mp_input_dir self) "frames_meta.csv")
             (Fs.FramesMeta frames_metadata)) ;;
   Px.ret (set_frames_metadata frames_metadata self))%pxm.

End MaskGeneration.

(** A data set for the mask generation: channel 0 and 1 at time 0,
    channel 1 alone at time 1; the masks are made from the frames of time
    0, and the pool returns one row for each job. *)
Module DemoMaskGen.

Definition frames : list Frame.t :=
  [Frame.mk "in" 0 0 0 0 "im_c0_z0_t0_p0.png" None None (Some (1 # 4));
   Frame.mk "in" 0 1 0 0 "im_c1_z0_t0_p0.png" None None None;
   Frame.mk "in" 1 1 0 0 "im_c1_z0_t1_p0.png" None None (Some (1 # 4))].

Fixpoint find_idx (frames_metadata : list Frame.t) (t c s p i : Z)
  : result Z :=
  match frames_metadata with
  | [] => Raise IndexError
  | r :: l =>
      if (Frame.time_idx r =? t) && (Frame.channel_idx r =? c)
         && (Frame.slice_idx r =? s) && (Frame.pos_idx r =? p)
      then Ok i
      else find_idx l t c s p (i + 1)
  end.

Definition get_meta_idx (frames_metadata : list Frame.t) (t c s p : Z)
  : result Z :=
  find_idx frames_metadata t c s p 0.

Definition mask_name (j : MaskJob.t) : string :=
  ("mask_t" ++ py_str (MaskJob.time_idx j) ++ "_p"
   ++ py_str (MaskJob.pos_idx j) ++ "_z" ++ py_str (MaskJob.slice_idx j)
   ++ MaskJob.mask_ext j)%string.

Definition mask_row (j : MaskJob.t) : Frame.t :=
  Frame.mk (MaskJob.mask_dir j) (MaskJob.time_idx j) (MaskJob.mask_channel j)
    (MaskJob.slice_idx j) (MaskJob.pos_idx j) (mask_name j) None None
    (Some (1 # 2)).

Definition pool (fn_args : list MaskJob.t) (workers : Z)
  : Px.M Fs.t (list Frame.t) :=
  fun fs =>
    (Px.Ok (map mask_row fn_args),
     fold_left
       (fun fs j =>
          Fs.write (Fs.join (MaskJob.mask_dir j) (mask_name j)) Fs.Image fs)
       fn_args fs).

Definition tree : IndexTree :=
  [(0, [(0, [(0, [0])]); (1, [(0, [0])])]); (1, [(1, [(0, [0])])])].

Definition processor (uniform : bool) (mask_type : string)
  (channel_thr_df : option (list ThrRow)) : MaskProcessor :=
  {| mp_input_dir := "in";
     mp_output_dir := "out";
     mp_flat_field_dir := None;
     mp_num_workers := 4;
     mp_frames_metadata := frames;
     mp_mask_channel := 2;
     mp_frames_meta_sub := firstn 2 frames;
     mp_channel_ids := [0; 1];
     mp_mask_dir := "out/mask_channels_0-1";
     mp_int2str_len := 3;
     mp_uniform_struct := uniform;
     mp_nested_id_dict := tree;
     mp_mask_type := mask_type;
     mp_ints_metadata := None;
     mp_channel_thr_df := channel_thr_df;
     mp_mask_ext := ".npy" |}.

Definition disk : Fs.t :=
  [("in", Fs.Directory); ("in/frames_meta.csv", Fs.FramesMeta frames);
   ("out/mask_channels_0-1", Fs.Directory)].

(** The same object over the tree of time 0 alone. *)
Definition processor_t0 : MaskProcessor :=
  {| mp_input_dir := "in";
     mp_output_dir := "out";
     mp_flat_field_dir := None;
     mp_num_workers := 4;
     mp_frames_metadata := frames;
     mp_mask_channel := 2;
     mp_frames_meta_sub := firstn 2 frames;
     mp_channel_ids := [0; 1];
     mp_mask_dir := "out/mask_channels_0-1";
     mp_int2str_len := 3;
     mp_uniform_struct := false;
     mp_nested_id_dict := firstn 1 tree;
     mp_mask_type := "dataset otsu";
     mp_ints_metadata := None;
     mp_channel_thr_df := Some [("in", 0, 3 # 1); ("in", 1, 5 # 1)];
     mp_mask_ext := ".npy" |}.

Definition run (self : MaskProcessor) : Px.result MaskProcessor * Fs.t :=
  generate_masks get_meta_idx pool true self false 5 disk.

(** The object and the disk after the call. *)
Definition after (self : MaskProcessor) : MaskProcessor * Fs.t :=
  match run self with
  | (Px.Ok self', fs') => (self', fs')
  | (Px.Raise _, fs') => (self, fs')
  end.

End DemoMaskGen.

(* ================================================================== *)
(** ** The table of intensity samples *)
(* ================================================================== *)

(** [kwargs] of the function that parses a file name. *)
Module ParseArgs.
Record t : Type := mk {
  im_name : string;
  order : option string;
  channel_names : option (list string)
}.
End ParseArgs.

(** [meta_row['dir_name'] = input_dir] *)
Definition set_dir_name (dir_name : string) (r : Frame.t) : Frame.t :=
  Frame.mk dir_name (Frame.time_idx r) (Frame.channel_idx r)
    (Frame.slice_idx r) (Frame.pos_idx r) (Frame.file_name r)
    (Frame.zscore_median r) (Frame.zscore_iqr r) (Frame.fg_frac r).

(** An element of [mp_block_args]: path, block size, metadata row. *)
Definition BlockArgs : Type := (string * Z * Frame.t)%type.

Section IntsMetaGenerator.

(** Collaborators that are not among the sources, left open:
    [aux_utils.import_object], which finds the parse function by its
    name; the parse function returns the row of the file name and, as it
    may add to the list [channel_names] it is given, the list as it
    leaves it; [aux_utils.get_sorted_names] reads the directory;
    [mp_utils.mp_sample_im_pixels] is the pool that samples the
    images. *)
Variable import_object :
  string -> string -> string ->
  result (ParseArgs.t -> result (Frame.t * list string)).
Variable get_sorted_names : string -> Fs.t -> result (list string).
Variable mp_sample_im_pixels :
  list BlockArgs -> Z -> M Fs.t (list (list Ints.t)).

(** Lines 86-99 of [ints_meta_generator]: the loop over the image names,
    with [channel_names], [mp_fn_args] and [mp_block_args] as it leaves
    them. *)
Definition ints_meta_args
  (parse_func : ParseArgs.t -> result (Frame.t * list string))
  (input_dir order name_parser : string) (im_names : list string)
  : result (list string * list string * list BlockArgs) :=
  for_each im_names
    (fun (im_name : string)
         (acc : list string * list string * list BlockArgs) =>
       let '(channel_names, mp_fn_args, mp_block_args) := acc in
       let kwargs :=
         if String.eqb name_parser "parse_idx_from_name" then
           ParseArgs.mk im_name (Some order) None
         else if String.eqb name_parser "parse_sms_name" then
           ParseArgs.mk im_name None (Some channel_names)
         else ParseArgs.mk im_name None None in
       (parsed <- parse_func kwargs ;;
        let channel_names :=
          match ParseArgs.channel_names kwargs with
          | Some _ => snd parsed
          | None => channel_names
          end in
        let meta_row := set_dir_name input_dir (fst parsed) in
        let im_path := Fs.join input_dir im_name in
        Ok (channel_names, mp_fn_args ++ [im_path],
            mp_block_args ++ [(im_path, 256, meta_row)]))%py)
    ([], [], []).

(** [meta_utils.ints_meta_generator] *)
Definition ints_meta_generator (input_dir order name_parser : string)
  (num_workers : Z) : M Fs.t (list Ints.t) :=
  (parse_func <-
     lift (import_object "utils.aux_utils" name_parser "function") ;;
   im_names <- (fun fs => (get_sorted_names input_dir fs, fs)) ;;
   args <- lift (ints_meta_args parse_func input_dir order name_parser
                   im_names) ;;
   im_ints_list <- mp_sample_im_pixels (snd args) num_workers ;;
   let ints_meta := List.concat im_ints_list in
   _ <- Fs.to_csv (Fs.join input_dir "ints_meta.csv") (Fs.IntsMeta ints_meta) ;;
   ret ints_meta)%m.

End IntsMetaGenerator.

(** A directory of two images, read with a parser for names of the form
    [im_c0_z0_t0_p0.png] that knows these two, and a pool that takes two
    samples of each image without writing. *)
Module DemoInts.

Definition parse (kwargs : ParseArgs.t) : result (Frame.t * list string) :=
  if String.eqb (ParseArgs.im_name kwargs) "im_c0_z0_t0_p0.png" then
    Ok (Frame.mk "" 0 0 0 0 "im_c0_z0_t0_p0.png" None None None, [])
  else if String.eqb (ParseArgs.im_name kwargs) "im_c1_z0_t0_p0.png" then
    Ok (Frame.mk "" 0 1 0 0 "im_c1_z0_t0_p0.png" None None None, [])
  else Raise ValueError.

Definition import_object (module_name obj_name obj_type : string)
  : result (ParseArgs.t -> result (Frame.t * list string)) :=
  if String.eqb obj_name "parse_idx_from_name" then Ok parse
  else Raise ValueError.

Definition get_sorted_names (dir : string) (fs : Fs.t)
  : result (list string) :=
  Ok ["im_c0_z0_t0_p0.png"; "im_c1_z0_t0_p0.png"].

Definition sample (a : BlockArgs) : list Ints.t :=
  let r := snd a in
  [Ints.mk (Frame.dir_name r) (Frame.time_idx r) (Frame.channel_idx r)
     (Frame.slice_idx r) (Frame.pos_idx r) (10 # 1) None;
   Ints.mk (Frame.dir_name r) (Frame.time_idx r) (Frame.channel_idx r)
     (Frame.slice_idx r) (Frame.pos_idx r) (20 # 1) None].

Definition pool (args : list BlockArgs) (workers : Z)
  : M Fs.t (list (list Ints.t)) :=
  fun fs => (Ok (map sample args), fs).

Definition run : result (list Ints.t) * Fs.t :=
  ints_meta_generator import_object get_sorted_names pool "in" "cztp"
    "parse_idx_from_name" 4 DemoInit.fresh.

End DemoInts.

(* ================================================================== *)
(** ** The metrics of a prediction *)
(* ================================================================== *)

Module Metrics.

(** A value in a row of a metrics table: [None], a name or a number. *)
Inductive cell : Type :=
| CNone
| CName (s : string)
| CNum (v : Q).

(** A dict with string keys, in insertion order. *)
Definition row : Type := list (string * cell).

Fixpoint row_get (k : string) (r : row) : option cell :=
  match r with
  | [] => None
  | (k', v) :: r' => if String.eqb k' k then Some v else row_get k r'
  end.

(** [r[k] = v]: an existing key keeps its place, a new one goes last. *)
Fixpoint row_set (r : row) (k : string) (v : cell) : row :=
  match r with
  | [] => [(k, v)]
  | (k', v') :: r' =>
      if String.eqb k' k then (k', v) :: r' else (k', v') :: row_set r' k v
  end.

(** [dict.fromkeys(keys)] *)
Definition fromkeys (keys : list string) : row :=
  fold_left (fun r k => row_set r k CNone) keys [].

Fixpoint insert_name (k : string) (l : list string) : list string :=
  match l with
  | [] => [k]
  | k' :: l' => if String.leb k k' then k :: l else k' :: insert_name k l'
  end.

(** A [pd.DataFrame]: its columns and its rows. *)
Record Table : Type := {
  columns : list string;
  rows : list row
}.

(** [pd.DataFrame(columns=names)] *)
Definition DataFrame (names : list string) : Table :=
  {| columns := names; rows := [] |}.

(** [df.append(r, ignore_index=True)] for a dict [r]: the row goes last;
    keys of the row that are no columns become columns, after the
    others, in ascending order. *)
Definition append (df : Table) (r : row) : Table :=
  {| columns :=
       columns df
       ++ fold_right insert_name []
            (filter (fun k => negb (existsb (String.eqb k) (columns df)))
               (map fst r));
     rows := rows df ++ [r] |}.

(** The functions of [fn_mapping]. *)
Inductive metric : Type := Mae | Mse | R2 | Corr | Ssim.

(** [self.fn_mapping[name]] *)
Definition fn_mapping (name : string) : result metric :=
  if String.eqb name "mae_metric" then Ok Mae
  else if String.eqb name "mse_metric" then Ok Mse
  else if String.eqb name "r2_metric" then Ok R2
  else if String.eqb name "corr_metric" then Ok Corr
  else if String.eqb name "ssim_metric" then Ok Ssim
  else Raise KeyError.

(** What a metric function returns when it is given a mask: a list of
    two values, or a single value, which has no elements. *)
Inductive metric_out : Type :=
| Single (v : Q)
| Pair (v masked : Q).

(** [cur_metric_list[i]] for [i] 0 or 1. *)
Definition item (out : metric_out) (i : nat) : result Q :=
  match out, i with
  | Pair v _, O => Ok v
  | Pair _ m, S O => Ok m
  | _, _ => Raise IndexError
  end.

Record MetricsEstimator : Type := {
  metrics_list : list string;
  pd_col_names : list string;
  masked_metrics : bool;
  metrics_xyz : option Table;
  metrics_xy : option Table;
  metrics_xz : option Table;
  metrics_yz : option Table
}.

Definition available_metrics : list string :=
  ["ssim"; "corr"; "r2"; "mse"; "mae"].

(** [MetricsEstimator.__init__] *)
Definition MetricsEstimator__init__ (metrics_list : list string)
  (masked_metrics : bool) : result MetricsEstimator :=
  if forallb (fun m => existsb (String.eqb m) available_metrics) metrics_list
  then
    let pd_col_names := metrics_list in
    let pd_col_names :=
      if masked_metrics then
        fold_left (fun names m => names ++ [(m ++ "_masked")%string])
          metrics_list (pd_col_names ++ ["vol_frac"])
      else pd_col_names in
    Ok {| metrics_list := metrics_list;
          pd_col_names := pd_col_names ++ ["pred_name"];
          masked_metrics := masked_metrics;
          metrics_xyz := None;
          metrics_xy := None;
          metrics_xz := None;
          metrics_yz := None |}
  else
    Raise
      (AssertionError
         "only ssim, r2, correlation, mse and mae are currently supported").

Definition set_metrics_xyz (t : option Table) (self : MetricsEstimator)
  : MetricsEstimator :=
  {| metrics_list := metrics_list self;
     pd_col_names := pd_col_names self;
     masked_metrics := masked_metrics self;
     metrics_xyz := t;
     metrics_xy := metrics_xy self;
     metrics_xz := metrics_xz self;
     metrics_yz := metrics_yz self |}.

Definition set_metrics_xy (t : option Table) (self : MetricsEstimator)
  : MetricsEstimator :=
  {| metrics_list := metrics_list self;
     pd_col_names := pd_col_names self;
     masked_metrics := masked_metrics self;
     metrics_xyz := metrics_xyz self;
     metrics_xy := t;
     metrics_xz := metrics_xz self;
     metrics_yz := metrics_yz self |}.

Definition set_metrics_xz (t : option Table) (self : MetricsEstimator)
  : MetricsEstimator :=
  {| metrics_list := metrics_list self;
     pd_col_names := pd_col_names self;
     masked_metrics := masked_metrics self;
     metrics_xyz := metrics_xyz self;
     metrics_xy := metrics_xy self;
     metrics_xz := t;
     metrics_yz := metrics_yz self |}.

Definition set_metrics_yz (t : option Table) (self : MetricsEstimator)
  : MetricsEstimator :=
  {| metrics_list := metrics_list self;
     pd_col_names := pd_col_names self;
     masked_metrics := masked_metrics self;
     metrics_xyz := metrics_xyz self;
     metrics_xy := metrics_xy self;
     metrics_xz := metrics_xz self;
     metrics_yz := t |}.

(** [range(n)] *)
Definition range (n : Z) : list Z := map Z.of_nat (seq 0 (Z.to_nat n)).

(** [df = df.append(row)] on a table of the object that is [None] has no
    method [append]. *)
Definition append_to (t : option Table) (r : row) : Px.result Table :=
  match t with
  | Some df => Px.Ok (append df r)
  | None => Px.Raise Px.AttributeError
  end.

Section Estimator.

(** Arrays and the numerical functions on them are left open: the shape
    and the type of an array, the metric of a target and a prediction
    for each of the four decorated functions, [ssim] without and with
    its image, [a[mask]] (where [mask] may be [None]), [np.mean] of an
    array and of a mask that may be [None], the slices [a[..., i]],
    [a[i, ...]] and [a[:, i, :]], and the text of a shape in a
    message. *)
Variable Arr : Type.
Variable shape : Arr -> list Z.
Variable dtype : Arr -> string.
Variable base_metric : metric -> Arr -> Arr -> Px.result Q.
Variable ssim : Arr -> Arr -> Px.result Q.
Variable ssim_full : Arr -> Arr -> Px.result (Q * Arr).
Variable index_by : Arr -> option Arr -> Px.result Arr.
Variable np_mean : Arr -> Px.result Q.
Variable np_mean_mask : option Arr -> Px.result Q.
Variable slice_xy : Arr -> Z -> Arr.
Variable slice_xz : Arr -> Z -> Arr.
Variable slice_yz : Arr -> Z -> Arr.
Variable str_shape : list Z -> string.

(** [wrapper_metric_function] of [mask_decorator], called without a
    mask. *)
Definition decorated (m : metric) (target prediction : Arr) : Px.result Q :=
  base_metric m target prediction.

(** [wrapper_metric_function] called with [mask=...]: the key is among
    [kwargs] also when the value is [None]. *)
Definition decorated_masked (m : metric) (target prediction : Arr)
  (mask : option Arr) : Px.result metric_out :=
  (v <- base_metric m target prediction ;;
   cur_target <- index_by target mask ;;
   cur_pred <- index_by prediction mask ;;
   masked <- base_metric m cur_target cur_pred ;;
   Px.Ok (Pair v masked))%px.

(** [ssim_metric] *)
Definition ssim_metric (target prediction : Arr) (mask : option Arr)
  : Px.result metric_out :=
  match mask with
  | None => (cur_ssim <- ssim target prediction ;; Px.Ok (Single cur_ssim))%px
  | Some _ =>
      (full <- ssim_full target prediction ;;
       img <- index_by (snd full) mask ;;
       cur_ssim_masked <- np_mean img ;;
       Px.Ok (Pair (fst full) cur_ssim_masked))%px
  end.

(** [metric_fn(target=..., prediction=...)]; [ssim_metric] without a
    mask returns [cur_ssim]. *)
Definition call (m : metric) (target prediction : Arr) : Px.result Q :=
  match m with
  | Ssim => ssim target prediction
  | _ => decorated m target prediction
  end.

(** [metric_fn(target=..., prediction=..., mask=mask)] *)
Definition call_masked (m : metric) (target prediction : Arr)
  (mask : option Arr) : Px.result metric_out :=
  match m with
  | Ssim => ssim_metric target prediction mask
  | _ => decorated_masked m target prediction mask
  end.

(** [MetricsEstimator.assert_input]; [pred_name] is a string. *)
Definition assert_input (target prediction : Arr) (pred_name : string)
  (mask : option Arr) : result unit :=
  if list_eq_dec Z.eq_dec (shape target) (shape prediction) then
    if String.eqb (dtype target) (dtype prediction) then
      match mask with
      | None => Ok tt
      | Some mask =>
          if list_eq_dec Z.eq_dec (shape target) (shape mask) then
            if String.eqb (dtype mask) "bool" then Ok tt
            else Raise (AssertionError "mask is not boolean")
          else
            Raise
              (AssertionError
                 ("The shape of target and mask are not same: "
                  ++ str_shape (shape target) ++ ", "
                  ++ str_shape (shape mask)))
      end
    else
      Raise
        (AssertionError
           ("The dtype of target and prediction are not same: "
            ++ dtype target ++ ", " ++ dtype prediction))
  else
    Raise
      (AssertionError
         ("The shape of target and prediction are not same: "
          ++ str_shape (shape target) ++ ", " ++ str_shape (shape prediction))).

(** [MetricsEstimator.compute_metrics_row] *)
Definition compute_metrics_row (self : MetricsEstimator)
  (target prediction : Arr) (pred_name : string) (mask : option Arr)
  : Px.result row :=
  let metrics_row := fromkeys (pd_col_names self) in
  let metrics_row := row_set metrics_row "pred_name" (CName pred_name) in
  Px.for_each (metrics_list self)
    (fun (metric_name : string) (metrics_row : row) =>
       (metric_fn <- Px.of_py (fn_mapping (metric_name ++ "_metric")) ;;
        if masked_metrics self then
          cur_metric_list <- call_masked metric_fn target prediction mask ;;
          vol_frac <- np_mean_mask mask ;;
          let metrics_row := row_set metrics_row "vol_frac" (CNum vol_frac) in
          v <- Px.of_py (item cur_metric_list 0) ;;
          let metrics_row := row_set metrics_row metric_name (CNum v) in
          masked <- Px.of_py (item cur_metric_list 1) ;;
          Px.Ok (row_set metrics_row (metric_name ++ "_masked") (CNum masked))
        else
          cur_metric <- call metric_fn target prediction ;;
          Px.Ok (row_set metrics_row metric_name (CNum cur_metric)))%px)
    metrics_row.

(** [MetricsEstimator.estimate_xyz_metrics] *)
Definition estimate_xyz_metrics (target prediction : Arr)
  (pred_name : string) (mask : option Arr) : Px.M MetricsEstimator unit :=
  (_ <- Px.lift (Px.of_py (assert_input target prediction pred_name mask)) ;;
   _ <- Px.modify
          (fun self =>
             set_metrics_xyz (Some (DataFrame (pd_col_names self))) self) ;;
   self <- Px.get ;;
   metrics_row <-
     Px.lift (compute_metrics_row self target prediction pred_name mask) ;;
   df <- Px.lift (append_to (metrics_xyz self) metrics_row) ;;
   Px.modify (set_metrics_xyz (Some df)))%pxm.

(** The loop of the three functions that go slice by slice: the name of
    the slice, the slices of the arrays, the row, the table with the row
    appended. *)
Fixpoint slice_rows (slicer : Arr -> Z -> Arr) (infix : string)
  (get : MetricsEstimator -> option Table)
  (set : option Table -> MetricsEstimator -> MetricsEstimator)
  (target prediction : Arr) (pred_name : string) (mask : option Arr)
  (slices : list Z) : Px.M MetricsEstimator unit :=
  match slices with
  | [] => Px.ret tt
  | slice_idx :: rest =>
      let slice_name := (pred_name ++ infix ++ py_str slice_idx)%string in
      let cur_mask := option_map (fun m => slicer m slice_idx) mask in
      (self <- Px.get ;;
       metrics_row <-
         Px.lift
           (compute_metrics_row self (slicer target slice_idx)
              (slicer prediction slice_idx) slice_name cur_mask) ;;
       df <- Px.lift (append_to (get self) metrics_row) ;;
       _ <- Px.modify (set (Some df)) ;;
       slice_rows slicer infix get set target prediction pred_name mask rest)
      %pxm
  end.

(** The three functions that go slice by slice, along the axis [axis]
    of the target, which has to be 3D. *)
Definition estimate_slices (axis : nat) (msg : list Z -> string)
  (slicer : Arr -> Z -> Arr) (infix : string)
  (get : MetricsEstimator -> option Table)
  (set : option Table -> MetricsEstimator -> MetricsEstimator)
  (target prediction : Arr) (pred_name : string) (mask : option Arr)
  : Px.M MetricsEstimator unit :=
  (_ <- Px.lift (Px.of_py (assert_input target prediction pred_name mask)) ;;
   _ <- Px.lift
          (if (Z.of_nat (List.length (shape target)) =? 3) then Px.Ok tt
           else Px.Raise (Px.Std (AssertionError (msg (shape target))))) ;;
   _ <- Px.modify (fun self => set (Some (DataFrame (pd_col_names self))) self) ;;
   match nth_error (shape target) axis with
   | Some n =>
       slice_rows slicer infix get set target prediction pred_name mask
         (range n)
   | None => Px.lift (Px.Raise (Px.Std IndexError))
   end)%pxm.

(** [MetricsEstimator.estimate_xy_metrics] *)
Definition estimate_xy_metrics :=
  estimate_slices 2
    (fun s =>
       ("Dataset is assumed to be 3D but target image has shape "
        ++ str_shape s)%string)
    slice_xy "_xy" metrics_xy set_metrics_xy.

(** [MetricsEstimator.estimate_xz_metrics] *)
Definition estimate_xz_metrics :=
  estimate_slices 0 (fun _ => "Dataset is assumed to be 3D") slice_xz "_xz"
    metrics_xz set_metrics_xz.

(** [MetricsEstimator.estimate_yz_metrics] *)
Definition estimate_yz_metrics :=
  estimate_slices 1 (fun _ => "Dataset is assumed to be 3D") slice_yz "_yz"
    metrics_yz set_metrics_yz.

End Estimator.

End Metrics.

(** An object as the constructor has returned it for [metrics_list] and
    [masked_metrics], with whatever tables it has got since. *)
Definition built (ml : list string) (masked : bool)
  (self : Metrics.MetricsEstimator) : Prop :=
  exists self0,
    Metrics.MetricsEstimator__init__ ml masked = Ok self0 /\
    Metrics.metrics_list self = Metrics.metrics_list self0 /\
    Metrics.pd_col_names self = Metrics.pd_col_names self0 /\
    Metrics.masked_metrics self = Metrics.masked_metrics self0.

(** A table with the given columns and one row for each of the slices,
    in their order, named after the prediction and the slice. *)
Definition table_of_slices (cols : list string) (pred_name infix : string)
  (slices : list Z) (t : option Metrics.Table) : Prop :=
  exists rows,
    t = Some {| Metrics.columns := cols; Metrics.rows := rows |} /\
    map (Metrics.row_get "pred_name") rows
    = map
        (fun i => Some (Metrics.CName (pred_name ++ infix ++ py_str i)%string))
        slices.

(** For the examples an array is its shape and a tag: the tag of a slice
    is its index, and that of a whole array is -1.  The slices of an array
    of shape [[a; b; c]] have the shapes [[a; b]], [[b; c]] and [[a; c]].
    Every metric is 1, but the metrics of the slice [bad] raise. *)
Module DemoMetrics.
Import Metrics.

Definition Arr : Type := (list Z * Z)%type.
Definition shape (a : Arr) : list Z := fst a.
Definition dtype (a : Arr) : string := "float32".
Definition base_metric (bad : Z) (m : metric) (t p : Arr) : Px.result Q :=
  if snd t =? bad then Px.Raise (Px.Std ValueError) else Px.Ok 1%Q.
Definition ssim (t p : Arr) : Px.result Q := Px.Ok 1%Q.
Definition ssim_full (t p : Arr) : Px.result (Q * Arr) := Px.Ok (1%Q, t).
Definition index_by (a : Arr) (mask : option Arr) : Px.result Arr := Px.Ok a.
Definition np_mean (a : Arr) : Px.result Q := Px.Ok 1%Q.
Definition np_mean_mask (mask : option Arr) : Px.result Q :=
  match mask with
  | Some _ => Px.Ok (1 # 2)
  | None => Px.Raise Px.TypeError
  end.
Definition slice_xy (a : Arr) (i : Z) : Arr := (firstn 2 (fst a), i).
Definition slice_xz (a : Arr) (i : Z) : Arr := (skipn 1 (fst a), i).
Definition slice_yz (a : Arr) (i : Z) : Arr :=
  (firstn 1 (fst a) ++ skipn 2 (fst a), i).
Definition str_shape (s : list Z) : string :=
  String.concat ", " (map py_str s).

Definition estimator (masked : bool) : MetricsEstimator :=
  match MetricsEstimator__init__ ["mse"; "ssim"] masked with
  | Ok self => self
  | Raise _ =>
      {| metrics_list := []; pd_col_names := []; masked_metrics := masked;
         metrics_xyz := None; metrics_xy := None; metrics_xz := None;
         metrics_yz := None |}
  end.

Definition target : Arr := ([4; 5; 2], -1).

Definition row_of (masked : bool) (mask : option Arr) : Px.result row :=
  compute_metrics_row Arr (base_metric (-2)) ssim ssim_full index_by np_mean
    np_mean_mask (estimator masked) target target "pred" mask.

Definition xy (bad : Z) (self : MetricsEstimator)
  : Px.result unit * MetricsEstimator :=
  estimate_xy_metrics Arr shape dtype (base_metric bad) ssim ssim_full
    index_by np_mean np_mean_mask slice_xy str_shape target target "pred" None
    self.

Definition xz (self : MetricsEstimator) : Px.result unit * MetricsEstimator :=
  estimate_xz_metrics Arr shape dtype (base_metric (-2)) ssim ssim_full
    index_by np_mean np_mean_mask slice_xz str_shape target target "pred" None
    self.

Definition yz (self : MetricsEstimator) : Px.result unit * MetricsEstimator :=
  estimate_yz_metrics Arr shape dtype (base_metric (-2)) ssim ssim_full
    index_by np_mean np_mean_mask slice_yz str_shape target target "pred" None
    self.

End DemoMetrics.

(* ################################################################## *)
(** * Properties *)
(* ################################################################## *)

(* ================================================================== *)
(** ** Loops and dicts: general facts *)
(* ================================================================== *)

Lemma bind_ok {A B} (c : result A) (k : A -> result B) (b : B) :
  Py.bind c k = Ok b -> exists a, c = Ok a /\ k a = Ok b.
Proof.
  destruct c as [a | e]; simpl; intros H; [eauto | discriminate].
Qed.

(** A table that has been written: the file could be opened, and the disk
    has got it. *)
Lemma to_csv_ok (p : string) (f : Fs.file) (fs fs' : Fs.t) (r : unit) :
  Fs.to_csv p f fs = (Ok r, fs') ->
  Fs.open_for_writing p fs = Ok tt /\ fs' = Fs.write p f fs.
Proof.
  unfold Fs.to_csv.
  destruct (Fs.open_for_writing p fs) as [[] | e]; [| discriminate].
  intros H. split; [reflexivity | congruence].
Qed.

(** A loop whose body appends [f a] to the accumulator builds the
    [flat_map] of [f]. *)
Lemma for_each_flat_map {A B} (f : A -> list B)
  (body : A -> list B -> result (list B)) :
  forall (l : list A) (s s' : list B),
    (forall a s1 s2, In a l -> body a s1 = Ok s2 -> s2 = s1 ++ f a) ->
    for_each l body s = Ok s' ->
    s' = s ++ flat_map f l.
Proof.
  induction l as [| a l IH]; simpl; intros s s' Hbody Hrun.
  - inversion Hrun; subst. now rewrite app_nil_r.
  - apply bind_ok in Hrun as (s1 & H1 & H2).
    apply Hbody in H1; [| now left]. subst s1.
    apply IH in H2; [| intros; eapply Hbody; eauto].
    now rewrite H2, app_assoc.
Qed.

(** A loop whose body keeps an invariant keeps it. *)
Lemma for_each_invariant {A S} (Inv : S -> Prop) (body : A -> S -> result S) :
  forall (l : list A) (s s' : S),
    (forall a s1 s2, In a l -> Inv s1 -> body a s1 = Ok s2 -> Inv s2) ->
    Inv s -> for_each l body s = Ok s' -> Inv s'.
Proof.
  induction l as [| a l IH]; simpl; intros s s' Hbody Hs Hrun.
  - now inversion Hrun; subst.
  - apply bind_ok in Hrun as (s1 & H1 & H2).
    eapply IH; [ | | exact H2].
    + intros; eapply Hbody; eauto.
    + eapply Hbody; eauto.
Qed.

(** A loop whose body cannot raise does not raise. *)
Lemma for_each_total {A S} (body : A -> S -> result S) :
  forall (l : list A) (s : S),
    (forall a s1, In a l -> exists s2, body a s1 = Ok s2) ->
    exists s', for_each l body s = Ok s'.
Proof.
  induction l as [| a l IH]; simpl; intros s Hbody; [eauto |].
  destruct (Hbody a s (or_introl eq_refl)) as (s1 & ->). simpl.
  apply IH. intros; apply Hbody; now right.
Qed.

Lemma dict_get_in {V} (d : dict V) (k : Z) (v : V) :
  dict_get k d = Some v -> In (k, v) d.
Proof.
  induction d as [| [k' v'] d IH]; simpl; [discriminate |].
  destruct (Z.eqb_spec k' k) as [-> | Hne]; intros H.
  - inversion H; subst; now left.
  - right; auto.
Qed.

Lemma dict_get_not_in {V} (d : dict V) (k : Z) :
  ~ In k (keys d) -> dict_get k d = None.
Proof.
  induction d as [| [k' v'] d IH]; simpl; [reflexivity |].
  intros Hn. destruct (Z.eqb_spec k' k) as [-> | Hne]; [tauto |].
  apply IH; tauto.
Qed.

Lemma in_dict_get {V} (d : dict V) (k : Z) (v : V) :
  wf d -> In (k, v) d -> dict_get k d = Some v.
Proof.
  unfold wf. induction d as [| [k' v'] d IH]; simpl; [tauto |].
  intros Hnd [Heq | Hin]; inversion Hnd as [| ? ? Hk Hd]; subst.
  - inversion Heq; subst. now rewrite Z.eqb_refl.
  - destruct (Z.eqb_spec k' k) as [-> | Hne]; [| auto].
    exfalso. apply Hk. change k with (fst (k, v)). now apply in_map.
Qed.

Lemma filter_key_absent {V} (d : dict V) (k : Z) :
  ~ In k (keys d) -> filter (fun ce => fst ce =? k) d = [].
Proof.
  induction d as [| [k' v'] d IH]; simpl; [reflexivity |].
  intros Hn. destruct (Z.eqb_spec k' k) as [-> | Hne]; [tauto |].
  apply IH; tauto.
Qed.

Lemma filter_other_keys_absent {V} (d : dict V) (k : Z) :
  ~ In k (keys d) -> filter (fun ce => negb (fst ce =? k)) d = d.
Proof.
  induction d as [| [k' v'] d IH]; simpl; [reflexivity |].
  intros Hn. destruct (Z.eqb_spec k' k) as [-> | Hne]; [tauto |].
  simpl. f_equal. apply IH; tauto.
Qed.

(** In a Python dict, deleting a key that is there removes its entry and
    leaves the others in place. *)
Lemma delitem_filter {V} (d : dict V) (k : Z) :
  wf d -> In k (keys d) ->
  delitem d k = Ok (filter (fun ce => negb (fst ce =? k)) d).
Proof.
  unfold wf. induction d as [| [k' v'] d IH]; simpl; [tauto |].
  intros Hnd Hin. inversion Hnd as [| ? ? Hk Hd]; subst.
  destruct (Z.eqb_spec k' k) as [-> | Hne]; simpl.
  - now rewrite filter_other_keys_absent.
  - destruct Hin as [Heq | Hin]; [congruence |].
    now rewrite IH.
Qed.

(* ================================================================== *)
(** ** Reference selection in [tile_stack] *)
(* ================================================================== *)

Lemma keys_restrict_channel (c : Z) (t : IndexTree) :
  keys (restrict_channel c t) = keys t.
Proof.
  unfold keys, restrict_channel. rewrite map_map. now apply map_ext.
Qed.

Lemma keys_remove_channel (c : Z) (t : IndexTree) :
  keys (remove_channel c t) = keys t.
Proof.
  unfold keys, remove_channel. rewrite map_map. now apply map_ext.
Qed.

Lemma setitem_fresh {V} (d : dict V) (k : Z) (v : V) :
  ~ In k (keys d) -> setitem d k v = d ++ [(k, v)].
Proof.
  induction d as [| [k' v'] d IH]; simpl; [reflexivity |].
  intros Hn. destruct (Z.eqb_spec k' k) as [-> | Hne]; [tauto |].
  f_equal. apply IH; tauto.
Qed.

Lemma setitem_middle {V} (pre suf : dict V) (k : Z) (v0 v : V) :
  ~ In k (keys pre) ->
  setitem (pre ++ (k, v0) :: suf) k v = pre ++ (k, v) :: suf.
Proof.
  induction pre as [| [k' v'] pre IH]; simpl.
  - now rewrite Z.eqb_refl.
  - intros Hn. destruct (Z.eqb_spec k' k) as [-> | Hne]; [tauto |].
    f_equal. apply IH; tauto.
Qed.

Lemma dict_get_middle {V} (pre suf : dict V) (k : Z) (v : V) :
  ~ In k (keys pre) -> dict_get k (pre ++ (k, v) :: suf) = Some v.
Proof.
  induction pre as [| [k' v'] pre IH]; simpl.
  - now rewrite Z.eqb_refl.
  - intros Hn. destruct (Z.eqb_spec k' k) as [-> | Hne]; [tauto |].
    apply IH; tauto.
Qed.

Lemma filter_key_present {V} (d : dict V) (k : Z) (v : V) :
  wf d -> In (k, v) d -> filter (fun ce => fst ce =? k) d = [(k, v)].
Proof.
  unfold wf. induction d as [| [k' v'] d IH]; simpl; [tauto |].
  intros Hnd Hin. inversion Hnd as [| ? ? Hk Hd]; subst.
  destruct (Z.eqb_spec k' k) as [-> | Hne].
  - destruct Hin as [Heq | Hin].
    + inversion Heq; subst. now rewrite filter_key_absent.
    + exfalso. apply Hk. change k with (fst (k, v)). now apply in_map.
  - destruct Hin as [Heq | Hin]; [congruence | auto].
Qed.

Section TileStackIds.

Variable ch_to_tile : Z.

(** A time point without the first channel leaves the loop state as it
    was: [ch0_dict] is not assigned. *)
Lemma tile_stack_ids_channel_absent (tp_idx : Z) (tp_dict : ChannelDict)
  (st : option ChannelDict * IndexTree) :
  ~ In ch_to_tile (keys tp_dict) ->
  for_each tp_dict (tile_stack_ids_channel ch_to_tile tp_idx) st = Ok st.
Proof.
  induction tp_dict as [| [k v] d IH]; simpl; intros Hn; [reflexivity |].
  destruct st as [o c]. simpl.
  destruct (Z.eqb_spec k ch_to_tile) as [-> | Hne]; [tauto |].
  simpl. apply IH; tauto.
Qed.

Lemma tile_stack_ids_channel_present (tp_idx : Z) (tp_dict : ChannelDict)
  (ch_dict : PosDict) (copy : IndexTree) (tp_copy tp_copy' : ChannelDict) :
  wf tp_dict -> In (ch_to_tile, ch_dict) tp_dict ->
  getitem copy tp_idx = Ok tp_copy ->
  delitem tp_copy ch_to_tile = Ok tp_copy' ->
  forall o,
    for_each tp_dict (tile_stack_ids_channel ch_to_tile tp_idx) (o, copy)
    = Ok (Some [(ch_to_tile, ch_dict)], setitem copy tp_idx tp_copy').
Proof.
  unfold wf. intros Hnd Hin Hget Hdel.
  induction tp_dict as [| [k v] d IH]; simpl in *; [tauto |].
  intros o. inversion Hnd as [| ? ? Hk Hd]; subst.
  destruct (Z.eqb_spec k ch_to_tile) as [-> | Hne].
  - rewrite Hget. simpl. rewrite Hdel. simpl.
    destruct Hin as [Heq | Hin].
    + inversion Heq; subst.
      now apply tile_stack_ids_channel_absent.
    + exfalso. apply Hk. change ch_to_tile with (fst (ch_to_tile, ch_dict)).
      now apply in_map.
  - simpl. destruct Hin as [Heq | Hin]; [congruence |].
    now apply IH.
Qed.

Lemma tile_stack_ids_loop :
  forall (suf pre : IndexTree) (o : option ChannelDict),
    wf (pre ++ suf) ->
    Forall (fun e => wf (snd e)) suf ->
    Forall (fun e => In ch_to_tile (keys (snd e))) suf ->
    exists o',
      for_each suf (tile_stack_ids_time ch_to_tile)
        (o, remove_channel ch_to_tile pre ++ suf,
         restrict_channel ch_to_tile pre)
      = Ok (o', remove_channel ch_to_tile (pre ++ suf),
            restrict_channel ch_to_tile (pre ++ suf)).
Proof.
  induction suf as [| [tp d] suf IH]; intros pre o Hwf Hds Hch.
  - exists o. simpl. now rewrite !app_nil_r.
  - inversion Hds as [| ? ? Hd Hds']; subst.
    inversion Hch as [| ? ? Hc Hch']; subst. simpl in Hd, Hc.
    assert (Hfresh : ~ In tp (keys pre)).
    { unfold wf, keys in Hwf. rewrite map_app in Hwf. simpl in Hwf.
      apply NoDup_remove_2 in Hwf. intros Hin. apply Hwf.
      apply in_or_app. now left. }
    apply in_map_iff in Hc as ([c v] & Hfst & Hin). simpl in Hfst. subst c.
    simpl.
    erewrite tile_stack_ids_channel_present; eauto; cycle 1.
    { unfold getitem. rewrite dict_get_middle; [reflexivity |].
      now rewrite keys_remove_channel. }
    { apply delitem_filter; [exact Hd |].
      change ch_to_tile with (fst (ch_to_tile, v)). now apply in_map. }
    simpl.
    rewrite setitem_middle by now rewrite keys_remove_channel.
    rewrite setitem_fresh by now rewrite keys_restrict_channel.
    specialize (IH (pre ++ [(tp, d)]) (Some [(ch_to_tile, v)])).
    rewrite <- app_assoc in IH. simpl in IH.
    destruct (IH Hwf Hds' Hch') as (o' & Hrun).
    exists o'. rewrite <- Hrun. f_equal.
    unfold remove_channel, restrict_channel. rewrite !map_app. simpl.
    rewrite <- app_assoc. simpl.
    now rewrite (filter_key_present d ch_to_tile v Hd Hin).
Qed.

(** X1.  When the first channel has an entry at every time point of a
    tree of Python dicts, the loop of [tile_stack] returns: [ch0_ids] is
    the tree restricted to the first channel and the copy is the tree
    without it. *)
Lemma tile_stack_ids_every_time_point (t : IndexTree) :
  tree_wf t ->
  Forall (fun e => In ch_to_tile (keys (snd e))) t ->
  tile_stack_ids ch_to_tile t
  = Ok (restrict_channel ch_to_tile t, remove_channel ch_to_tile t).
Proof.
  intros [Hwf Hds] Hch. unfold tile_stack_ids.
  destruct (tile_stack_ids_loop t [] None Hwf Hds Hch) as (o' & Hrun).
  simpl in Hrun. cbv zeta.
  unfold IndexTree, ChannelDict, PosDict, dict in *. rewrite Hrun. reflexivity.
Qed.

End TileStackIds.

(* ================================================================== *)
(** ** The jobs of the two tiling phases *)
(* ================================================================== *)

Lemma tile_remaining_channels_args_jobs (self : Tiler) (t : IndexTree)
  (tiled_ch_id : Z) (cur_meta_df : list Tile.t) (fn_args : list CropTileArgs) :
  tile_remaining_channels_args self t tiled_ch_id cur_meta_df = Ok fn_args ->
  fn_args = crop_jobs self t tiled_ch_id cur_meta_df.
Proof.
  unfold tile_remaining_channels_args, crop_jobs. intros Hrun.
  eapply for_each_flat_map in Hrun; [exact Hrun |].
  intros [tp_idx tp_dict] s1 s2 _ Htp.
  eapply for_each_flat_map in Htp; [exact Htp |].
  intros [ch_idx ch_dict] s3 s4 _ Hch.
  eapply for_each_flat_map in Hch; [exact Hch |].
  intros [pos_idx sl_idx_list] s5 s6 _ Hpos.
  apply bind_ok in Hpos as (depth & Hdepth & Hsl).
  unfold propagated_slices. unfold getitem in Hdepth.
  destruct (dict_get ch_idx (channel_depth self)) as [d |]; [| discriminate].
  inversion Hdepth; subst d.
  eapply for_each_flat_map in Hsl; [exact Hsl |].
  intros sl_idx s7 s8 _ Hbody.
  apply bind_ok in Hbody as (list_idx & _ & Hif).
  unfold slice_crop_args.
  destruct (np_any _); inversion Hif; subst; [reflexivity |].
  now rewrite app_nil_r.
Qed.

Lemma flat_map_singleton {A B} (f : A -> B) (l : list A) :
  flat_map (fun x => [f x]) l = map f l.
Proof. induction l; simpl; congruence. Qed.

Lemma tile_first_channel_args_jobs (self : Tiler) (channel0_ids : IndexTree)
  (channel0_depth : Z) (cur_mask_dir : option string) (is_mask : bool)
  (fn_args : list CropTileArgs) :
  tile_first_channel_args self channel0_ids channel0_depth cur_mask_dir is_mask
  = Ok fn_args ->
  fn_args = first_channel_jobs self channel0_ids channel0_depth cur_mask_dir.
Proof.
  unfold tile_first_channel_args, first_channel_jobs. intros Hrun.
  eapply for_each_flat_map in Hrun; [exact Hrun |].
  intros [tp_idx tp_dict] s1 s2 _ Htp.
  eapply for_each_flat_map in Htp; [exact Htp |].
  intros [ch_idx ch_dict] s3 s4 _ Hch.
  apply bind_ok in Hch as (normalize_im & _ & Hch).
  eapply for_each_flat_map in Hch; [exact Hch |].
  intros [pos_idx sl_idx_list] s5 s6 _ Hpos.
  eapply (for_each_flat_map
            (fun sl_idx =>
               [get_crop_tile_args self ch_idx tp_idx sl_idx pos_idx
                  (TileTask (tile_size self) (step_size self) cur_mask_dir)]))
    in Hpos.
  - rewrite Hpos. now rewrite flat_map_singleton.
  - intros sl_idx s7 s8 _ Hbody. now inversion Hbody.
Qed.

Lemma in_crop_jobs (self : Tiler) (t : IndexTree) (tiled_ch_id : Z)
  (cur_meta_df : list Tile.t) (a : CropTileArgs) :
  In a (crop_jobs self t tiled_ch_id cur_meta_df) <->
  exists tp_idx tp_dict ch_idx ch_dict pos_idx sl_idx_list sl_idx,
    In (tp_idx, tp_dict) t /\ In (ch_idx, ch_dict) tp_dict /\
    In (pos_idx, sl_idx_list) ch_dict /\
    In sl_idx (propagated_slices self ch_idx sl_idx_list) /\
    np_any (_get_tile_indices (tile_size self) cur_meta_df tp_idx tiled_ch_id
              pos_idx sl_idx) = true /\
    a = get_crop_tile_args self ch_idx tp_idx sl_idx pos_idx
          (CropTask (_get_tile_indices (tile_size self) cur_meta_df tp_idx
                       tiled_ch_id pos_idx sl_idx)).
Proof.
  unfold crop_jobs. split.
  - intros H.
    apply in_flat_map in H as ([tp_idx tp_dict] & Htp & H).
    apply in_flat_map in H as ([ch_idx ch_dict] & Hch & H).
    apply in_flat_map in H as ([pos_idx sl_idx_list] & Hpos & H).
    apply in_flat_map in H as (sl_idx & Hsl & H).
    unfold slice_crop_args in H.
    destruct (np_any _) eqn:Hany; simpl in H; [| tauto].
    destruct H as [<- | []].
    exists tp_idx, tp_dict, ch_idx, ch_dict, pos_idx, sl_idx_list, sl_idx.
    repeat split; assumption.
  - intros (tp_idx & tp_dict & ch_idx & ch_dict & pos_idx & sl_idx_list &
            sl_idx & Htp & Hch & Hpos & Hsl & Hany & ->).
    apply in_flat_map. exists (tp_idx, tp_dict). split; [assumption |].
    apply in_flat_map. exists (ch_idx, ch_dict). split; [assumption |].
    apply in_flat_map. exists (pos_idx, sl_idx_list). split; [assumption |].
    apply in_flat_map. exists sl_idx. split; [assumption |].
    unfold slice_crop_args. rewrite Hany. now left.
Qed.

Lemma in_adjust_slice_margins (slice_ids : list Z) (depth k : Z) :
  In k (adjust_slice_margins slice_ids depth) -> In k slice_ids.
Proof.
  unfold adjust_slice_margins. intros H. now apply filter_In in H.
Qed.

Lemma in_propagated_slices (self : Tiler) (ch_idx : Z) (sl_idx_list : list Z)
  (k : Z) :
  In k (propagated_slices self ch_idx sl_idx_list) -> In k sl_idx_list.
Proof.
  unfold propagated_slices.
  destruct (dict_get ch_idx (channel_depth self)); [| intros []].
  apply in_adjust_slice_margins.
Qed.

Lemma in_get_tile_indices (tile_size : Z * Z) (tiled_meta : list Tile.t)
  (time_idx channel_idx pos_idx slice_idx : Z) (i : TileIndex) :
  In i (_get_tile_indices tile_size tiled_meta time_idx channel_idx pos_idx
          slice_idx) <->
  exists r0,
    In r0 tiled_meta /\
    Tile.time_idx r0 = time_idx /\ Tile.channel_idx r0 = channel_idx /\
    Tile.pos_idx r0 = pos_idx /\ Tile.slice_idx r0 = slice_idx /\
    i = (Tile.row_start r0, Tile.row_start r0 + fst tile_size,
         Tile.col_start r0, Tile.col_start r0 + snd tile_size).
Proof.
  unfold _get_tile_indices, tile_key. rewrite in_map_iff. split.
  - intros (r0 & <- & Hin). apply filter_In in Hin as (Hin & Hkey).
    apply andb_prop in Hkey as (Hkey & Ht).
    apply andb_prop in Hkey as (Hkey & Hp).
    apply andb_prop in Hkey as (Hc & Hs).
    exists r0. repeat split; try assumption; now apply Z.eqb_eq.
  - intros (r0 & Hin & Ht & Hc & Hp & Hs & ->).
    exists r0. split; [reflexivity |]. apply filter_In. split; [assumption |].
    subst. now rewrite !Z.eqb_refl.
Qed.

Lemma np_any_nonempty (l : list TileIndex) : np_any l = true -> l <> [].
Proof. intros H ->. discriminate. Qed.

(** ** The worker pool and the persisted table *)

Lemma mp_save_rows (job : CropTileArgs -> list Tile.t)
  (fn_args : list CropTileArgs) (fs : Fs.t) :
  fst (mp_save job fn_args fs) = Ok (map job fn_args).
Proof.
  revert fs. induction fn_args as [| a rest IH]; intros fs; [reflexivity |].
  simpl. unfold mbind, modify. specialize (IH (save_tiles a (job a) fs)).
  destruct (mp_save job rest (save_tiles a (job a) fs)) as [[dfs | e] fs'];
    simpl in *; [now inversion IH | discriminate].
Qed.

Lemma lookup_write (p : string) (f : Fs.file) (fs : Fs.t) :
  Fs.lookup p (Fs.write p f fs) = Some f.
Proof.
  induction fs as [| [p' f'] fs IH]; simpl.
  - now rewrite String.eqb_refl.
  - destruct (String.eqb p' p) eqn:E; simpl; now rewrite E.
Qed.

Lemma lookup_write_other (p q : string) (f : Fs.file) (fs : Fs.t) :
  q <> p -> Fs.lookup q (Fs.write p f fs) = Fs.lookup q fs.
Proof.
  intros Hne. induction fs as [| [p' f'] fs IH]; simpl.
  - destruct (String.eqb_spec p q); [congruence | reflexivity].
  - destruct (String.eqb_spec p' p) as [-> | Hp]; simpl.
    + destruct (String.eqb_spec p q); [congruence | reflexivity].
    + destruct (String.eqb_spec p' q); [reflexivity | assumption].
Qed.

Lemma write_write (p : string) (f : Fs.file) (fs : Fs.t) :
  Fs.write p f (Fs.write p f fs) = Fs.write p f fs.
Proof.
  induction fs as [| [p' f'] fs IH]; simpl.
  - now rewrite String.eqb_refl.
  - destruct (String.eqb p' p) eqn:E; simpl; rewrite E; [reflexivity |].
    now rewrite IH.
Qed.

(** A table that could be written can be written again. *)
Lemma open_for_writing_write (p : string) (f : Fs.file) (fs : Fs.t) :
  Fs.is_dir f = false ->
  Fs.open_for_writing p fs = Ok tt ->
  Fs.open_for_writing p (Fs.write p f fs) = Ok tt.
Proof.
  unfold Fs.open_for_writing. intros Hf.
  rewrite lookup_write.
  destruct (forallb Fs.is_slash (list_ascii_of_string (Fs.dirname p))).
  - intros _. destruct f; try reflexivity; discriminate.
  - destruct (String.eqb_spec (Fs.dirname p) p) as [-> | Hne].
    + destruct (Fs.lookup p fs) as [[] |]; discriminate.
    + rewrite lookup_write_other by assumption.
      destruct (Fs.lookup (Fs.dirname p) fs) as [[] |]; try discriminate.
      intros _. destruct f; try reflexivity; discriminate.
Qed.

Lemma to_csv_run (p : string) (f : Fs.file) (fs : Fs.t) :
  Fs.open_for_writing p fs = Ok tt ->
  Fs.to_csv p f fs = (Ok tt, Fs.write p f fs).
Proof. unfold Fs.to_csv. now intros ->. Qed.

Lemma in_insert_by_name (r x : Tile.t) (l : list Tile.t) :
  In x (insert_by_name r l) <-> x = r \/ In x l.
Proof.
  induction l as [| r' l IH]; simpl.
  - intuition congruence.
  - destruct (String.leb _ _); simpl; [intuition congruence |].
    rewrite IH. intuition congruence.
Qed.

Lemma in_sort_values_file_name (x : Tile.t) (l : list Tile.t) :
  In x (sort_values_file_name l) <-> In x l.
Proof.
  induction l as [| r l IH]; simpl; [tauto |].
  rewrite in_insert_by_name, IH. intuition congruence.
Qed.

(** A run of [tile_remaining_channels] that returns leaves the object as it
    was and the joined, sorted table in [frames_meta.csv]. *)
Lemma tile_remaining_channels_run
  (tile_name : Z -> Z -> Z -> Z -> Z -> Z -> string) (t : IndexTree)
  (tiled_ch_id : Z) (cur_meta_df : list Tile.t) (w w' : World) :
  tile_remaining_channels tile_name t tiled_ch_id cur_meta_df w = (Ok tt, w') ->
  exists new,
    cropped_metadata tile_name (fst w) t tiled_ch_id cur_meta_df = Ok new /\
    fst w' = fst w /\
    Fs.lookup (Fs.join (tile_dir (fst w)) "frames_meta.csv") (snd w')
    = Some (Fs.TilesMeta (sort_values_file_name (cur_meta_df ++ new))).
Proof.
  unfold tile_remaining_channels, cropped_metadata, mbind, get, lift, on_fs,
    mp_crop_save.
  destruct (tile_remaining_channels_args (fst w) t tiled_ch_id cur_meta_df)
    as [fn_args | e]; simpl; [| discriminate].
  pose proof (mp_save_rows (crop_and_save tile_name) fn_args (snd w)) as Hrows.
  destruct (mp_save (crop_and_save tile_name) fn_args (snd w)) as [r fs'].
  simpl in Hrows. subst r.
  destruct (pd_concat (map (crop_and_save tile_name) fn_args)) as [new | e];
    simpl; [| discriminate].
  destruct (Fs.to_csv _ _ fs') as [[[] | e] fs''] eqn:Ecsv; [| discriminate].
  apply to_csv_ok in Ecsv as (_ & ->).
  intros H. inversion H; subst. simpl.
  exists new. repeat split. apply lookup_write.
Qed.

(** The rows returned by the crop jobs, one by one: a row comes from a
    slice that propagation visits in some leaf of the tree and from a row
    of the tiled channel at the same time, position and slice, whose
    origin it takes. *)
Lemma cropped_metadata_rows
  (tile_name : Z -> Z -> Z -> Z -> Z -> Z -> string) (self : Tiler)
  (t : IndexTree) (tiled_ch_id : Z) (cur_meta_df new : list Tile.t) :
  cropped_metadata tile_name self t tiled_ch_id cur_meta_df = Ok new ->
  forall r,
    In r new <->
    exists tp_dict ch_dict sl_idx_list r0,
      In (Tile.time_idx r, tp_dict) t /\
      In (Tile.channel_idx r, ch_dict) tp_dict /\
      In (Tile.pos_idx r, sl_idx_list) ch_dict /\
      In (Tile.slice_idx r)
        (propagated_slices self (Tile.channel_idx r) sl_idx_list) /\
      np_any (_get_tile_indices (tile_size self) cur_meta_df (Tile.time_idx r)
                tiled_ch_id (Tile.pos_idx r) (Tile.slice_idx r)) = true /\
      In r0 cur_meta_df /\
      Tile.time_idx r0 = Tile.time_idx r /\
      Tile.channel_idx r0 = tiled_ch_id /\
      Tile.pos_idx r0 = Tile.pos_idx r /\
      Tile.slice_idx r0 = Tile.slice_idx r /\
      Tile.row_start r = Tile.row_start r0 /\
      Tile.col_start r = Tile.col_start r0 /\
      Tile.file_name r
      = tile_name (Tile.time_idx r) (Tile.channel_idx r) (Tile.slice_idx r)
          (Tile.pos_idx r) (Tile.row_start r) (Tile.col_start r).
Proof.
  unfold cropped_metadata. intros Hrun r.
  apply bind_ok in Hrun as (fn_args & Hargs & Hcat).
  apply tile_remaining_channels_args_jobs in Hargs. subst fn_args.
  assert (Hnew : new = List.concat
                         (map (crop_and_save tile_name)
                            (crop_jobs self t tiled_ch_id cur_meta_df))).
  { unfold pd_concat in Hcat.
    destruct (map _ _); inversion Hcat; reflexivity. }
  clear Hcat. subst new. rewrite <- flat_map_concat_map, in_flat_map. split.
  - intros (a & Ha & Hr).
    apply in_crop_jobs in Ha
      as (tp_idx & tp_dict & ch_idx & ch_dict & pos_idx & sl_idx_list & sl_idx
          & Htp & Hch & Hpos & Hsl & Hany & ->).
    unfold crop_and_save in Hr. simpl in Hr.
    apply in_map_iff in Hr as ([[[r0' r1'] c0'] c1'] & <- & Hi).
    apply in_get_tile_indices in Hi as (r0 & Hin & Ht & Hc & Hp & Hs & Hi).
    inversion Hi; subst. simpl.
    exists tp_dict, ch_dict, sl_idx_list, r0. repeat split; assumption.
  - intros (tp_dict & ch_dict & sl_idx_list & r0 & Htp & Hch & Hpos & Hsl
            & Hany & Hin & Ht & Hc & Hp & Hs & Hrow & Hcol & Hname).
    eexists. split.
    + apply in_crop_jobs.
      exists (Tile.time_idx r), tp_dict, (Tile.channel_idx r), ch_dict,
        (Tile.pos_idx r), sl_idx_list, (Tile.slice_idx r).
      repeat split; try eassumption.
    + unfold crop_and_save. simpl. apply in_map_iff.
      exists (Tile.row_start r0, Tile.row_start r0 + fst (tile_size self),
              Tile.col_start r0, Tile.col_start r0 + snd (tile_size self)).
      split.
      * unfold tile_row. simpl. destruct r; simpl in *. subst. reflexivity.
      * apply in_get_tile_indices. exists r0. repeat split; assumption.
Qed.

(* ================================================================== *)
(** ** Propagation of the reference tiles *)
(* ================================================================== *)

(** C1.  Whenever [tile_remaining_channels] returns, the table it leaves
    in [frames_meta.csv] is the table of the tiled channel joined with the
    rows of the crop jobs, and each of these rows has the row and column
    start of a row of the tiled (reference) channel in [cur_meta_df] with
    the same time, position and slice: the other channels take their tile
    grid from the reference channel. *)
Theorem remaining_channels_reuse_reference_origins
  (tile_name : Z -> Z -> Z -> Z -> Z -> Z -> string) (t : IndexTree)
  (tiled_ch_id : Z) (cur_meta_df : list Tile.t) (w w' : World) :
  tile_remaining_channels tile_name t tiled_ch_id cur_meta_df w = (Ok tt, w') ->
  exists new,
    cropped_metadata tile_name (fst w) t tiled_ch_id cur_meta_df = Ok new /\
    Fs.lookup (Fs.join (tile_dir (fst w)) "frames_meta.csv") (snd w')
    = Some (Fs.TilesMeta (sort_values_file_name (cur_meta_df ++ new))) /\
    forall r,
      In r new ->
      exists r0,
        In r0 cur_meta_df /\
        Tile.channel_idx r0 = tiled_ch_id /\
        Tile.time_idx r0 = Tile.time_idx r /\
        Tile.pos_idx r0 = Tile.pos_idx r /\
        Tile.slice_idx r0 = Tile.slice_idx r /\
        Tile.row_start r = Tile.row_start r0 /\
        Tile.col_start r = Tile.col_start r0.
Proof.
  intros Hrun.
  apply tile_remaining_channels_run in Hrun as (new & Hnew & _ & Hcsv).
  exists new. split; [assumption |]. split; [assumption |].
  intros r Hr.
  apply (cropped_metadata_rows _ _ _ _ _ _ Hnew) in Hr
    as (tp_dict & ch_dict & sl_idx_list & r0 & _ & _ & _ & _ & _ & Hin & Ht
        & Hc & Hp & Hs & Hrow & Hcol & _).
  exists r0. repeat split; assumption.
Qed.

Lemma remaining_channels_reuse_reference_origins_witness :
  exists new,
    cropped_metadata Demo.tile_name (fst Demo.world_B) Demo.remaining_B 0
      Demo.ref_B = Ok new /\
    Fs.lookup (Fs.join (tile_dir (fst Demo.world_B)) "frames_meta.csv")
      (snd DemoRuns.world_B_propagated)
    = Some (Fs.TilesMeta (sort_values_file_name (Demo.ref_B ++ new))) /\
    forall r,
      In r new ->
      exists r0,
        In r0 Demo.ref_B /\
        Tile.channel_idx r0 = 0 /\
        Tile.time_idx r0 = Tile.time_idx r /\
        Tile.pos_idx r0 = Tile.pos_idx r /\
        Tile.slice_idx r0 = Tile.slice_idx r /\
        Tile.row_start r = Tile.row_start r0 /\
        Tile.col_start r = Tile.col_start r0.
Proof.
  apply (remaining_channels_reuse_reference_origins Demo.tile_name
           Demo.remaining_B 0 Demo.ref_B Demo.world_B
           DemoRuns.world_B_propagated).
  vm_compute. reflexivity.
Defined.

(** C2.  Whenever [tile_remaining_channels] returns: (a) for a time,
    position and slice at which the tiled (reference) channel has no row in
    [cur_meta_df], the crop jobs return no row, for any channel; (b) for a
    time, channel, position and slice that is not a leaf of the tree the
    method is given, the crop jobs return no row either.  No tile is made
    up. *)
Theorem remaining_channels_skip_missing_leaves
  (tile_name : Z -> Z -> Z -> Z -> Z -> Z -> string) (t : IndexTree)
  (tiled_ch_id : Z) (cur_meta_df : list Tile.t) (w w' : World) :
  tile_remaining_channels tile_name t tiled_ch_id cur_meta_df w = (Ok tt, w') ->
  exists new,
    cropped_metadata tile_name (fst w) t tiled_ch_id cur_meta_df = Ok new /\
    Fs.lookup (Fs.join (tile_dir (fst w)) "frames_meta.csv") (snd w')
    = Some (Fs.TilesMeta (sort_values_file_name (cur_meta_df ++ new))) /\
    (forall tp pos sl,
        (forall r0, In r0 cur_meta_df ->
                    ~ (Tile.channel_idx r0 = tiled_ch_id /\
                       Tile.time_idx r0 = tp /\ Tile.pos_idx r0 = pos /\
                       Tile.slice_idx r0 = sl)) ->
        forall r, In r new ->
                  ~ (Tile.time_idx r = tp /\ Tile.pos_idx r = pos /\
                     Tile.slice_idx r = sl)) /\
    (forall tp ch pos sl,
        ~ leaf t tp ch pos sl ->
        forall r, In r new ->
                  ~ (Tile.time_idx r = tp /\ Tile.channel_idx r = ch /\
                     Tile.pos_idx r = pos /\ Tile.slice_idx r = sl)).
Proof.
  intros Hrun.
  apply tile_remaining_channels_run in Hrun as (new & Hnew & _ & Hcsv).
  exists new. split; [assumption |]. split; [assumption |]. split.
  - intros tp pos sl Hnone r Hr (Ht' & Hp' & Hs').
    apply (cropped_metadata_rows _ _ _ _ _ _ Hnew) in Hr
      as (tp_dict & ch_dict & sl_idx_list & r0 & _ & _ & _ & _ & _ & Hin & Ht
          & Hc & Hp & Hs & _).
    apply (Hnone r0 Hin). repeat split; congruence.
  - intros tp ch pos sl Hleaf r Hr (Ht' & Hc' & Hp' & Hs').
    apply (cropped_metadata_rows _ _ _ _ _ _ Hnew) in Hr
      as (tp_dict & ch_dict & sl_idx_list & r0 & Htp & Hch & Hpos & Hsl & _).
    apply Hleaf. exists tp_dict, ch_dict, sl_idx_list. subst.
    repeat split; try assumption.
    eapply in_propagated_slices; eassumption.
Qed.

Lemma remaining_channels_skip_missing_leaves_witness :
  exists new,
    cropped_metadata Demo.tile_name (fst Demo.world_B) Demo.remaining_B 0
      Demo.ref_B = Ok new /\
    Fs.lookup (Fs.join (tile_dir (fst Demo.world_B)) "frames_meta.csv")
      (snd DemoRuns.world_B_propagated)
    = Some (Fs.TilesMeta (sort_values_file_name (Demo.ref_B ++ new))) /\
    (forall tp pos sl,
        (forall r0, In r0 Demo.ref_B ->
                    ~ (Tile.channel_idx r0 = 0 /\
                       Tile.time_idx r0 = tp /\ Tile.pos_idx r0 = pos /\
                       Tile.slice_idx r0 = sl)) ->
        forall r, In r new ->
                  ~ (Tile.time_idx r = tp /\ Tile.pos_idx r = pos /\
                     Tile.slice_idx r = sl)) /\
    (forall tp ch pos sl,
        ~ leaf Demo.remaining_B tp ch pos sl ->
        forall r, In r new ->
                  ~ (Tile.time_idx r = tp /\ Tile.channel_idx r = ch /\
                     Tile.pos_idx r = pos /\ Tile.slice_idx r = sl)).
Proof.
  apply (remaining_channels_skip_missing_leaves Demo.tile_name
           Demo.remaining_B 0 Demo.ref_B Demo.world_B
           DemoRuns.world_B_propagated).
  vm_compute. reflexivity.
Defined.

(** Scenario B of the specification: the first channel has slices 0, 1, 2
    at position 0 and the second channel slices 0, 1; propagation returns
    rows for slices 0 and 1 of the second channel only. *)
Example scenario_B_slices :
  option_map (map (fun r => (Tile.channel_idx r, Tile.slice_idx r)))
    (match cropped_metadata Demo.tile_name Demo.tiler_B Demo.remaining_B 0
             Demo.ref_B with
     | Ok new => Some new
     | Raise _ => None
     end)
  = Some [(1, 0); (1, 0); (1, 1); (1, 1)].
Proof. vm_compute. reflexivity. Qed.

(** When no leaf has tiles to reuse there is nothing to join: pandas
    refuses to concatenate an empty list and the method raises before it
    writes the table. *)
Example nothing_to_propagate_raises :
  fst (tile_remaining_channels Demo.tile_name Demo.remaining_B 0 []
         Demo.world_B) = Raise ValueError.
Proof. vm_compute. reflexivity. Qed.

(* ================================================================== *)
(** ** Slice margins *)
(* ================================================================== *)






(* ================================================================== *)
(** ** A run of [tile_stack] *)
(* ================================================================== *)

Lemma tile_first_channel_self (tile_image : CropTileArgs -> list (Z * Z))
  (tile_name : Z -> Z -> Z -> Z -> Z -> Z -> string) (channel0_ids : IndexTree)
  (channel0_depth : Z) (cur_mask_dir : option string) (is_mask : bool)
  (w : World) :
  fst (snd (tile_first_channel tile_image tile_name channel0_ids channel0_depth
              cur_mask_dir is_mask w)) = fst w.
Proof.
  unfold tile_first_channel, mbind, get, lift, on_fs, ret.
  destruct (tile_first_channel_args _ _ _ _ _); simpl; [| reflexivity].
  destruct (mp_tile_save _ _ _ _) as [[dfs | e] fs']; simpl; [| reflexivity].
  destruct (pd_concat dfs); simpl; [| reflexivity].
  destruct (Fs.to_csv _ _ fs') as [[[] | e] fs'']; reflexivity.
Qed.

Lemma tile_stack_run (tile_image : CropTileArgs -> list (Z * Z))
  (tile_name : Z -> Z -> Z -> Z -> Z -> Z -> string) (w w' : World) :
  tile_stack tile_image tile_name w = (Ok tt, w') ->
  exists ch_to_tile rest ch_depth ids meta_df fs1,
    channel_ids (fst w) = ch_to_tile :: rest /\
    dict_get ch_to_tile (channel_depth (fst w)) = Some ch_depth /\
    tile_stack_ids ch_to_tile (nested_id_dict (fst w)) = Ok ids /\
    tile_first_channel tile_image tile_name (fst ids) ch_depth None false w
    = (Ok meta_df, (fst w, fs1)) /\
    fst w' = set_channel_ids rest (fst w) /\
    match rest with
    | [] => snd w' = fs1
    | _ :: _ =>
        tile_remaining_channels tile_name (snd ids) ch_to_tile meta_df
          (set_channel_ids rest (fst w), fs1) = (Ok tt, w')
    end.
Proof.
  unfold tile_stack. unfold mbind at 1. unfold get at 1.
  unfold mbind at 1. unfold lift at 1. unfold first.
  destruct (channel_ids (fst w)) as [| ch_to_tile rest] eqn:Hids;
    [discriminate |].
  unfold mbind at 1. unfold lift at 1. unfold getitem.
  destruct (dict_get ch_to_tile (channel_depth (fst w))) as [ch_depth |]
    eqn:Hdepth; [| discriminate].
  unfold mbind at 1. unfold lift at 1.
  destruct (tile_stack_ids ch_to_tile (nested_id_dict (fst w))) as [ids | e]
    eqn:Hsplit; [| discriminate].
  unfold mbind at 1.
  pose proof (tile_first_channel_self tile_image tile_name (fst ids) ch_depth
                None false w) as Hself.
  destruct (tile_first_channel tile_image tile_name (fst ids) ch_depth None
              false w) as [[meta_df | e] [self1 fs1]] eqn:Hfirst;
    [| discriminate].
  simpl in Hself. subst self1.
  unfold pop_channel_ids, mbind, pop0, lift, put, get, ret.
  cbn [fst snd]. rewrite Hids. cbn [fst snd channel_ids set_channel_ids].
  intros Hrest.
  exists ch_to_tile, rest, ch_depth, ids, meta_df, fs1.
  split; [reflexivity |]. split; [exact Hdepth |].
  split; [exact Hsplit |]. split; [exact Hfirst |].
  destruct rest as [| c rest'].
  - inversion Hrest; subst. simpl. split; reflexivity.
  - split; [| exact Hrest].
    apply tile_remaining_channels_run in Hrest as (new & _ & Hself & _).
    exact Hself.
Qed.


Lemma tile_first_channel_run (tile_image : CropTileArgs -> list (Z * Z))
  (tile_name : Z -> Z -> Z -> Z -> Z -> Z -> string) (channel0_ids : IndexTree)
  (channel0_depth : Z) (cur_mask_dir : option string) (is_mask : bool)
  (w w1 : World) (meta_df : list Tile.t) :
  tile_first_channel tile_image tile_name channel0_ids channel0_depth
    cur_mask_dir is_mask w = (Ok meta_df, w1) ->
  tile_first_channel_args (fst w) channel0_ids channel0_depth cur_mask_dir
    is_mask
  = Ok (first_channel_jobs (fst w) channel0_ids channel0_depth cur_mask_dir) /\
  meta_df
  = sort_values_file_name
      (List.concat
         (map (tile_and_save tile_image tile_name)
            (first_channel_jobs (fst w) channel0_ids channel0_depth
               cur_mask_dir))).
Proof.
  unfold tile_first_channel, mbind, get, lift, on_fs, Fs.to_csv, ret,
    mp_tile_save.
  destruct (tile_first_channel_args _ _ _ _ _) as [fn_args | e] eqn:Hargs;
    simpl; [| discriminate].
  apply tile_first_channel_args_jobs in Hargs. subst fn_args.
  pose proof (mp_save_rows (tile_and_save tile_image tile_name)
                (first_channel_jobs (fst w) channel0_ids channel0_depth
                   cur_mask_dir) (snd w)) as Hrows.
  destruct (mp_save _ _ (snd w)) as [r fs']. simpl in Hrows. subst r.
  unfold pd_concat.
  destruct (map _ _) eqn:Hmap; simpl; [discriminate |].
  destruct (Fs.open_for_writing _ fs') as [[] | e]; [| discriminate].
  intros H. inversion H; subst. split; reflexivity.
Qed.

(** The table that [tile_first_channel] returns is on the disk. *)
Lemma tile_first_channel_written (tile_image : CropTileArgs -> list (Z * Z))
  (tile_name : Z -> Z -> Z -> Z -> Z -> Z -> string) (channel0_ids : IndexTree)
  (channel0_depth : Z) (cur_mask_dir : option string) (is_mask : bool)
  (w w' : World) (ch0_meta_df : list Tile.t) :
  tile_first_channel tile_image tile_name channel0_ids channel0_depth
    cur_mask_dir is_mask w = (Ok ch0_meta_df, w') ->
  Fs.lookup (Fs.join (tile_dir (fst w)) "frames_meta.csv") (snd w')
  = Some (Fs.TilesMeta ch0_meta_df).
Proof.
  unfold tile_first_channel, mbind, get, lift, on_fs, Fs.to_csv, ret.
  destruct (tile_first_channel_args _ _ _ _ _); simpl; [| discriminate].
  destruct (mp_tile_save _ _ _ _) as [[dfs | e] fs']; simpl;
    [| discriminate].
  destruct (pd_concat dfs); simpl; [| discriminate].
  destruct (Fs.open_for_writing _ fs') as [[] | e]; [| discriminate].
  intros H. inversion H; subst. simpl. apply lookup_write.
Qed.

(* ================================================================== *)
(** ** Depth of each channel *)
(* ================================================================== *)




(** The jobs of propagation for the channels of depths 2 and 3 over the
    same five slices of one position: slices 1, 2 and 3 for both. *)
Example depths_2_and_3_slices :
  map (fun a => (a_channel_idx a, a_slice_idx a))
    (crop_jobs Demo.tiler_depths_2_3 Demo.tree_depths 0 Demo.ref_depths)
  = [(1, 1); (1, 2); (1, 3); (2, 1); (2, 2); (2, 3)]
  /\ tile_remaining_channels_args Demo.tiler_depths_2_3 Demo.tree_depths 0
       Demo.ref_depths
     = Ok (crop_jobs Demo.tiler_depths_2_3 Demo.tree_depths 0 Demo.ref_depths)
  /\ adjust_slice_margins [0; 1; 2; 3; 4] 2 = [1; 2; 3]
  /\ adjust_slice_margins [0; 1; 2; 3; 4] 3 = [1; 2; 3].
Proof. vm_compute. repeat split; reflexivity. Qed.

(** The slices that propagation visits for the channel of depth 1 and for
    the channel of depth 3, over the same five slices of one position; the
    tiled channel 0 has depth 5, which would have kept slice 2 alone. *)
Example depths_1_and_3_slices :
  map (fun a => (a_channel_idx a, a_slice_idx a))
    (crop_jobs Demo.tiler_depths Demo.tree_depths 0 Demo.ref_depths)
  = [(1, 0); (1, 1); (1, 2); (1, 3); (1, 4); (2, 1); (2, 2); (2, 3)]
  /\ adjust_slice_margins [0; 1; 2; 3; 4] 5 = [2].
Proof. vm_compute. split; reflexivity. Qed.

(* ================================================================== *)
(** ** The first channel in [tile_stack] *)
(* ================================================================== *)

(** C3, on the code.  In [Demo.tree_gap] the first channel, 0, has frames
    at time 0 only.  The loop of [tile_stack] still enters time 1 in
    [ch0_ids], with the sub-dict of time 0 that [ch0_dict] still holds,
    whereas the tree restricted to channel 0 has nothing at time 1.  When
    the time point without the first channel comes first, [ch0_dict] is not
    bound yet and the loop raises.  The copy is the tree without channel 0
    in the first case.  The sibling loop of [tile_mask_stack] assigns
    inside the test and enters no such time point. *)
Theorem tile_stack_ids_gap :
  tile_stack_ids 0 Demo.tree_gap
  = Ok ([(0, [(0, [(0, [0; 1; 2])])]); (1, [(0, [(0, [0; 1; 2])])])],
        remove_channel 0 Demo.tree_gap) /\
  restrict_channel 0 Demo.tree_gap = [(0, [(0, [(0, [0; 1; 2])])]); (1, [])] /\
  tile_stack_ids 0 (rev Demo.tree_gap) = Raise UnboundLocalError /\
  tile_mask_stack_ids 0 Demo.tree_gap = [(0, [(0, [(0, [0; 1; 2])])])].
Proof. vm_compute. repeat split; reflexivity. Qed.

(** With the tree of [Demo.tree_gap], [tile_stack] goes on to make tiling
    jobs for channel 0 at time 1, where the data set has no such frame. *)
Example tile_stack_gap_jobs :
  map (fun a => (a_time_idx a, a_channel_idx a, a_slice_idx a))
    (first_channel_jobs Demo.tiler_B
       [(0, [(0, [(0, [0; 1; 2])])]); (1, [(0, [(0, [0; 1; 2])])])] 1 None)
  = [(0, 0, 0); (0, 0, 1); (0, 0, 2); (1, 0, 0); (1, 0, 1); (1, 0, 2)].
Proof. vm_compute. reflexivity. Qed.

(* ================================================================== *)
(** ** The state of the tiler after [tile_stack] *)
(* ================================================================== *)

(** C10.  A run of [tile_stack] that returns has removed the first element
    of [self.channel_ids], the channel it tiled first: the list of the
    object is the tail of the list it had, and no other field of the object
    has changed.  When the channel indices are pairwise distinct, that
    channel is no longer in the list, and the channel a further call would
    take as [self.channel_ids[0]] is not that channel (with a list that is
    now empty, the further call raises [IndexError]). *)
Theorem tile_stack_pops_first_channel
  (tile_image : CropTileArgs -> list (Z * Z))
  (tile_name : Z -> Z -> Z -> Z -> Z -> Z -> string) (w w' : World) :
  tile_stack tile_image tile_name w = (Ok tt, w') ->
  exists ch_to_tile rest,
    channel_ids (fst w) = ch_to_tile :: rest /\
    fst w' = set_channel_ids rest (fst w) /\
    channel_ids (fst w') = rest /\
    (NoDup (channel_ids (fst w)) ->
     ~ In ch_to_tile (channel_ids (fst w')) /\
     (rest = [] -> first (channel_ids (fst w')) = Raise IndexError) /\
     forall c, first (channel_ids (fst w')) = Ok c -> c <> ch_to_tile).
Proof.
  intros Hrun.
  apply tile_stack_run in Hrun
    as (ch_to_tile & rest & ch_depth & ids & meta_df & fs1 & Hids & _ & _ & _
        & Hself & _).
  exists ch_to_tile, rest. rewrite Hself. simpl.
  split; [assumption |]. split; [reflexivity |]. split; [reflexivity |].
  rewrite Hids. intros Hnd. inversion Hnd as [| ? ? Hnotin _]; subst.
  split; [assumption |]. split.
  - intros ->. reflexivity.
  - intros c Hc. destruct rest as [| c' rest']; [discriminate |].
    inversion Hc; subst. intros ->. apply Hnotin. now left.
Qed.

Lemma tile_stack_pops_first_channel_witness :
  exists ch_to_tile rest,
    channel_ids (fst Demo.world_B) = ch_to_tile :: rest /\
    fst DemoRuns.world_B_tiled = set_channel_ids rest (fst Demo.world_B) /\
    channel_ids (fst DemoRuns.world_B_tiled) = rest /\
    (NoDup (channel_ids (fst Demo.world_B)) ->
     ~ In ch_to_tile (channel_ids (fst DemoRuns.world_B_tiled)) /\
     (rest = [] ->
      first (channel_ids (fst DemoRuns.world_B_tiled)) = Raise IndexError) /\
     forall c,
       first (channel_ids (fst DemoRuns.world_B_tiled)) = Ok c ->
       c <> ch_to_tile).
Proof.
  apply (tile_stack_pops_first_channel (Demo.tile_image Demo.shape_B)
           Demo.tile_name Demo.world_B DemoRuns.world_B_tiled).
  vm_compute. reflexivity.
Defined.

(** On scenario B: channels [0; 1] before the run, [1] after it, and a
    second run on the same object takes channel 1 as its first channel
    and leaves no channel. *)
Example tile_stack_twice :
  channel_ids (fst Demo.world_B) = [0; 1] /\
  channel_ids (fst DemoRuns.world_B_tiled) = [1] /\
  first (channel_ids (fst DemoRuns.world_B_tiled)) = Ok 1 /\
  channel_ids
    (fst (snd (tile_stack (Demo.tile_image Demo.shape_B) Demo.tile_name
                 DemoRuns.world_B_tiled))) = [].
Proof. vm_compute. repeat split; reflexivity. Qed.

(** The list is shortened as soon as the first channel is tiled: a run
    whose second phase raises (here a worker that keeps no tile leaves
    nothing to propagate) has shortened it all the same. *)
Example tile_stack_pops_before_raising :
  let r := tile_stack (fun _ => []) Demo.tile_name Demo.world_B in
  fst r = Raise ValueError /\ channel_ids (fst (snd r)) = [1].
Proof. vm_compute. split; reflexivity. Qed.

(* ================================================================== *)
(** ** The guard of the constructor *)
(* ================================================================== *)

Lemma write_new (p : string) (f : Fs.file) (fs : Fs.t) :
  Fs.lookup p fs = None -> Fs.write p f fs = fs ++ [(p, f)].
Proof.
  induction fs as [| [p' f'] fs IH]; simpl; [reflexivity |].
  destruct (String.eqb p' p); [discriminate |].
  intros H. now rewrite IH.
Qed.

Lemma lookup_app_some (q : string) (f : Fs.file) (fs more : Fs.t) :
  Fs.lookup q fs = Some f -> Fs.lookup q (fs ++ more) = Some f.
Proof.
  induction fs as [| [p' f'] fs IH]; simpl; [discriminate |].
  destruct (String.eqb p' q); auto.
Qed.

(** [os.makedirs] touches no table and no image, and removes nothing. *)
Lemma makedirs_frame (p : string) (fs : Fs.t) :
  Fs.regular_files (snd (Fs.makedirs p fs)) = Fs.regular_files fs /\
  forall q, Fs.path_exists q fs = true ->
            Fs.path_exists q (snd (Fs.makedirs p fs)) = true.
Proof.
  unfold Fs.makedirs.
  destruct (Fs.lookup p fs) as [[] |] eqn:Hp; simpl; try tauto.
  rewrite (write_new _ _ _ Hp). split.
  - unfold Fs.regular_files. rewrite filter_app. simpl. apply app_nil_r.
  - unfold Fs.path_exists. intros q Hq.
    destruct (Fs.lookup q fs) as [f |] eqn:Hl; [| discriminate].
    now rewrite (lookup_app_some _ _ _ _ Hl).
Qed.

(** C5 as it is worded does not hold in its last part.  After a run of
    [tile_stack] on scenario B the tile directory holds
    [frames_meta.csv]; a second run on the same object returns all the
    same, and the tables on the disk are no longer those before it. *)
Lemma second_tile_stack_tiles_into_existing_set :
  ~ TilingSpec.no_tiling_into_existing_set (Demo.tile_image Demo.shape_B)
      Demo.tile_name DemoRuns.world_B_tiled.
Proof.
  intros H. specialize (H eq_refl). vm_compute in H. discriminate H.
Qed.

(** The second run on scenario B: the table of ten rows of the first run
    is replaced by the four rows of channel 1. *)
Example second_tile_stack_on_scenario_B :
  let p := Fs.join (tile_dir (fst DemoRuns.world_B_tiled)) "frames_meta.csv" in
  let r := tile_stack (Demo.tile_image Demo.shape_B) Demo.tile_name
             DemoRuns.world_B_tiled in
  fst r = Ok tt /\
  (exists rows,
      Fs.lookup p (snd DemoRuns.world_B_tiled) = Some (Fs.TilesMeta rows) /\
      List.length rows = 10%nat) /\
  (exists rows,
      Fs.lookup p (snd (snd r)) = Some (Fs.TilesMeta rows) /\
      List.length rows = 4%nat).
Proof.
  vm_compute. split; [reflexivity |]. split; eexists; split; reflexivity.
Qed.

(** C5, amended.  (a) When [frames_meta.csv] already exists in the tile
    directory that the constructor is aimed at,
    [ImageTilerNonUniform.__init__] raises: no tiler object comes out.
    The tables and images on disk are those that were there before the
    call.  When the steps before the guard pass, the exception is the
    assertion on the tile directory.  (b) The guard is in the constructor
    only.  A run of [tile_stack] on an object that exists does not look
    at the table: when it returns, [frames_meta.csv] of the tile
    directory holds the rows of this run, whatever it held before: the
    sorted rows of the tiles of the first channel, joined with the rows
    cropped for the remaining channels when there are any. *)
Theorem existing_tile_table_fails_construction
  (validate_metadata_indices :
     list Frame.t -> ids -> ids -> ids -> ids -> bool ->
     result (MetadataIds * IndexTree))
  (tile_dir_name : Z * Z -> Z * Z -> string)
  (tile_image : CropTileArgs -> list (Z * Z))
  (tile_name : Z -> Z -> Z -> Z -> Z -> Z -> string) :
  (forall args fs,
      Fs.path_exists
        (Fs.join (target_tile_dir tile_dir_name args) "frames_meta.csv") fs
      = true ->
      (exists e,
          fst (ImageTilerNonUniform__init__ validate_metadata_indices
                 tile_dir_name args fs) = Raise e) /\
      Fs.regular_files
        (snd (ImageTilerNonUniform__init__ validate_metadata_indices
                tile_dir_name args fs))
      = Fs.regular_files fs /\
      (forall self0 fs0,
          ImageTilerUniform__init__ validate_metadata_indices tile_dir_name
            args fs
          = (Ok self0, fs0) ->
          is_ok (validate_metadata_indices (frames_metadata self0)
                   (Args.time_ids args) (Args.channel_ids args)
                   (Args.slice_ids args) (Args.pos_ids args) false) = true ->
          fst (ImageTilerNonUniform__init__ validate_metadata_indices
                 tile_dir_name args fs)
          = Raise
              (AssertionError "Tile dir exists. cannot add to existing dir"))) /\
  (forall w w',
      tile_stack tile_image tile_name w = (Ok tt, w') ->
      exists ch_to_tile rest ch_depth ids table,
        channel_ids (fst w) = ch_to_tile :: rest /\
        dict_get ch_to_tile (channel_depth (fst w)) = Some ch_depth /\
        tile_stack_ids ch_to_tile (nested_id_dict (fst w)) = Ok ids /\
        Fs.lookup (Fs.join (tile_dir (fst w)) "frames_meta.csv") (snd w')
        = Some (Fs.TilesMeta table) /\
        let meta_df :=
          sort_values_file_name
            (List.concat
               (map (tile_and_save tile_image tile_name)
                  (first_channel_jobs (fst w) (fst ids) ch_depth None))) in
        match rest with
        | [] => table = meta_df
        | _ :: _ =>
            exists new,
              cropped_metadata tile_name (set_channel_ids rest (fst w))
                (snd ids) ch_to_tile meta_df = Ok new /\
              table = sort_values_file_name (meta_df ++ new)
        end).
Proof.
  split.
  - intros args fs Hexists.
    unfold ImageTilerNonUniform__init__, ImageTilerUniform__init__, read_meta,
      mbind, lift, get, ret, assert.
    destruct (Fs.lookup (Fs.join (Args.input_dir args) "frames_meta.csv") fs)
      as [[| rows | | |] |]; simpl;
      try (split; [eexists; reflexivity | split; [reflexivity | discriminate]]).
    destruct (validate_metadata_indices rows _ _ _ _ true) as [v1 | e1]; simpl;
      [| split; [eexists; reflexivity | split; [reflexivity | discriminate]]].
    destruct (makedirs_frame (target_tile_dir tile_dir_name args) fs)
      as (Hreg & Hkeep).
    specialize (Hkeep _ Hexists).
    destruct (Fs.makedirs (target_tile_dir tile_dir_name args) fs)
      as [[[] | e2] fs1]; simpl in *;
      [| split; [eexists; reflexivity | split; [assumption | discriminate]]].
    destruct (validate_metadata_indices rows _ _ _ _ false) as [v2 | e3]
      eqn:Hv2; simpl.
    + rewrite Hkeep. simpl.
      split; [eexists; reflexivity |]. split; [assumption |].
      intros self0 fs0 _ _. reflexivity.
    + split; [eexists; reflexivity |]. split; [assumption |].
      intros self0 fs0 H Hok. inversion H; subst. simpl in Hok.
      rewrite Hv2 in Hok. discriminate.
  - intros w w' Hrun.
    apply tile_stack_run in Hrun
      as (ch_to_tile & rest & ch_depth & ids & meta_df & fs1 & Hids & Hdepth
          & Hsplit & Hfirst & Hself & Hrest).
    pose proof (tile_first_channel_written _ _ _ _ _ _ _ _ _ Hfirst) as Hcsv.
    apply tile_first_channel_run in Hfirst as (_ & Hrows).
    simpl in Hcsv.
    destruct rest as [| c rest'].
    + exists ch_to_tile, [], ch_depth, ids, meta_df.
      rewrite Hrest. repeat (split; [assumption |]). exact Hrows.
    + apply tile_remaining_channels_run in Hrest as (new & Hnew & _ & Hfinal).
      simpl in Hfinal, Hnew.
      exists ch_to_tile, (c :: rest'), ch_depth, ids,
        (sort_values_file_name (meta_df ++ new)).
      repeat (split; [assumption |]). cbv zeta. rewrite <- Hrows.
      exists new. split; [assumption | reflexivity].
Qed.

(** The theorem at work: the constructor on the tiled demo disk, and the
    second run of [tile_stack] on scenario B. *)
Lemma existing_tile_table_fails_construction_witness :
  ((exists e,
       fst (ImageTilerNonUniform__init__ DemoInit.validate
              DemoInit.tile_dir_name DemoInit.args DemoInit.tiled) = Raise e) /\
   Fs.regular_files
     (snd (ImageTilerNonUniform__init__ DemoInit.validate
             DemoInit.tile_dir_name DemoInit.args DemoInit.tiled))
   = Fs.regular_files DemoInit.tiled /\
   (forall self0 fs0,
       ImageTilerUniform__init__ DemoInit.validate DemoInit.tile_dir_name
         DemoInit.args DemoInit.tiled = (Ok self0, fs0) ->
       is_ok (DemoInit.validate (frames_metadata self0)
                (Args.time_ids DemoInit.args) (Args.channel_ids DemoInit.args)
                (Args.slice_ids DemoInit.args) (Args.pos_ids DemoInit.args)
                false) = true ->
       fst (ImageTilerNonUniform__init__ DemoInit.validate
              DemoInit.tile_dir_name DemoInit.args DemoInit.tiled)
       = Raise
           (AssertionError "Tile dir exists. cannot add to existing dir"))) /\
  (exists ch_to_tile rest ch_depth ids table,
      channel_ids (fst DemoRuns.world_B_tiled) = ch_to_tile :: rest /\
      dict_get ch_to_tile (channel_depth (fst DemoRuns.world_B_tiled))
      = Some ch_depth /\
      tile_stack_ids ch_to_tile (nested_id_dict (fst DemoRuns.world_B_tiled))
      = Ok ids /\
      Fs.lookup
        (Fs.join (tile_dir (fst DemoRuns.world_B_tiled)) "frames_meta.csv")
        (snd (snd (tile_stack (Demo.tile_image Demo.shape_B) Demo.tile_name
                     DemoRuns.world_B_tiled)))
      = Some (Fs.TilesMeta table) /\
      let meta_df :=
        sort_values_file_name
          (List.concat
             (map (tile_and_save (Demo.tile_image Demo.shape_B) Demo.tile_name)
                (first_channel_jobs (fst DemoRuns.world_B_tiled) (fst ids)
                   ch_depth None))) in
      match rest with
      | [] => table = meta_df
      | _ :: _ =>
          exists new,
            cropped_metadata Demo.tile_name
              (set_channel_ids rest (fst DemoRuns.world_B_tiled)) (snd ids)
              ch_to_tile meta_df = Ok new /\
            table = sort_values_file_name (meta_df ++ new)
      end).
Proof.
  destruct (existing_tile_table_fails_construction DemoInit.validate
              DemoInit.tile_dir_name (Demo.tile_image Demo.shape_B)
              Demo.tile_name) as (Hinit & Hstack).
  split.
  - apply (Hinit DemoInit.args DemoInit.tiled). vm_compute. reflexivity.
  - apply (Hstack DemoRuns.world_B_tiled
             (snd (tile_stack (Demo.tile_image Demo.shape_B) Demo.tile_name
                     DemoRuns.world_B_tiled))).
    vm_compute. reflexivity.
Defined.

(** The two sides of the guard on the demo disk: construction fails on the
    tiled disk with the assertion, and succeeds on the fresh one, where it
    creates the tile directory. *)
Example construction_guard :
  fst (ImageTilerNonUniform__init__ DemoInit.validate DemoInit.tile_dir_name
         DemoInit.args DemoInit.tiled)
  = Raise (AssertionError "Tile dir exists. cannot add to existing dir") /\
  is_ok (fst (ImageTilerNonUniform__init__ DemoInit.validate
                DemoInit.tile_dir_name DemoInit.args DemoInit.fresh)) = true /\
  snd (ImageTilerNonUniform__init__ DemoInit.validate DemoInit.tile_dir_name
         DemoInit.args DemoInit.fresh)
  = DemoInit.fresh ++ [("out/tiles_128_step_64", Fs.Directory)].
Proof. vm_compute. repeat split; reflexivity. Qed.

(* ================================================================== *)
(** ** Z-score parameters *)
(* ================================================================== *)

Section ZScore.
Import MetaUtils MetaSpec.

Lemma cell_eqb_eq (a b : cell) : cell_eqb a b = true <-> a = b.
Proof.
  destruct a as [x | x], b as [y | y]; simpl;
    try (split; [discriminate | intros H; inversion H]).
  - rewrite Z.eqb_eq. split; [now intros -> | now intros [= ->]].
  - rewrite String.eqb_eq. split; [now intros -> | now intros [= ->]].
Qed.

Lemma key_eqb_eq (a b : key) : key_eqb a b = true <-> a = b.
Proof.
  revert b. induction a as [| x a IH]; intros [| y b]; simpl;
    try (split; [discriminate | intros H; inversion H]); [tauto |].
  rewrite andb_true_iff, cell_eqb_eq, IH.
  split; [now intros [-> ->] | now intros [= -> ->]].
Qed.

Lemma key_eqb_refl (a : key) : key_eqb a a = true.
Proof. now apply key_eqb_eq. Qed.

(** *** Groups have distinct keys *)

Lemma in_group_add_keys (k k0 : key) (v : Q) (gs : groups) :
  In k0 (map fst (group_add k v gs)) -> k0 = k \/ In k0 (map fst gs).
Proof.
  induction gs as [| [k' vs] gs IH]; simpl.
  - intros [<- | []]. now left.
  - destruct (key_eqb k' k); simpl; [tauto |].
    intros [<- | H]; [tauto |]. apply IH in H. tauto.
Qed.

Lemma group_add_nodup (k : key) (v : Q) (gs : groups) :
  NoDup (map fst gs) -> NoDup (map fst (group_add k v gs)).
Proof.
  induction gs as [| [k' vs] gs IH]; simpl; intros Hnd.
  - constructor; [intros [] | constructor].
  - inversion Hnd as [| ? ? Hk Hgs]; subst.
    destruct (key_eqb k' k) eqn:E; simpl; [now constructor |].
    constructor; [| auto].
    intros Hin. apply in_group_add_keys in Hin as [-> | Hin]; [| tauto].
    now rewrite key_eqb_refl in E.
Qed.

Lemma fold_group_add_nodup (agg_cols : list col) (rows : list Ints.t) :
  forall gs,
    NoDup (map fst gs) ->
    NoDup
      (map fst
         (fold_left
            (fun gs r => group_add (ints_key agg_cols r) (Ints.intensity r) gs)
            rows gs)).
Proof.
  induction rows as [| r rows IH]; simpl; intros gs Hnd; [assumption |].
  apply IH. now apply group_add_nodup.
Qed.

Lemma insert_group_perm (g : key * list Q) (gs : groups) :
  Permutation (insert_group g gs) (g :: gs).
Proof.
  induction gs as [| g' gs IH]; simpl; [reflexivity |].
  destruct (key_leb (fst g) (fst g')); [reflexivity |].
  rewrite IH. apply perm_swap.
Qed.

Lemma sort_groups_perm (gs : groups) :
  Permutation (fold_right insert_group [] gs) gs.
Proof.
  induction gs as [| g gs IH]; simpl; [reflexivity |].
  rewrite insert_group_perm. now constructor.
Qed.

Lemma groupby_nodup (agg_cols : list col) (rows : list Ints.t) :
  NoDup (map fst (groupby agg_cols rows)).
Proof.
  unfold groupby.
  eapply Permutation_NoDup.
  - apply Permutation_map. symmetry. apply sort_groups_perm.
  - apply fold_group_add_nodup. constructor.
Qed.

Lemma ints_agg_nodup (agg_cols : list col) (ints_meta : list Ints.t)
  (min_fraction : Q) :
  NoDup (map (fun a : agg_row => fst (fst a))
           (ints_agg_of agg_cols ints_meta min_fraction)).
Proof.
  unfold ints_agg_of, aggregate. rewrite map_map. simpl.
  apply groupby_nodup.
Qed.

(** *** The left merge, row by row *)

Lemma filter_unique_key (k : key) (l : list agg_row) :
  NoDup (map (fun a : agg_row => fst (fst a)) l) ->
  filter (fun a : agg_row => key_eqb (fst (fst a)) k) l = [] \/
  exists a, In a l /\ fst (fst a) = k /\
            filter (fun a : agg_row => key_eqb (fst (fst a)) k) l = [a].
Proof.
  induction l as [| a l IH]; simpl; intros Hnd; [now left |].
  inversion Hnd as [| ? ? Hk Hl]; subst.
  destruct (key_eqb (fst (fst a)) k) eqn:E.
  - right. exists a. apply key_eqb_eq in E.
    split; [now left |]. split; [assumption |]. f_equal.
    destruct (IH Hl) as [Hnil | (b & Hb & Hkb & _)]; [assumption |].
    exfalso. apply Hk. rewrite E, <- Hkb.
    now apply (in_map (fun a : agg_row => fst (fst a))).
  - destruct (IH Hl) as [Hnil | (b & Hb & Hkb & Hf)]; [now left |].
    right. exists b. split; [now right |]. split; assumption.
Qed.

Lemma filter_none_unmatched (agg_cols : list col) (l : list agg_row)
  (r : Frame.t) :
  filter (fun a : agg_row => key_eqb (fst (fst a)) (frame_key agg_cols r)) l
  = [] <-> unmatched agg_cols l r.
Proof.
  unfold unmatched. induction l as [| a l IH]; simpl.
  - split; [intros _ a [] | reflexivity].
  - destruct (key_eqb (fst (fst a)) (frame_key agg_cols r)) eqn:E.
    + split; [discriminate |]. intros H. exfalso.
      apply (H a); [now left | now apply key_eqb_eq].
    + rewrite IH. split.
      * intros H b [<- | Hb]; [| auto].
        intros Heq. apply key_eqb_eq in Heq. congruence.
      * intros H b Hb. apply H. now right.
Qed.

(** With distinct group keys the left merge returns the rows of the left
    table one for one: each with its other columns, with the values of
    its group when it has one, and with missing values when it has none.
    The earlier z-score values of the row are not in the result. *)
Lemma merge_left_rows (agg_cols : list col) (frames_meta : list Frame.t)
  (ints_agg : list agg_row) :
  NoDup (map (fun a : agg_row => fst (fst a)) ints_agg) ->
  Forall2
    (fun r r' =>
       same_other_columns r r' /\
       (unmatched agg_cols ints_agg r ->
        Frame.zscore_median r' = None /\ Frame.zscore_iqr r' = None) /\
       (forall a, In a ints_agg -> fst (fst a) = frame_key agg_cols r ->
                  Frame.zscore_median r' = snd (fst a) /\
                  Frame.zscore_iqr r' = snd a))
    frames_meta (merge_left agg_cols frames_meta ints_agg).
Proof.
  intros Hnd. unfold merge_left.
  induction frames_meta as [| r frames_meta IH]; cbn [flat_map];
    [constructor |].
  destruct (filter_unique_key (frame_key agg_cols r) ints_agg Hnd)
    as [Hnil | (a & Ha & Hka & Hf)]; unfold agg_row in *.
  - rewrite Hnil. cbn [app]. constructor; [| exact IH].
    split; [unfold same_other_columns; simpl; tauto |]. split.
    + intros _. split; reflexivity.
    + intros b Hb Hkb. apply filter_none_unmatched in Hnil.
      exfalso. now apply (Hnil b).
  - rewrite Hf. cbn [map app]. constructor; [| exact IH].
    split; [unfold same_other_columns; simpl; tauto |]. split.
    + intros Hun. exfalso. now apply (Hun a).
    + intros b Hb Hkb.
      assert (Hin : In b (filter
                            (fun a : agg_row =>
                               key_eqb (fst (fst a)) (frame_key agg_cols r))
                            ints_agg)).
      { apply filter_In. split; [assumption | now apply key_eqb_eq]. }
      unfold agg_row in Hin. rewrite Hf in Hin.
      destruct Hin as [<- | []]. split; reflexivity.
Qed.

End ZScore.

Section ZScoreClaims.
Import MetaUtils MetaSpec.

Lemma compute_zscore_params_run (frames_meta : list Frame.t)
  (ints_meta : list Ints.t) (input_dir scheme : string) (min_fraction : Q)
  (fs fs' : Fs.t) (out : list Frame.t) :
  compute_zscore_params frames_meta ints_meta input_dir (Some scheme)
    min_fraction fs = (Ok out, fs') ->
  out = merge_left (agg_cols_of scheme) frames_meta
          (ints_agg_of (agg_cols_of scheme) ints_meta min_fraction) /\
  fs' = Fs.write (Fs.join input_dir "frames_meta.csv") (Fs.FramesMeta out) fs.
Proof.
  unfold compute_zscore_params, mbind, assert, Fs.to_csv, ret, lift.
  destruct (normalize_im_valid (Some scheme)); simpl; [| discriminate].
  destruct (Fs.open_for_writing _ fs) as [[] | e]; [| discriminate].
  intros H. inversion H; subst. split; reflexivity.
Qed.

(** C4, on the code.  With [normalize_im=None] the function assigns the
    column [zscore_median] twice, 0 and then 1, and never assigns
    [zscore_iqr]: every row comes back with [zscore_median] 1 and with
    the [zscore_iqr] it had, missing when it had none.  Nothing is
    written to disk. *)
Theorem no_normalization_assigns_median_twice (frames_meta : list Frame.t)
  (ints_meta : list Ints.t) (input_dir : string) (min_fraction : Q)
  (fs : Fs.t) :
  compute_zscore_params frames_meta ints_meta input_dir None min_fraction fs
  = (Ok (map (set_zscore_median (Some 1%Q)) frames_meta), fs) /\
  (forall r,
      In r (map (set_zscore_median (Some 1%Q)) frames_meta) ->
      Frame.zscore_median r = Some 1%Q) /\
  Forall2 (fun r r' => Frame.zscore_iqr r' = Frame.zscore_iqr r) frames_meta
    (map (set_zscore_median (Some 1%Q)) frames_meta) /\
  map (fun r => (Frame.zscore_median r, Frame.zscore_iqr r))
    (map (set_zscore_median (Some 1%Q)) DemoInit.frames)
  = [(Some 1%Q, None); (Some 1%Q, None)].
Proof.
  split; [| split; [| split]].
  - unfold compute_zscore_params, mbind, assert, ret. simpl.
    rewrite map_map. reflexivity.
  - intros r Hr. apply in_map_iff in Hr as (r0 & <- & _). reflexivity.
  - induction frames_meta; simpl; constructor; auto.
  - reflexivity.
Qed.

(** C7 as it is worded does not hold.  The second frame of
    [MetaSpec.frames] has z-score values 7 and 3 from an earlier run and
    matches no group (the one sample of its channel has no foreground
    fraction); the call, on a disk that has the input directory, returns,
    and after the merge the two values of that frame are missing. *)
Lemma unmatched_row_loses_prior_zscore :
  ~ keeps_prior_zscore MetaSpec.frames MetaSpec.ints "in" "dataset" 0
      MetaSpec.disk.
Proof.
  intros H. specialize (H _ _ eq_refl).
  inversion H as [| r1 r1' l1 l1' _ Hrest]; subst.
  inversion Hrest as [| r2 r2' l2 l2' (_ & Hkeep) _]; subst.
  destruct Hkeep as (Hmedian & _); [| discriminate Hmedian].
  apply filter_none_unmatched. vm_compute. reflexivity.
Qed.

(** Without the input directory on the disk the table cannot be written,
    and the call raises. *)
Example zscore_params_need_the_directory :
  compute_zscore_params MetaSpec.frames MetaSpec.ints "in" (Some "dataset") 0
    []
  = (Raise OSError, []) /\
  is_ok (fst (compute_zscore_params MetaSpec.frames MetaSpec.ints "in"
                (Some "dataset") 0 MetaSpec.disk)) = true.
Proof. vm_compute. split; reflexivity. Qed.

(** C7, amended.  For [normalize_im] one of dataset, volume and slice, a
    call that returns gives back the rows of [frames_meta] one for one
    and in order; every column other than [zscore_median] and
    [zscore_iqr] is unchanged in every row; a row that matches no
    aggregation group has both values missing, and a row that matches a
    group has the median and the inter-quartile range of that group.  The
    table written to [frames_meta.csv] of the input directory is the one
    returned. *)
Theorem zscore_merge_replaces_both_columns (frames_meta : list Frame.t)
  (ints_meta : list Ints.t) (input_dir scheme : string) (min_fraction : Q)
  (fs fs' : Fs.t) (out : list Frame.t) :
  compute_zscore_params frames_meta ints_meta input_dir (Some scheme)
    min_fraction fs = (Ok out, fs') ->
  Forall2
    (fun r r' =>
       same_other_columns r r' /\
       (unmatched (agg_cols_of scheme)
          (ints_agg_of (agg_cols_of scheme) ints_meta min_fraction) r ->
        Frame.zscore_median r' = None /\ Frame.zscore_iqr r' = None) /\
       (forall a,
           In a (ints_agg_of (agg_cols_of scheme) ints_meta min_fraction) ->
           fst (fst a) = frame_key (agg_cols_of scheme) r ->
           Frame.zscore_median r' = snd (fst a) /\
           Frame.zscore_iqr r' = snd a))
    frames_meta out /\
  Fs.lookup (Fs.join input_dir "frames_meta.csv") fs'
  = Some (Fs.FramesMeta out).
Proof.
  intros Hrun. apply compute_zscore_params_run in Hrun as (-> & ->).
  split; [| apply lookup_write].
  apply merge_left_rows, ints_agg_nodup.
Qed.

Lemma zscore_merge_replaces_both_columns_witness :
  Forall2
    (fun r r' =>
       same_other_columns r r' /\
       (unmatched (agg_cols_of "dataset")
          (ints_agg_of (agg_cols_of "dataset") MetaSpec.ints 0) r ->
        Frame.zscore_median r' = None /\ Frame.zscore_iqr r' = None) /\
       (forall a,
           In a (ints_agg_of (agg_cols_of "dataset") MetaSpec.ints 0) ->
           fst (fst a) = frame_key (agg_cols_of "dataset") r ->
           Frame.zscore_median r' = snd (fst a) /\
           Frame.zscore_iqr r' = snd a))
    MetaSpec.frames
    (merge_left (agg_cols_of "dataset") MetaSpec.frames
       (ints_agg_of (agg_cols_of "dataset") MetaSpec.ints 0)) /\
  Fs.lookup (Fs.join "in" "frames_meta.csv")
    (snd (compute_zscore_params MetaSpec.frames MetaSpec.ints "in"
            (Some "dataset") 0 MetaSpec.disk))
  = Some (Fs.FramesMeta
            (merge_left (agg_cols_of "dataset") MetaSpec.frames
               (ints_agg_of (agg_cols_of "dataset") MetaSpec.ints 0))).
Proof.
  apply (zscore_merge_replaces_both_columns MetaSpec.frames MetaSpec.ints
           "in" "dataset" 0 MetaSpec.disk).
  vm_compute. reflexivity.
Defined.

(** The merge on [MetaSpec.frames]: the first frame gets the median 25
    and the inter-quartile range 15 of its four samples in place of 5 and
    2, the second frame loses 7 and 3. *)
Example zscore_merge_values :
  map (fun r => (Frame.zscore_median r, Frame.zscore_iqr r))
    (merge_left (agg_cols_of "dataset") MetaSpec.frames
       (ints_agg_of (agg_cols_of "dataset") MetaSpec.ints 0))
  = [(Some (25 # 1), Some (15 # 1)); (None, None)].
Proof. vm_compute. reflexivity. Qed.

Lemma filter_fg_frac_ge_has_fg (min_fraction : Q) (ints_meta : list Ints.t) :
  filter (fg_frac_ge min_fraction) (filter has_fg_frac ints_meta)
  = filter (fg_frac_ge min_fraction) ints_meta.
Proof.
  induction ints_meta as [| r l IH]; simpl; [reflexivity |].
  destruct (has_fg_frac r) eqn:Eh; simpl.
  - now rewrite IH.
  - destruct (fg_frac_ge min_fraction r) eqn:Eg; [| assumption].
    unfold has_fg_frac, fg_frac_ge in *.
    destruct (Ints.fg_frac r); discriminate.
Qed.

Lemma filter_fg_frac_ge_all_missing (min_fraction : Q)
  (ints_meta : list Ints.t) :
  (forall r, In r ints_meta -> Ints.fg_frac r = None) ->
  filter (fg_frac_ge min_fraction) ints_meta = [].
Proof.
  induction ints_meta as [| r l IH]; simpl; intros H; [reflexivity |].
  unfold fg_frac_ge at 1. rewrite (H r (or_introl eq_refl)).
  apply IH. intros; apply H; now right.
Qed.

(** C9.  For any [normalize_im] other than [None] and any
    [min_fraction], zero included: (a) no sample whose [fg_frac] is
    missing is among the rows that are aggregated; (b) the call gives
    what it gives on the samples that have an [fg_frac]: the others have
    no part in the result; (c) when no sample has an [fg_frac] there is
    no group at all, and every row that comes back has missing
    [zscore_median] and [zscore_iqr]. *)
Theorem missing_fg_frac_samples_are_excluded (frames_meta : list Frame.t)
  (ints_meta : list Ints.t) (input_dir scheme : string) (min_fraction : Q)
  (fs : Fs.t) :
  (forall r,
      In r ints_meta -> Ints.fg_frac r = None ->
      ~ In r (filter (fg_frac_ge min_fraction) ints_meta)) /\
  compute_zscore_params frames_meta ints_meta input_dir (Some scheme)
    min_fraction fs
  = compute_zscore_params frames_meta (filter has_fg_frac ints_meta)
      input_dir (Some scheme) min_fraction fs /\
  ((forall r, In r ints_meta -> Ints.fg_frac r = None) ->
   ints_agg_of (agg_cols_of scheme) ints_meta min_fraction = [] /\
   forall out fs',
     compute_zscore_params frames_meta ints_meta input_dir (Some scheme)
       min_fraction fs = (Ok out, fs') ->
     forall r',
       In r' out ->
       Frame.zscore_median r' = None /\ Frame.zscore_iqr r' = None).
Proof.
  split; [| split].
  - intros r _ Hnone Hin. apply filter_In in Hin as (_ & Hge).
    unfold fg_frac_ge in Hge. rewrite Hnone in Hge. discriminate.
  - unfold compute_zscore_params, ints_agg_of.
    now rewrite filter_fg_frac_ge_has_fg.
  - intros Hall.
    assert (Hagg : ints_agg_of (agg_cols_of scheme) ints_meta min_fraction
                   = []).
    { unfold ints_agg_of.
      now rewrite (filter_fg_frac_ge_all_missing _ _ Hall). }
    split; [assumption |].
    intros out fs' Hrun r' Hr'.
    apply compute_zscore_params_run in Hrun as (-> & _).
    rewrite Hagg in Hr'. unfold merge_left in Hr'.
    apply in_flat_map in Hr' as (r & _ & Hr'). simpl in Hr'.
    destruct Hr' as [<- | []]. split; reflexivity.
Qed.

(** With [min_fraction = 0]: the sample of channel 1 in [MetaSpec.ints]
    has no [fg_frac] and forms no group, whereas with an [fg_frac] of 0
    it would. *)
Example missing_fg_frac_at_zero :
  map fst (groupby (agg_cols_of "dataset")
             (filter (fg_frac_ge 0) MetaSpec.ints))
  = [[CInt 0; CInt 0; CStr "in"]] /\
  map fst (groupby (agg_cols_of "dataset")
             (filter (fg_frac_ge 0)
                [Ints.mk "in" 0 0 0 0 (10 # 1) (Some (1 # 2));
                 Ints.mk "in" 0 1 0 0 (7 # 1) (Some 0%Q)]))
  = [[CInt 0; CInt 0; CStr "in"]; [CInt 0; CInt 1; CStr "in"]].
Proof. vm_compute. split; reflexivity. Qed.

End ZScoreClaims.

(* ================================================================== *)
(** ** The mask policies *)
(* ================================================================== *)

Lemma mask_type_supported_iff (mask_type : string) :
  mask_type_supported mask_type = true <->
  In mask_type ["otsu"; "unimodal"; "dataset otsu"; "borders_weight_loss_map"].
Proof.
  unfold mask_type_supported. rewrite existsb_exists. split.
  - intros (x & Hx & Heq). apply String.eqb_eq in Heq. now subst.
  - intros H. exists mask_type. split; [assumption | apply String.eqb_refl].
Qed.

(** The constructor, once the steps before the test of [mask_type] are
    done. *)
Lemma MaskProcessor__init__after_setup
  (validate_metadata_indices :
     list Frame.t -> ids -> ids -> ids -> ids -> bool ->
     result (MetadataIds * IndexTree))
  (get_sub_meta :
     list Frame.t -> list Z -> list Z -> list Z -> list Z -> list Frame.t)
  (threshold_otsu : list Q -> result Q) (interned : bool)
  (args : MaskArgs.t) (fs : Fs.t) :
  MaskProcessor__init__ validate_metadata_indices get_sub_meta threshold_otsu
    interned args fs
  = match
      MaskProcessor_setup validate_metadata_indices get_sub_meta interned args
        fs
    with
    | (Ok self, fs1) =>
        if mask_type_supported (MaskArgs.mask_type args) then
          if String.eqb (MaskArgs.mask_type args) "dataset otsu" then
            match dataset_thresholds threshold_otsu args self fs1 with
            | (Ok thr, fs2) =>
                (Ok (set_mask_fields (MaskArgs.mask_type args)
                       (Some (fst thr)) (Some (snd thr))
                       (MaskArgs.mask_ext args) self), fs2)
            | (Raise e, fs2) => (Raise e, fs2)
            end
          else
            (Ok (set_mask_fields (MaskArgs.mask_type args) None None
                   (MaskArgs.mask_ext args) self), fs1)
        else
          (Raise (AssertionError
                    "Masking method invalid, 'otsu', 'unimodal', 'dataset otsu', 'borders_weight_loss_map'             are currently supported"),
           fs1)
    | (Raise e, fs1) => (Raise e, fs1)
    end.
Proof.
  unfold MaskProcessor__init__, mbind, assert, ret, lift.
  destruct (MaskProcessor_setup _ _ _ _ _) as [[self | e] fs1];
    [| reflexivity].
  destruct (mask_type_supported (MaskArgs.mask_type args)); [| reflexivity].
  destruct (String.eqb (MaskArgs.mask_type args) "dataset otsu");
    [| reflexivity].
  destruct (dataset_thresholds threshold_otsu args self fs1) as [[thr | e] fs2];
    reflexivity.
Qed.

(** C8 as it is worded does not hold: with [mask_type] the name
    [dataset_otsu] of the specification, and a data set on which the other
    policies construct, the constructor raises. *)
Lemma dataset_otsu_with_underscore_is_rejected :
  ~ succeeds_exactly_on_spec_policies "dataset_otsu".
Proof.
  unfold succeeds_exactly_on_spec_policies. intros [_ H].
  assert (Hok : is_ok (fst (DemoMask.init "dataset_otsu")) = true).
  { apply H. unfold spec_mask_types. simpl. tauto. }
  vm_compute in Hok. discriminate.
Qed.

(** C8, amended.  The test of [mask_type] in [MaskProcessor.__init__]
    passes exactly for the four strings [otsu], [unimodal], [dataset otsu]
    (with a space) and [borders_weight_loss_map]: for every other string,
    [dataset_otsu] with an underscore among them, the constructor raises;
    when the steps before the test go through (metadata read, indices
    validated, mask directory made), it raises the assertion for every
    other string, returns an object for [otsu], [unimodal] and
    [borders_weight_loss_map], and for [dataset otsu] returns an object
    when the intensity table is read and its thresholds are computed. *)
Theorem mask_type_guard
  (validate_metadata_indices :
     list Frame.t -> ids -> ids -> ids -> ids -> bool ->
     result (MetadataIds * IndexTree))
  (get_sub_meta :
     list Frame.t -> list Z -> list Z -> list Z -> list Z -> list Frame.t)
  (threshold_otsu : list Q -> result Q) (interned : bool)
  (args : MaskArgs.t) (fs : Fs.t) :
  let init :=
    MaskProcessor__init__ validate_metadata_indices get_sub_meta threshold_otsu
      interned args fs in
  let mask_type := MaskArgs.mask_type args in
  (mask_type_supported mask_type = true <->
   In mask_type
     ["otsu"; "unimodal"; "dataset otsu"; "borders_weight_loss_map"]) /\
  mask_type_supported "dataset_otsu" = false /\
  (mask_type_supported mask_type = false -> exists e, fst init = Raise e) /\
  (forall self fs1,
      MaskProcessor_setup validate_metadata_indices get_sub_meta interned args
        fs = (Ok self, fs1) ->
      (mask_type_supported mask_type = false ->
       fst init
       = Raise (AssertionError
                  "Masking method invalid, 'otsu', 'unimodal', 'dataset otsu', 'borders_weight_loss_map'             are currently supported")) /\
      (mask_type_supported mask_type = true ->
       mask_type <> "dataset otsu" -> is_ok (fst init) = true) /\
      (mask_type = "dataset otsu" ->
       is_ok (fst init)
       = is_ok (fst (dataset_thresholds threshold_otsu args self fs1)))).
Proof.
  intros init mask_type. subst init mask_type.
  split; [apply mask_type_supported_iff |]. split; [reflexivity |].
  rewrite MaskProcessor__init__after_setup.
  destruct (MaskProcessor_setup validate_metadata_indices get_sub_meta interned
              args fs) as [[self | e] fs1] eqn:Hsetup.
  - split.
    + intros Hno. rewrite Hno. simpl. eauto.
    + intros self' fs1' Heq. inversion Heq; subst self' fs1'.
      split; [| split].
      * intros Hno. now rewrite Hno.
      * intros Hyes Hne. rewrite Hyes.
        destruct (String.eqb_spec (MaskArgs.mask_type args) "dataset otsu");
          [contradiction | reflexivity].
      * intros Heqt. rewrite Heqt. simpl.
        destruct (dataset_thresholds threshold_otsu args self fs1)
          as [[thr | e] fs2]; reflexivity.
  - split; [simpl; eauto |]. intros self fs1' Heq. discriminate.
Qed.

(** The theorem on the demo disk: the guard rejects [dataset_otsu] and
    lets [otsu] through. *)
Lemma mask_type_guard_witness :
  fst (DemoMask.init "dataset_otsu")
  = Raise (AssertionError
             "Masking method invalid, 'otsu', 'unimodal', 'dataset otsu', 'borders_weight_loss_map'             are currently supported") /\
  is_ok (fst (DemoMask.init "otsu")) = true.
Proof.
  split.
  - destruct (mask_type_guard DemoInit.validate DemoMask.get_sub_meta
                DemoMask.threshold true (DemoMask.args "dataset_otsu")
                DemoMask.disk) as (_ & _ & _ & H).
    refine (proj1 (H (fst (MaskProcessor_setup_value "dataset_otsu"))
                     (snd (MaskProcessor_setup_value "dataset_otsu")) _) _);
      vm_compute; reflexivity.
  - destruct (mask_type_guard DemoInit.validate DemoMask.get_sub_meta
                DemoMask.threshold true (DemoMask.args "otsu") DemoMask.disk)
      as (_ & _ & _ & H).
    refine (proj1 (proj2 (H (fst (MaskProcessor_setup_value "otsu"))
                            (snd (MaskProcessor_setup_value "otsu")) _)) _ _);
      vm_compute; try reflexivity; discriminate.
Defined.

(** The four accepted strings construct on the demo disk, the dataset-level
    policy under its name with a space; its name with an underscore and
    any other string do not. *)
Example mask_types_on_demo_disk :
  map (fun t => is_ok (fst (DemoMask.init t)))
    ["otsu"; "unimodal"; "dataset otsu"; "borders_weight_loss_map";
     "dataset_otsu"; "Otsu"; ""]
  = [true; true; true; true; false; false; false].
Proof. vm_compute. reflexivity. Qed.

(* ================================================================== *)
(** ** Tiling against a mask *)
(* ================================================================== *)

(** [tile_mask_stack] on scenario B, with a worker that keeps the tile at
    the origin only: the mask channel 2 is tiled for slices 0, 1, 2, and
    channels 0 and 1 get the tile at the origin, and no other, for the
    slices they have (channel, slice, row start, column start). *)
Example mask_tiles_are_propagated :
  fst DemoMaskTiling.run = Ok tt /\
  match
    Fs.lookup "out/tiles_128_step_64/frames_meta.csv"
      (snd (snd DemoMaskTiling.run))
  with
  | Some (Fs.TilesMeta rows) =>
      map (fun r => (Tile.channel_idx r, Tile.slice_idx r, Tile.row_start r,
                     Tile.col_start r)) rows
  | _ => []
  end
  = [(0, 0, 0, 0); (0, 1, 0, 0); (0, 2, 0, 0); (1, 0, 0, 0); (1, 1, 0, 0);
     (2, 0, 0, 0); (2, 1, 0, 0); (2, 2, 0, 0)] /\
  mask_depth (fst (snd DemoMaskTiling.run)) = Some 1.
Proof. vm_compute. repeat split; reflexivity. Qed.

(* ################################################################## *)
(** * Further properties *)
(* ################################################################## *)

(* ================================================================== *)
(** ** The two selection loops *)
(* ================================================================== *)

Section SelectionLoops.

Variable ch_to_tile : Z.

(** The inner loop of [tile_stack] on one time point of a Python dict:
    with the first channel, its entry becomes [ch0_dict] and leaves the
    copy; without it, nothing changes. *)
Lemma tile_stack_ids_channel_run (tp_idx : Z) (tp_dict : ChannelDict)
  (pre suf : IndexTree) (o : option ChannelDict) :
  wf tp_dict -> ~ In tp_idx (keys pre) ->
  exists o',
    for_each tp_dict (tile_stack_ids_channel ch_to_tile tp_idx)
      (o, remove_channel ch_to_tile pre ++ (tp_idx, tp_dict) :: suf)
    = Ok (o', remove_channel ch_to_tile (pre ++ [(tp_idx, tp_dict)]) ++ suf)
    /\ (In ch_to_tile (keys tp_dict) -> o' <> None)
    /\ (~ In ch_to_tile (keys tp_dict) -> o' = o).
Proof.
  intros Hwf Hfresh.
  assert (Hshape : forall d : ChannelDict,
             remove_channel ch_to_tile (pre ++ [(tp_idx, d)]) ++ suf
             = remove_channel ch_to_tile pre
               ++ (tp_idx, filter (fun ce => negb (fst ce =? ch_to_tile)) d)
               :: suf).
  { intros d. unfold remove_channel. rewrite map_app, <- app_assoc.
    reflexivity. }
  destruct (in_dec Z.eq_dec ch_to_tile (keys tp_dict)) as [Hin | Hout].
  - pose proof Hin as Hin'.
    apply in_map_iff in Hin' as ([c v] & Hc & Hv). simpl in Hc. subst c.
    exists (Some [(ch_to_tile, v)]).
    split; [| split; [discriminate | tauto]].
    erewrite tile_stack_ids_channel_present; eauto.
    + rewrite Hshape. f_equal. f_equal.
      apply setitem_middle. now rewrite keys_remove_channel.
    + unfold getitem. rewrite dict_get_middle; [reflexivity |].
      now rewrite keys_remove_channel.
    + now apply delitem_filter.
  - exists o. split; [| split; [tauto | reflexivity]].
    rewrite tile_stack_ids_channel_absent by assumption.
    rewrite Hshape, filter_other_keys_absent by assumption. reflexivity.
Qed.

Lemma tile_stack_ids_copy_loop :
  forall (suf pre : IndexTree) (o : option ChannelDict) (c0 : IndexTree) st,
    wf (pre ++ suf) ->
    Forall (fun e => wf (snd e)) suf ->
    for_each suf (tile_stack_ids_time ch_to_tile)
      (o, remove_channel ch_to_tile pre ++ suf, c0) = Ok st ->
    snd (fst st) = remove_channel ch_to_tile (pre ++ suf).
Proof.
  induction suf as [| [tp d] suf IH]; intros pre o c0 st Hwf Hds Hrun.
  - simpl in Hrun. inversion Hrun; subst. simpl. now rewrite !app_nil_r.
  - inversion Hds as [| ? ? Hd Hds']; subst. simpl in Hd.
    assert (Hfresh : ~ In tp (keys pre)).
    { unfold wf, keys in Hwf. rewrite map_app in Hwf. simpl in Hwf.
      apply NoDup_remove_2 in Hwf. intros Hin. apply Hwf.
      apply in_or_app. now left. }
    destruct (tile_stack_ids_channel_run tp d pre suf o Hd Hfresh)
      as (o' & Hinner & _).
    cbn [for_each] in Hrun. unfold tile_stack_ids_time at 1 in Hrun.
    unfold IndexTree, ChannelDict, PosDict, dict in *.
    rewrite Hinner in Hrun. cbn [Py.bind fst snd] in Hrun.
    destruct o' as [d0 |]; [| discriminate].
    apply IH in Hrun; [| now rewrite <- app_assoc | assumption].
    now rewrite <- app_assoc in Hrun.
Qed.

(** The copy that the loop of [tile_stack] leaves. *)
Lemma tile_stack_ids_remaining (t : IndexTree) (ids : IndexTree * IndexTree) :
  tree_wf t ->
  tile_stack_ids ch_to_tile t = Ok ids ->
  snd ids = remove_channel ch_to_tile t.
Proof.
  intros [Hwf Hds] Hrun. unfold tile_stack_ids in Hrun. cbv zeta in Hrun.
  apply bind_ok in Hrun as (st & Hloop & Hret). inversion Hret; subst.
  simpl. apply (tile_stack_ids_copy_loop t [] None [] st Hwf Hds Hloop).
Qed.

(** X2.  Whenever the loop of [tile_stack] goes through on a tree of
    Python dicts, the copy it hands to [tile_remaining_channels] is the
    tree without the entries of the first channel, at every time point,
    whether or not the first channel is at every time point. *)
Theorem tile_stack_ids_copy (t : IndexTree) (ids : IndexTree * IndexTree) :
  tree_wf t ->
  tile_stack_ids ch_to_tile t = Ok ids ->
  snd ids = remove_channel ch_to_tile t.
Proof.
  intros [Hwf Hds] Hrun. unfold tile_stack_ids in Hrun. cbv zeta in Hrun.
  apply bind_ok in Hrun as (st & Hloop & Hret). inversion Hret; subst.
  simpl. apply (tile_stack_ids_copy_loop t [] None [] st Hwf Hds Hloop).
Qed.

(** X4.  When the first time point of the tree has no entry for the first
    channel, the loop of [tile_stack] raises on the unbound [ch0_dict],
    whatever the other time points hold. *)
Theorem tile_stack_ids_unbound (tp_idx : Z) (tp_dict : ChannelDict)
  (rest : IndexTree) :
  ~ In ch_to_tile (keys tp_dict) ->
  tile_stack_ids ch_to_tile ((tp_idx, tp_dict) :: rest)
  = Raise UnboundLocalError.
Proof.
  intros Hout. unfold tile_stack_ids. cbv zeta. cbn [for_each].
  unfold tile_stack_ids_time at 1.
  now rewrite tile_stack_ids_channel_absent.
Qed.

End SelectionLoops.

Lemma tile_stack_ids_copy_witness :
  snd ([(0, [(0, [(0, [0; 1; 2])])]); (1, [(0, [(0, [0; 1; 2])])])],
       remove_channel 0 Demo.tree_gap)
  = remove_channel 0 Demo.tree_gap.
Proof.
  apply (tile_stack_ids_copy 0 Demo.tree_gap).
  - split; [| repeat constructor]; unfold wf; simpl;
      repeat constructor; simpl; intuition discriminate.
  - vm_compute. reflexivity.
Defined.

Lemma tile_stack_ids_unbound_witness :
  tile_stack_ids 0 ((1, [(1, [(0, [0])])]) :: [(0, [(0, [(0, [0; 1; 2])])])])
  = Raise UnboundLocalError.
Proof.
  apply (tile_stack_ids_unbound 0 1 [(1, [(0, [0])])]).
  simpl. intuition discriminate.
Defined.

Lemma tile_stack_ids_every_time_point_witness :
  tile_stack_ids 0 Demo.tree_B
  = Ok (restrict_channel 0 Demo.tree_B, remove_channel 0 Demo.tree_B).
Proof.
  apply (tile_stack_ids_every_time_point 0 Demo.tree_B).
  - split; [| repeat constructor]; unfold wf; simpl;
      repeat constructor; simpl; intuition discriminate.
  - repeat constructor.
Defined.

(** X3.  The first channel is not tiled twice: on a tree of Python dicts,
    no crop job that [tile_remaining_channels] makes from the copy left by
    the loop of [tile_stack] is for the first channel. *)
Theorem no_crop_job_for_first_channel (self : Tiler) (ch_to_tile : Z)
  (t : IndexTree) (ids : IndexTree * IndexTree) (tiled_ch_id : Z)
  (cur_meta_df : list Tile.t) (fn_args : list CropTileArgs) :
  tree_wf t ->
  tile_stack_ids ch_to_tile t = Ok ids ->
  tile_remaining_channels_args self (snd ids) tiled_ch_id cur_meta_df
  = Ok fn_args ->
  forall a, In a fn_args -> a_channel_idx a <> ch_to_tile.
Proof.
  intros Hwf Hids Hargs a Ha.
  rewrite (tile_stack_ids_remaining ch_to_tile t ids Hwf Hids) in Hargs.
  apply tile_remaining_channels_args_jobs in Hargs. subst fn_args.
  apply in_crop_jobs in Ha
    as (tp_idx & tp_dict & ch_idx & ch_dict & pos_idx & sl_idx_list & sl_idx
        & Htp & Hch & _ & _ & _ & ->).
  simpl. unfold remove_channel in Htp.
  apply in_map_iff in Htp as ([tp d] & Heq & _). inversion Heq; subst.
  simpl in Hch. apply filter_In in Hch as (_ & Hne). simpl in Hne.
  intros ->. now rewrite Z.eqb_refl in Hne.
Qed.

Lemma no_crop_job_for_first_channel_witness :
  Forall (fun a => a_channel_idx a <> 0)
    (crop_jobs Demo.tiler_B (remove_channel 0 Demo.tree_B) 0 Demo.ref_B).
Proof.
  apply Forall_forall.
  apply (no_crop_job_for_first_channel Demo.tiler_B 0 Demo.tree_B
           (restrict_channel 0 Demo.tree_B, remove_channel 0 Demo.tree_B) 0
           Demo.ref_B).
  - split; [| repeat constructor]; unfold wf; simpl;
      repeat constructor; simpl; intuition discriminate.
  - vm_compute. reflexivity.
  - vm_compute. reflexivity.
Defined.

Section MaskSelection.

Variable mask_channel : Z.

Let inner (tp_idx : Z) :=
  fun (mask_ch_ids : IndexTree) (e : Z * PosDict) =>
    let '(ch_idx, ch_dict) := e in
    if ch_idx =? mask_channel then
      setitem mask_ch_ids tp_idx [(mask_channel, ch_dict)]
    else mask_ch_ids.

Lemma tile_mask_stack_ids_inner_absent (tp_idx : Z) (tp_dict : ChannelDict)
  (acc : IndexTree) :
  ~ In mask_channel (keys tp_dict) ->
  fold_left (inner tp_idx) tp_dict acc = acc.
Proof.
  revert acc. induction tp_dict as [| [k v] d IH]; simpl; intros acc Hn;
    [reflexivity |].
  destruct (Z.eqb_spec k mask_channel) as [-> | Hne]; [tauto |].
  apply IH; tauto.
Qed.

Lemma tile_mask_stack_ids_inner (tp_idx : Z) (tp_dict : ChannelDict)
  (acc : IndexTree) :
  wf tp_dict -> ~ In tp_idx (keys acc) ->
  fold_left (inner tp_idx) tp_dict acc
  = acc ++ match dict_get mask_channel tp_dict with
           | Some ch_dict => [(tp_idx, [(mask_channel, ch_dict)])]
           | None => []
           end.
Proof.
  unfold wf. revert acc.
  induction tp_dict as [| [k v] d IH]; simpl; intros acc Hnd Hfresh.
  - now rewrite app_nil_r.
  - inversion Hnd as [| ? ? Hk Hd]; subst.
    destruct (Z.eqb_spec k mask_channel) as [-> | Hne].
    + rewrite tile_mask_stack_ids_inner_absent by assumption.
      now apply setitem_fresh.
    + now apply IH.
Qed.

Lemma tile_mask_stack_ids_loop :
  forall (suf pre acc : IndexTree),
    wf (pre ++ suf) ->
    Forall (fun e => wf (snd e)) suf ->
    (forall k, In k (keys acc) -> In k (keys pre)) ->
    fold_left
      (fun mask_ch_ids '(tp_idx, tp_dict) =>
         fold_left (inner tp_idx) tp_dict mask_ch_ids)
      suf acc
    = acc ++ time_points_with mask_channel suf.
Proof.
  induction suf as [| [tp d] suf IH]; intros pre acc Hwf Hds Hacc.
  - simpl. now rewrite app_nil_r.
  - inversion Hds as [| ? ? Hd Hds']; subst. simpl in Hd.
    assert (Hfresh : ~ In tp (keys pre)).
    { unfold wf, keys in Hwf. rewrite map_app in Hwf. simpl in Hwf.
      apply NoDup_remove_2 in Hwf. intros Hin. apply Hwf.
      apply in_or_app. now left. }
    cbn [fold_left].
    rewrite tile_mask_stack_ids_inner by auto.
    rewrite (IH (pre ++ [(tp, d)])).
    + unfold time_points_with. simpl. now rewrite <- app_assoc.
    + now rewrite <- app_assoc.
    + assumption.
    + intros k Hk. unfold keys in *. rewrite map_app in *.
      apply in_app_or in Hk as [Hk | Hk]; apply in_or_app.
      * left. auto.
      * right. destruct (dict_get mask_channel d); simpl in *; tauto.
Qed.

(** X5.  The loop of [tile_mask_stack], on a tree of Python dicts, enters
    the time points that have the mask channel, each with the entry of the
    mask channel alone, and no other time point. *)
Theorem tile_mask_stack_ids_spec (t : IndexTree) :
  tree_wf t ->
  tile_mask_stack_ids mask_channel t = time_points_with mask_channel t.
Proof.
  intros [Hwf Hds]. unfold tile_mask_stack_ids.
  apply (tile_mask_stack_ids_loop t [] [] Hwf Hds). intros k [].
Qed.

End MaskSelection.

Lemma tile_mask_stack_ids_spec_witness :
  tile_mask_stack_ids 0 Demo.tree_gap = time_points_with 0 Demo.tree_gap.
Proof.
  apply (tile_mask_stack_ids_spec 0 Demo.tree_gap).
  split; [| repeat constructor]; unfold wf; simpl;
    repeat constructor; simpl; intuition discriminate.
Defined.

(* ================================================================== *)
(** ** The tables that the two phases write *)
(* ================================================================== *)

Lemma insert_by_name_sorted (r : Tile.t) (l : list Tile.t) :
  Sorted name_le l -> Sorted name_le (insert_by_name r l).
Proof.
  induction l as [| r' l IH]; simpl; intros Hs.
  - repeat constructor.
  - destruct (String.leb (Tile.file_name r) (Tile.file_name r')) eqn:E.
    + constructor; [assumption |]. constructor. exact E.
    + inversion Hs as [| ? ? Hl Hhd]; subst.
      constructor; [auto |].
      assert (Hr : name_le r' r).
      { unfold name_le.
        destruct (String.leb_total (Tile.file_name r) (Tile.file_name r'));
          congruence. }
      destruct l as [| r'' l]; simpl.
      * now constructor.
      * destruct (String.leb (Tile.file_name r) (Tile.file_name r''));
          constructor; [assumption |].
        now inversion Hhd.
Qed.

Lemma sort_values_file_name_sorted (l : list Tile.t) :
  Sorted name_le (sort_values_file_name l).
Proof.
  induction l as [| r l IH]; simpl; [constructor |].
  now apply insert_by_name_sorted.
Qed.

Lemma insert_by_name_perm (r : Tile.t) (l : list Tile.t) :
  Permutation (insert_by_name r l) (r :: l).
Proof.
  induction l as [| r' l IH]; simpl; [reflexivity |].
  destruct (String.leb _ _); [reflexivity |].
  rewrite IH. apply perm_swap.
Qed.

Lemma sort_values_file_name_perm (l : list Tile.t) :
  Permutation (sort_values_file_name l) l.
Proof.
  induction l as [| r l IH]; simpl; [reflexivity |].
  rewrite insert_by_name_perm. now constructor.
Qed.

(** X6.  A call of [tile_first_channel] that returns leaves the object as
    it was, returns the very table it has written to [frames_meta.csv] of
    the tile directory, and that table holds the rows of all the jobs, each
    once, in ascending order of file names. *)
Theorem tile_first_channel_table (tile_image : CropTileArgs -> list (Z * Z))
  (tile_name : Z -> Z -> Z -> Z -> Z -> Z -> string) (channel0_ids : IndexTree)
  (channel0_depth : Z) (cur_mask_dir : option string) (is_mask : bool)
  (w w' : World) (ch0_meta_df : list Tile.t) :
  tile_first_channel tile_image tile_name channel0_ids channel0_depth
    cur_mask_dir is_mask w = (Ok ch0_meta_df, w') ->
  fst w' = fst w /\
  Fs.lookup (Fs.join (tile_dir (fst w)) "frames_meta.csv") (snd w')
  = Some (Fs.TilesMeta ch0_meta_df) /\
  Sorted name_le ch0_meta_df /\
  Permutation ch0_meta_df
    (List.concat
       (map (tile_and_save tile_image tile_name)
          (first_channel_jobs (fst w) channel0_ids channel0_depth
             cur_mask_dir))).
Proof.
  intros Hrun.
  pose proof (tile_first_channel_self tile_image tile_name channel0_ids
                channel0_depth cur_mask_dir is_mask w) as Hself.
  pose proof (tile_first_channel_run _ _ _ _ _ _ _ _ _ Hrun) as (_ & Hdf).
  rewrite Hrun in Hself. simpl in Hself.
  split; [assumption |]. split; [| split].
  - now apply (tile_first_channel_written tile_image tile_name channel0_ids
                 channel0_depth cur_mask_dir is_mask).
  - subst. apply sort_values_file_name_sorted.
  - subst. apply sort_values_file_name_perm.
Qed.

Lemma tile_first_channel_table_witness :
  fst DemoRuns.world_B_first = fst Demo.world_B /\
  Fs.lookup (Fs.join (tile_dir (fst Demo.world_B)) "frames_meta.csv")
    (snd DemoRuns.world_B_first)
  = Some (Fs.TilesMeta Demo.ref_B) /\
  Sorted name_le Demo.ref_B /\
  Permutation Demo.ref_B
    (List.concat
       (map (tile_and_save (Demo.tile_image Demo.shape_B) Demo.tile_name)
          (first_channel_jobs (fst Demo.world_B)
             (restrict_channel 0 Demo.tree_B) 1 None))).
Proof.
  apply (tile_first_channel_table (Demo.tile_image Demo.shape_B)
           Demo.tile_name (restrict_channel 0 Demo.tree_B) 1 None false
           Demo.world_B DemoRuns.world_B_first Demo.ref_B).
  vm_compute. reflexivity.
Defined.

(** X7.  When there is no job to run (no leaf, or no slice left after the
    margins), [tile_first_channel] raises on the empty list of tables and
    leaves the object and the disk as they were: no table is written. *)
Theorem tile_first_channel_without_jobs
  (tile_image : CropTileArgs -> list (Z * Z))
  (tile_name : Z -> Z -> Z -> Z -> Z -> Z -> string) (channel0_ids : IndexTree)
  (channel0_depth : Z) (cur_mask_dir : option string) (is_mask : bool)
  (w : World) :
  tile_first_channel_args (fst w) channel0_ids channel0_depth cur_mask_dir
    is_mask = Ok [] ->
  tile_first_channel tile_image tile_name channel0_ids channel0_depth
    cur_mask_dir is_mask w = (Raise ValueError, w).
Proof.
  intros Hargs.
  unfold tile_first_channel, mbind, get, lift, on_fs, ret.
  rewrite Hargs. simpl. now destruct w.
Qed.

Lemma tile_first_channel_without_jobs_witness :
  tile_first_channel (Demo.tile_image Demo.shape_B) Demo.tile_name
    [(0, [(0, [(0, [0; 1; 2])])])] 7 None false Demo.world_B
  = (Raise ValueError, Demo.world_B).
Proof.
  apply (tile_first_channel_without_jobs (Demo.tile_image Demo.shape_B)
           Demo.tile_name [(0, [(0, [(0, [0; 1; 2])])])] 7 None false
           Demo.world_B).
  vm_compute. reflexivity.
Defined.

(** X8.  A call of [tile_remaining_channels] that returns has written a
    table that holds every row of [cur_meta_df] and every row of the crop
    jobs, each once, in ascending order of file names: no row of the tiled
    channel is lost. *)
Theorem tile_remaining_channels_table
  (tile_name : Z -> Z -> Z -> Z -> Z -> Z -> string) (t : IndexTree)
  (tiled_ch_id : Z) (cur_meta_df : list Tile.t) (w w' : World) :
  tile_remaining_channels tile_name t tiled_ch_id cur_meta_df w = (Ok tt, w') ->
  exists new table,
    cropped_metadata tile_name (fst w) t tiled_ch_id cur_meta_df = Ok new /\
    Fs.lookup (Fs.join (tile_dir (fst w)) "frames_meta.csv") (snd w')
    = Some (Fs.TilesMeta table) /\
    Permutation table (cur_meta_df ++ new) /\
    Sorted name_le table /\
    List.length table = (List.length cur_meta_df + List.length new)%nat.
Proof.
  intros Hrun.
  apply tile_remaining_channels_run in Hrun as (new & Hnew & _ & Hcsv).
  exists new, (sort_values_file_name (cur_meta_df ++ new)).
  split; [assumption |]. split; [assumption |].
  split; [apply sort_values_file_name_perm |].
  split; [apply sort_values_file_name_sorted |].
  rewrite (Permutation_length (sort_values_file_name_perm _)).
  apply length_app.
Qed.

Lemma tile_remaining_channels_table_witness :
  exists new table,
    cropped_metadata Demo.tile_name (fst Demo.world_B) Demo.remaining_B 0
      Demo.ref_B = Ok new /\
    Fs.lookup (Fs.join (tile_dir (fst Demo.world_B)) "frames_meta.csv")
      (snd DemoRuns.world_B_propagated)
    = Some (Fs.TilesMeta table) /\
    Permutation table (Demo.ref_B ++ new) /\
    Sorted name_le table /\
    List.length table = (List.length Demo.ref_B + List.length new)%nat.
Proof.
  apply (tile_remaining_channels_table Demo.tile_name Demo.remaining_B 0
           Demo.ref_B Demo.world_B DemoRuns.world_B_propagated).
  vm_compute. reflexivity.
Defined.

(* ================================================================== *)
(** ** When propagation raises *)
(* ================================================================== *)

(** Every element of a loop that went through had its body go through. *)
Lemma for_each_ok_each {A S} (body : A -> S -> result S) :
  forall (l : list A) (s s' : S),
    for_each l body s = Ok s' ->
    forall a, In a l -> exists s1 s2, body a s1 = Ok s2.
Proof.
  induction l as [| x l IH]; simpl; intros s s' Hrun a Ha; [destruct Ha |].
  apply bind_ok in Hrun as (s1 & Hx & Hrest).
  destruct Ha as [<- | Ha]; [eauto | eapply IH; eauto].
Qed.

Lemma index_ok_iff (l : list Z) (x : Z) :
  (exists i, index l x = Ok i) <-> In x l.
Proof.
  induction l as [| y l IH]; simpl.
  - split; [intros (i & H); discriminate | intros []].
  - destruct (Z.eqb_spec y x) as [-> | Hne].
    + split; [now left | eauto].
    + rewrite <- IH. split.
      * intros (i & H). apply bind_ok in H as (j & Hj & _). eauto.
      * intros [Heq | (j & Hj)]; [congruence |]. rewrite Hj. simpl. eauto.
Qed.

(** X9.  [tile_remaining_channels] builds its jobs without raising exactly
    when every channel that has a position in the tree has a depth in
    [self.channel_depth], and every channel of which a slice is left after
    the margins is in [self.channel_ids]; otherwise it raises ([KeyError]
    or [ValueError]) before any job runs. *)
Theorem tile_remaining_channels_args_ok_iff (self : Tiler) (t : IndexTree)
  (tiled_ch_id : Z) (cur_meta_df : list Tile.t) :
  (exists fn_args,
      tile_remaining_channels_args self t tiled_ch_id cur_meta_df = Ok fn_args)
  <-> channels_known self t.
Proof.
  unfold tile_remaining_channels_args, channels_known. split.
  - intros (fn_args & Hrun) tp_idx tp_dict ch_idx ch_dict pos_idx sl_idx_list
      Htp Hch Hpos.
    destruct (for_each_ok_each _ _ _ _ Hrun _ Htp) as (s1 & s2 & H1).
    destruct (for_each_ok_each _ _ _ _ H1 _ Hch) as (s3 & s4 & H2).
    destruct (for_each_ok_each _ _ _ _ H2 _ Hpos) as (s5 & s6 & H3).
    apply bind_ok in H3 as (depth & Hdepth & Hsl).
    unfold getitem in Hdepth.
    destruct (dict_get ch_idx (channel_depth self)) as [d |] eqn:Hd;
      [| discriminate].
    inversion Hdepth; subst d. exists depth. split; [reflexivity |].
    intros Hne.
    destruct (adjust_slice_margins sl_idx_list depth) as [| sl rest] eqn:Hadj;
      [congruence |].
    destruct (for_each_ok_each _ _ _ _ Hsl sl (or_introl eq_refl))
      as (s7 & s8 & H4).
    apply bind_ok in H4 as (i & Hi & _).
    apply index_ok_iff. eauto.
  - intros Hknown.
    apply for_each_total. intros [tp_idx tp_dict] s1 Htp.
    apply for_each_total. intros [ch_idx ch_dict] s2 Hch.
    apply for_each_total. intros [pos_idx sl_idx_list] s3 Hpos.
    destruct (Hknown _ _ _ _ _ _ Htp Hch Hpos) as (depth & Hdepth & Hin).
    unfold getitem. rewrite Hdepth. simpl.
    apply for_each_total. intros sl_idx s4 Hsl.
    assert (Hch_in : In ch_idx (channel_ids self)).
    { apply Hin. intros Hnil. rewrite Hnil in Hsl. destruct Hsl. }
    apply index_ok_iff in Hch_in as (i & Hi). rewrite Hi. simpl.
    destruct (np_any _); eauto.
Qed.

(** Channel 1 has a slice to visit and is not in [channel_ids]:
    [ValueError].  Channel 0 is not in [channel_ids] either, but its depth
    of 5 leaves none of its three slices: no exception.  Channel 2 has a
    position and no depth: [KeyError]. *)
Example tile_remaining_channels_args_raises :
  tile_remaining_channels_args
    (set_channel_ids [0] Demo.tiler_B) Demo.remaining_B 0 Demo.ref_B
  = Raise ValueError /\
  is_ok (tile_remaining_channels_args Demo.tiler_depths Demo.tree_B 0
           Demo.ref_B) = true /\
  tile_remaining_channels_args Demo.tiler_B Demo.tree_depths 0 Demo.ref_B
  = Raise KeyError.
Proof. vm_compute. repeat split; reflexivity. Qed.

(* ================================================================== *)
(** ** Whole runs *)
(* ================================================================== *)

(** X11.  After a run of [tile_stack] that returns, the table in
    [frames_meta.csv] of the tile directory holds every row of the table
    of the first channel; with a single channel it is that table. *)
Theorem tile_stack_keeps_first_channel_rows
  (tile_image : CropTileArgs -> list (Z * Z))
  (tile_name : Z -> Z -> Z -> Z -> Z -> Z -> string) (w w' : World) :
  tile_stack tile_image tile_name w = (Ok tt, w') ->
  exists ch_to_tile rest ch_depth ids meta_df w1 table,
    channel_ids (fst w) = ch_to_tile :: rest /\
    dict_get ch_to_tile (channel_depth (fst w)) = Some ch_depth /\
    tile_stack_ids ch_to_tile (nested_id_dict (fst w)) = Ok ids /\
    tile_first_channel tile_image tile_name (fst ids) ch_depth None false w
    = (Ok meta_df, w1) /\
    Fs.lookup (Fs.join (tile_dir (fst w)) "frames_meta.csv") (snd w')
    = Some (Fs.TilesMeta table) /\
    (forall r, In r meta_df -> In r table) /\
    (rest = [] -> table = meta_df).
Proof.
  intros Hrun.
  apply tile_stack_run in Hrun
    as (ch_to_tile & rest & ch_depth & ids & meta_df & fs1 & Hids & Hdepth
        & Hsplit & Hfirst & Hself & Hrest).
  pose proof (tile_first_channel_written _ _ _ _ _ _ _ _ _ Hfirst) as Hcsv.
  simpl in Hcsv.
  destruct rest as [| c rest'].
  - exists ch_to_tile, [], ch_depth, ids, meta_df, (fst w, fs1), meta_df.
    rewrite Hrest. repeat split; auto.
  - apply tile_remaining_channels_run in Hrest as (new & _ & _ & Hfinal).
    simpl in Hfinal.
    exists ch_to_tile, (c :: rest'), ch_depth, ids, meta_df, (fst w, fs1),
      (sort_values_file_name (meta_df ++ new)).
    repeat split; auto.
    + intros r Hr. apply in_sort_values_file_name, in_or_app. now left.
    + discriminate.
Qed.

Lemma tile_stack_keeps_first_channel_rows_witness :
  exists ch_to_tile rest ch_depth ids meta_df w1 table,
    channel_ids (fst Demo.world_B) = ch_to_tile :: rest /\
    dict_get ch_to_tile (channel_depth (fst Demo.world_B)) = Some ch_depth /\
    tile_stack_ids ch_to_tile (nested_id_dict (fst Demo.world_B)) = Ok ids /\
    tile_first_channel (Demo.tile_image Demo.shape_B) Demo.tile_name (fst ids)
      ch_depth None false Demo.world_B = (Ok meta_df, w1) /\
    Fs.lookup (Fs.join (tile_dir (fst Demo.world_B)) "frames_meta.csv")
      (snd DemoRuns.world_B_tiled)
    = Some (Fs.TilesMeta table) /\
    (forall r, In r meta_df -> In r table) /\
    (rest = [] -> table = meta_df).
Proof.
  apply (tile_stack_keeps_first_channel_rows (Demo.tile_image Demo.shape_B)
           Demo.tile_name Demo.world_B DemoRuns.world_B_tiled).
  vm_compute. reflexivity.
Defined.

Lemma tile_mask_stack_run (tile_image : CropTileArgs -> list (Z * Z))
  (validate_metadata_indices :
     list Frame.t -> ids -> ids -> ids -> ids -> bool ->
     result (MetadataIds * IndexTree))
  (tile_name : Z -> Z -> Z -> Z -> Z -> Z -> string) (mask_dir : string)
  (mask_channel mask_depth : Z) (w w' : World) :
  tile_mask_stack tile_image validate_metadata_indices tile_name mask_dir
    mask_channel mask_depth w = (Ok tt, w') ->
  exists deepest mask_meta_df validated meta_df fs1,
    max_depth (channel_depth (fst w)) = Ok deepest /\
    mask_depth <= deepest /\
    read_meta mask_dir (snd w) = (Ok mask_meta_df, snd w) /\
    validate_metadata_indices mask_meta_df (time_ids (fst w))
      (Ids [mask_channel]) (slice_ids (fst w)) (pos_ids (fst w)) false
    = Ok validated /\
    tile_first_channel tile_image tile_name
      (tile_mask_stack_ids mask_channel (snd validated)) mask_depth
      (Some mask_dir) true (set_mask_depth mask_depth (fst w), snd w)
    = (Ok meta_df, (set_mask_depth mask_depth (fst w), fs1)) /\
    tile_remaining_channels tile_name (nested_id_dict (fst w)) mask_channel
      meta_df (set_mask_depth mask_depth (fst w), fs1) = (Ok tt, w').
Proof.
  unfold tile_mask_stack. unfold mbind at 1. unfold get at 1.
  unfold mbind at 1. unfold lift at 1.
  destruct (max_depth (channel_depth (fst w))) as [deepest | e] eqn:Hmax;
    [| discriminate].
  unfold mbind at 1. unfold assert.
  destruct (Z.leb_spec mask_depth deepest) as [Hle | Hgt];
    [| unfold lift; discriminate].
  unfold ret at 1. unfold mbind at 1. unfold put at 1.
  unfold mbind at 1. unfold get at 1. cbn [fst snd].
  unfold mbind at 1. unfold on_fs at 1. cbn [fst snd].
  unfold read_meta at 1.
  destruct (Fs.lookup (Fs.join mask_dir "frames_meta.csv") (snd w))
    as [[| rows | | |] |] eqn:Hread; try discriminate.
  unfold mbind at 1. unfold lift at 1. cbn [nested_id_dict set_mask_depth
    time_ids slice_ids pos_ids].
  destruct (validate_metadata_indices rows _ _ _ _ false) as [v | e] eqn:Hv;
    [| discriminate].
  unfold mbind at 1.
  pose proof (tile_first_channel_self tile_image tile_name
                (tile_mask_stack_ids mask_channel (snd v)) mask_depth
                (Some mask_dir) true (set_mask_depth mask_depth (fst w), snd w))
    as Hself.
  destruct (tile_first_channel tile_image tile_name
              (tile_mask_stack_ids mask_channel (snd v)) mask_depth
              (Some mask_dir) true (set_mask_depth mask_depth (fst w), snd w))
    as [[meta_df | e] [self1 fs1]] eqn:Hfirst; [| discriminate].
  simpl in Hself. subst self1. intros Hrest.
  exists deepest, rows, v, meta_df, fs1.
  split; [reflexivity |]. split; [assumption |].
  split; [unfold read_meta; now rewrite Hread |].
  split; [assumption |]. split; [exact Hfirst | exact Hrest].
Qed.

(** X10.  A run of [tile_mask_stack] that returns has recorded the mask
    depth, which is at most the largest channel depth, and has changed no
    other field of the object: unlike [tile_stack], it leaves
    [self.channel_ids] whole, and it propagates over the whole tree of the
    object.  The table it leaves in [frames_meta.csv] of the tile
    directory is the table that [tile_first_channel] has returned for
    the mask channel, over the tree validated from the table of the mask
    directory, joined with the rows cropped from it over the tree of the
    object, in ascending order of file names. *)
Theorem tile_mask_stack_keeps_channel_ids
  (tile_image : CropTileArgs -> list (Z * Z))
  (validate_metadata_indices :
     list Frame.t -> ids -> ids -> ids -> ids -> bool ->
     result (MetadataIds * IndexTree))
  (tile_name : Z -> Z -> Z -> Z -> Z -> Z -> string) (mask_dir : string)
  (mask_channel mask_depth : Z) (w w' : World) :
  tile_mask_stack tile_image validate_metadata_indices tile_name mask_dir
    mask_channel mask_depth w = (Ok tt, w') ->
  fst w' = set_mask_depth mask_depth (fst w) /\
  channel_ids (fst w') = channel_ids (fst w) /\
  nested_id_dict (fst w') = nested_id_dict (fst w) /\
  (exists deepest,
      max_depth (channel_depth (fst w)) = Ok deepest /\
      mask_depth <= deepest) /\
  (exists mask_meta_df validated meta_df w1 new,
      read_meta mask_dir (snd w) = (Ok mask_meta_df, snd w) /\
      validate_metadata_indices mask_meta_df (time_ids (fst w))
        (Ids [mask_channel]) (slice_ids (fst w)) (pos_ids (fst w)) false
      = Ok validated /\
      tile_first_channel tile_image tile_name
        (tile_mask_stack_ids mask_channel (snd validated)) mask_depth
        (Some mask_dir) true (set_mask_depth mask_depth (fst w), snd w)
      = (Ok meta_df, w1) /\
      meta_df
      = sort_values_file_name
          (List.concat
             (map (tile_and_save tile_image tile_name)
                (first_channel_jobs (set_mask_depth mask_depth (fst w))
                   (tile_mask_stack_ids mask_channel (snd validated))
                   mask_depth (Some mask_dir)))) /\
      cropped_metadata tile_name (set_mask_depth mask_depth (fst w))
        (nested_id_dict (fst w)) mask_channel meta_df = Ok new /\
      Fs.lookup (Fs.join (tile_dir (fst w)) "frames_meta.csv") (snd w')
      = Some (Fs.TilesMeta (sort_values_file_name (meta_df ++ new)))).
Proof.
  intros Hrun.
  apply tile_mask_stack_run in Hrun
    as (deepest & mask_meta_df & validated & meta_df & fs1 & Hmax & Hle
        & Hread & Hvalid & Hfirst & Hrest).
  apply tile_remaining_channels_run in Hrest as (new & Hnew & Hself & Hcsv).
  simpl in Hself, Hcsv, Hnew. rewrite Hself.
  pose proof (tile_first_channel_run _ _ _ _ _ _ _ _ _ Hfirst) as (_ & Hrows).
  split; [reflexivity |]. split; [reflexivity |]. split; [reflexivity |].
  split; [eauto |].
  exists mask_meta_df, validated, meta_df,
    (set_mask_depth mask_depth (fst w), fs1), new.
  repeat (split; [assumption |]). assumption.
Qed.

Lemma tile_mask_stack_keeps_channel_ids_witness :
  fst (snd DemoMaskTiling.run) = set_mask_depth 1 (fst DemoMaskTiling.world) /\
  channel_ids (fst (snd DemoMaskTiling.run))
  = channel_ids (fst DemoMaskTiling.world) /\
  nested_id_dict (fst (snd DemoMaskTiling.run))
  = nested_id_dict (fst DemoMaskTiling.world) /\
  (exists deepest,
      max_depth (channel_depth (fst DemoMaskTiling.world)) = Ok deepest /\
      1 <= deepest) /\
  (exists mask_meta_df validated meta_df w1 new,
      read_meta "masks" (snd DemoMaskTiling.world)
      = (Ok mask_meta_df, snd DemoMaskTiling.world) /\
      DemoMaskTiling.validate mask_meta_df
        (time_ids (fst DemoMaskTiling.world)) (Ids [2])
        (slice_ids (fst DemoMaskTiling.world))
        (pos_ids (fst DemoMaskTiling.world)) false
      = Ok validated /\
      tile_first_channel DemoMaskTiling.tile_image Demo.tile_name
        (tile_mask_stack_ids 2 (snd validated)) 1 (Some "masks") true
        (set_mask_depth 1 (fst DemoMaskTiling.world),
         snd DemoMaskTiling.world)
      = (Ok meta_df, w1) /\
      meta_df
      = sort_values_file_name
          (List.concat
             (map (tile_and_save DemoMaskTiling.tile_image Demo.tile_name)
                (first_channel_jobs
                   (set_mask_depth 1 (fst DemoMaskTiling.world))
                   (tile_mask_stack_ids 2 (snd validated)) 1
                   (Some "masks")))) /\
      cropped_metadata Demo.tile_name
        (set_mask_depth 1 (fst DemoMaskTiling.world))
        (nested_id_dict (fst DemoMaskTiling.world)) 2 meta_df = Ok new /\
      Fs.lookup
        (Fs.join (tile_dir (fst DemoMaskTiling.world)) "frames_meta.csv")
        (snd (snd DemoMaskTiling.run))
      = Some (Fs.TilesMeta (sort_values_file_name (meta_df ++ new)))).
Proof.
  apply (tile_mask_stack_keeps_channel_ids DemoMaskTiling.tile_image
           DemoMaskTiling.validate Demo.tile_name "masks" 2 1
           DemoMaskTiling.world (snd DemoMaskTiling.run)).
  vm_compute. reflexivity.
Defined.

(** A mask deeper than every channel is refused before anything is read
    or written. *)
Example tile_mask_stack_too_deep :
  tile_mask_stack DemoMaskTiling.tile_image DemoMaskTiling.validate
    Demo.tile_name "masks" 2 3 DemoMaskTiling.world
  = (Raise (AssertionError ""), DemoMaskTiling.world).
Proof. vm_compute. reflexivity. Qed.

(* ================================================================== *)
(** ** What the z-score parameters of a frame are computed from *)
(* ================================================================== *)

Section ZScoreGroups.
Import MetaUtils MetaSpec ZScoreSpec.

Variable agg_cols : list col.

Lemma samples_of_app (k : key) (rows1 rows2 : list Ints.t) :
  samples_of agg_cols k (rows1 ++ rows2)
  = samples_of agg_cols k rows1 ++ samples_of agg_cols k rows2.
Proof. unfold samples_of. now rewrite filter_app, map_app. Qed.

Lemma samples_of_one (k : key) (r : Ints.t) :
  samples_of agg_cols k [r]
  = if key_eqb (ints_key agg_cols r) k then [Ints.intensity r] else [].
Proof.
  unfold samples_of. simpl. now destruct (key_eqb (ints_key agg_cols r) k).
Qed.

(** Membership in the groups after one more sample. *)
Lemma in_group_add (kr : key) (vr : Q) (gs : groups) (k : key) (vs : list Q) :
  NoDup (map fst gs) ->
  In (k, vs) (group_add kr vr gs) <->
  (k <> kr /\ In (k, vs) gs) \/
  (k = kr /\
   exists vs0, vs = vs0 ++ [vr] /\
               (In (kr, vs0) gs \/ (vs0 = [] /\ ~ In kr (map fst gs)))).
Proof.
  induction gs as [| [k' vs'] gs IH]; simpl; intros Hnd.
  - split.
    + intros [Heq | []]. inversion Heq; subst. right. split; [reflexivity |].
      exists []. split; [reflexivity |]. right. tauto.
    + intros [[_ []] | (-> & vs0 & -> & [[] | (-> & _)])]. now left.
  - inversion Hnd as [| ? ? Hk Hgs]; subst. specialize (IH Hgs).
    destruct (key_eqb k' kr) eqn:E.
    + apply key_eqb_eq in E. subst k'. simpl. split.
      * intros [Heq | Hin].
        -- inversion Heq; subst. right. split; [reflexivity |].
           exists vs'. split; [reflexivity |]. left. now left.
        -- left. split; [| now right].
           intros ->. apply Hk. change kr with (fst (kr, vs)).
           now apply in_map.
      * intros [(Hne & [Heq | Hin]) | (-> & vs0 & -> & Hcase)].
        -- inversion Heq; subst. congruence.
        -- now right.
        -- destruct Hcase as [[Heq | Hin] | (_ & Hout)].
           ++ inversion Heq; subst. now left.
           ++ exfalso. apply Hk. change kr with (fst (kr, vs0)).
              now apply in_map.
           ++ exfalso. apply Hout. now left.
    + assert (Hne' : k' <> kr).
      { intros ->. now rewrite key_eqb_refl in E. }
      simpl. rewrite IH. split.
      * intros [Heq | [(Hne & Hin) | (-> & vs0 & -> & Hcase)]].
        -- inversion Heq; subst. left. split; [assumption | now left].
        -- left. split; [assumption | now right].
        -- right. split; [reflexivity |]. exists vs0.
           split; [reflexivity |].
           destruct Hcase as [Hin | (-> & Hout)]; [left; now right |].
           right. split; [reflexivity |]. intros [Heq | Hin]; [congruence |].
           tauto.
      * intros [(Hne & [Heq | Hin]) | (-> & vs0 & -> & Hcase)].
        -- now left.
        -- right. left. tauto.
        -- right. right. split; [reflexivity |]. exists vs0.
           split; [reflexivity |].
           destruct Hcase as [[Heq | Hin] | (-> & Hout)].
           ++ inversion Heq; subst. congruence.
           ++ now left.
           ++ right. split; [reflexivity |]. tauto.
Qed.

(** The groups built from the samples: a group for each key that has a
    sample, and in it the intensities of the samples of that key. *)
Lemma in_grouped (rows : list Ints.t) (k : key) (vs : list Q) :
  In (k, vs)
    (fold_left
       (fun gs r => group_add (ints_key agg_cols r) (Ints.intensity r) gs)
       rows [])
  <-> vs = samples_of agg_cols k rows /\ vs <> [].
Proof.
  revert k vs. induction rows as [| r rows IH] using rev_ind; intros k vs.
  - simpl. split; [intros [] | intros (-> & H); now elim H].
  - rewrite fold_left_app. cbn [fold_left].
    rewrite in_group_add by (apply fold_group_add_nodup; constructor).
    rewrite samples_of_app, samples_of_one.
    split.
    + intros [(Hne & Hin) | (-> & vs0 & -> & Hcase)].
      * apply IH in Hin as (-> & Hnil).
        destruct (key_eqb (ints_key agg_cols r) k) eqn:E.
        -- apply key_eqb_eq in E. congruence.
        -- simpl. now rewrite app_nil_r.
      * rewrite key_eqb_refl. simpl. split; [| now destruct vs0].
        f_equal. destruct Hcase as [Hin | (-> & Hout)].
        -- now apply IH in Hin.
        -- destruct (samples_of agg_cols (ints_key agg_cols r) rows) as [| v l]
             eqn:Hs; [reflexivity |].
           exfalso. apply Hout.
           change (ints_key agg_cols r)
             with (fst (ints_key agg_cols r, v :: l)).
           apply in_map. apply IH. split; [now rewrite Hs | discriminate].
    + intros (-> & Hnil).
      destruct (key_eqb (ints_key agg_cols r) k) eqn:E.
      * apply key_eqb_eq in E. subst k. right. split; [reflexivity |].
        exists (samples_of agg_cols (ints_key agg_cols r) rows).
        split; [reflexivity |].
        destruct (samples_of agg_cols (ints_key agg_cols r) rows) as [| v l]
          eqn:Hs.
        -- right. split; [reflexivity |]. intros Hin.
           apply in_map_iff in Hin as ([k0 vs0] & Hk0 & Hin).
           simpl in Hk0. subst k0. apply IH in Hin as (-> & Hne).
           now rewrite Hs in Hne.
        -- left. apply IH. split; [now rewrite Hs | discriminate].
      * left. simpl in Hnil. rewrite app_nil_r in *.
        split; [intros ->; now rewrite key_eqb_refl in E |].
        apply IH. split; [reflexivity | assumption].
Qed.

Lemma in_groupby (rows : list Ints.t) (k : key) (vs : list Q) :
  In (k, vs) (groupby agg_cols rows)
  <-> vs = samples_of agg_cols k rows /\ vs <> [].
Proof.
  unfold groupby. rewrite <- in_grouped. split; apply Permutation_in.
  - apply sort_groups_perm.
  - symmetry. apply sort_groups_perm.
Qed.

End ZScoreGroups.

Section ZScoreValues.
Import MetaUtils MetaSpec ZScoreSpec.

Lemma samples_of_filtered (agg_cols : list col) (ints_meta : list Ints.t)
  (min_fraction : Q) (k : key) :
  samples_of agg_cols k (filter (fg_frac_ge min_fraction) ints_meta)
  = map Ints.intensity
      (filter
         (fun s => fg_frac_ge min_fraction s && key_eqb (ints_key agg_cols s) k)
         ints_meta).
Proof.
  unfold samples_of. f_equal.
  induction ints_meta as [| s l IH]; simpl; [reflexivity |].
  destruct (fg_frac_ge min_fraction s); simpl; [| assumption].
  destruct (key_eqb (ints_key agg_cols s) k); now rewrite IH.
Qed.

(** Each returned row has the median and the quartile difference of the
    intensities of the samples of its group that pass the foreground
    test. *)
Lemma frame_rows_from_samples (frames_meta : list Frame.t)
  (ints_meta : list Ints.t) (input_dir scheme : string) (min_fraction : Q)
  (fs fs' : Fs.t) (out : list Frame.t) :
  compute_zscore_params frames_meta ints_meta input_dir (Some scheme)
    min_fraction fs = (Ok out, fs') ->
  Forall2
    (fun r r' =>
       Frame.zscore_median r'
       = median (frame_samples (agg_cols_of scheme) ints_meta min_fraction r) /\
       Frame.zscore_iqr r'
       = iqr (frame_samples (agg_cols_of scheme) ints_meta min_fraction r))
    frames_meta out.
Proof.
  intros Hrun. apply compute_zscore_params_run in Hrun as (-> & _).
  pose proof (merge_left_rows (agg_cols_of scheme) frames_meta
                (ints_agg_of (agg_cols_of scheme) ints_meta min_fraction)
                (ints_agg_nodup _ _ _)) as Hrows.
  eapply Forall2_impl; [| exact Hrows].
  intros r r' (_ & Hnone & Hsome). unfold frame_samples.
  set (vals := samples_of (agg_cols_of scheme)
                 (frame_key (agg_cols_of scheme) r)
                 (filter (fg_frac_ge min_fraction) ints_meta)).
  destruct vals as [| v l] eqn:Hvals.
  - destruct Hnone as (-> & ->); [| split; reflexivity].
    intros a Ha Hkey. unfold ints_agg_of, aggregate in Ha.
    apply in_map_iff in Ha as ([k vs] & <- & Hg). simpl in Hkey. subst k.
    apply in_groupby in Hg as (-> & Hne). apply Hne. exact Hvals.
  - assert (Hg : In (frame_key (agg_cols_of scheme) r, v :: l)
                   (groupby (agg_cols_of scheme)
                      (filter (fg_frac_ge min_fraction) ints_meta))).
    { apply in_groupby. split; [symmetry; exact Hvals | discriminate]. }
    apply (Hsome (frame_key (agg_cols_of scheme) r, median (v :: l),
                  iqr (v :: l))); [| reflexivity].
    unfold ints_agg_of, aggregate. apply in_map_iff.
    exists (frame_key (agg_cols_of scheme) r, v :: l). split; [reflexivity |].
    exact Hg.
Qed.

(** X12.  For [normalize_im] one of dataset, volume and slice, the
    [zscore_median] and [zscore_iqr] that a frame comes back with are the
    median and the difference of the upper and lower quartiles of the
    intensities of exactly those samples that have the frame's values in
    the grouping columns and an [fg_frac] of at least [min_fraction];
    samples of other groups have no part in them, and both are missing
    when there is no such sample. *)
Theorem zscore_of_frame_samples (frames_meta : list Frame.t)
  (ints_meta : list Ints.t) (input_dir scheme : string) (min_fraction : Q)
  (fs fs' : Fs.t) (out : list Frame.t) :
  compute_zscore_params frames_meta ints_meta input_dir (Some scheme)
    min_fraction fs = (Ok out, fs') ->
  Forall2
    (fun r r' =>
       let vals :=
         map Ints.intensity
           (filter
              (fun s =>
                 fg_frac_ge min_fraction s
                 && key_eqb (ints_key (agg_cols_of scheme) s)
                      (frame_key (agg_cols_of scheme) r))
              ints_meta) in
       Frame.zscore_median r' = median vals /\
       Frame.zscore_iqr r' = iqr vals)
    frames_meta out.
Proof.
  intros Hrun.
  eapply Forall2_impl; [| exact (frame_rows_from_samples _ _ _ _ _ _ _ _ Hrun)].
  intros r r' H. cbv zeta. rewrite <- samples_of_filtered. exact H.
Qed.

Lemma zscore_of_frame_samples_witness :
  Forall2
    (fun r r' =>
       let vals :=
         map Ints.intensity
           (filter
              (fun s =>
                 fg_frac_ge 0 s
                 && key_eqb (ints_key (agg_cols_of "volume") s)
                      (frame_key (agg_cols_of "volume") r))
              MetaSpec.ints) in
       Frame.zscore_median r' = median vals /\
       Frame.zscore_iqr r' = iqr vals)
    MetaSpec.frames
    (merge_left (agg_cols_of "volume") MetaSpec.frames
       (ints_agg_of (agg_cols_of "volume") MetaSpec.ints 0)).
Proof.
  apply (zscore_of_frame_samples MetaSpec.frames MetaSpec.ints "in" "volume" 0
           MetaSpec.disk
           (snd (compute_zscore_params MetaSpec.frames MetaSpec.ints "in"
                   (Some "volume") 0 MetaSpec.disk))).
  vm_compute. reflexivity.
Defined.

Lemma same_other_columns_set_zscore (r1 r2 : Frame.t) (m i : option Q) :
  same_other_columns r1 r2 -> set_zscore m i r2 = set_zscore m i r1.
Proof.
  unfold same_other_columns, set_zscore.
  intros (-> & -> & -> & -> & -> & -> & ->). reflexivity.
Qed.

Lemma same_other_columns_frame_key (agg_cols : list col) (r1 r2 : Frame.t) :
  same_other_columns r1 r2 -> frame_key agg_cols r2 = frame_key agg_cols r1.
Proof.
  unfold same_other_columns, frame_key.
  intros (Hd & Ht & Hc & Hs & Hp & _). apply map_ext.
  intros []; simpl; congruence.
Qed.

(** The merge does not look at the z-score columns of the left table. *)
Lemma merge_left_ignores_zscore (agg_cols : list col)
  (frames1 frames2 : list Frame.t) (ints_agg : list agg_row) :
  Forall2 same_other_columns frames1 frames2 ->
  merge_left agg_cols frames2 ints_agg = merge_left agg_cols frames1 ints_agg.
Proof.
  unfold merge_left. induction 1 as [| r1 r2 l1 l2 Hr _ IH]; [reflexivity |].
  cbn [flat_map]. rewrite IH. f_equal.
  rewrite (same_other_columns_frame_key agg_cols r1 r2 Hr).
  match goal with
  | |- context [filter ?f ints_agg] => destruct (filter f ints_agg) as [| a l]
  end.
  - now rewrite (same_other_columns_set_zscore r1 r2).
  - apply map_ext. intros b. now apply same_other_columns_set_zscore.
Qed.

(** X13.  For [normalize_im] one of dataset, volume and slice the result
    does not depend on the z-score values that the table had: two tables
    that differ in these two columns only give the same result; and a
    second call on the result of a first one changes nothing, neither the
    table nor the disk. *)
Theorem zscore_params_ignore_prior_values (frames1 frames2 : list Frame.t)
  (ints_meta : list Ints.t) (input_dir scheme : string) (min_fraction : Q)
  (fs fs' : Fs.t) (out : list Frame.t) :
  Forall2 same_other_columns frames1 frames2 ->
  compute_zscore_params frames1 ints_meta input_dir (Some scheme)
    min_fraction fs = (Ok out, fs') ->
  compute_zscore_params frames2 ints_meta input_dir (Some scheme)
    min_fraction fs = (Ok out, fs') /\
  compute_zscore_params out ints_meta input_dir (Some scheme)
    min_fraction fs' = (Ok out, fs').
Proof.
  intros Hsame Hrun.
  pose proof (compute_zscore_params_run _ _ _ _ _ _ _ _ Hrun) as (Hout & Hfs).
  assert (Hvalid : normalize_im_valid (Some scheme) = true).
  { revert Hrun. unfold compute_zscore_params, mbind, assert, lift.
    destruct (normalize_im_valid (Some scheme)); [reflexivity | discriminate]. }
  assert (Hopen : Fs.open_for_writing (Fs.join input_dir "frames_meta.csv") fs
                  = Ok tt).
  { revert Hrun. unfold compute_zscore_params, mbind, assert, lift, ret.
    rewrite Hvalid. simpl. unfold Fs.to_csv.
    destruct (Fs.open_for_writing _ fs) as [[] | e];
      [reflexivity | discriminate]. }
  assert (Hstep : forall frames fs0,
             Fs.open_for_writing (Fs.join input_dir "frames_meta.csv") fs0
             = Ok tt ->
             compute_zscore_params frames ints_meta input_dir (Some scheme)
               min_fraction fs0
             = (Ok (merge_left (agg_cols_of scheme) frames
                      (ints_agg_of (agg_cols_of scheme) ints_meta
                         min_fraction)),
                Fs.write (Fs.join input_dir "frames_meta.csv")
                  (Fs.FramesMeta
                     (merge_left (agg_cols_of scheme) frames
                        (ints_agg_of (agg_cols_of scheme) ints_meta
                           min_fraction))) fs0)).
  { intros frames fs0 H0.
    unfold compute_zscore_params, mbind, assert, ret.
    rewrite Hvalid. simpl. now rewrite to_csv_run. }
  split.
  - rewrite Hstep, (merge_left_ignores_zscore _ frames1 frames2) by assumption.
    now rewrite <- Hout, <- Hfs.
  - assert (Hrows : Forall2 same_other_columns frames1 out).
    { rewrite Hout.
      eapply Forall2_impl;
        [| apply merge_left_rows, ints_agg_nodup].
      intros r r' H. apply H. }
    rewrite Hstep, (merge_left_ignores_zscore _ frames1 out);
      [| assumption | rewrite Hfs; now apply open_for_writing_write].
    rewrite <- Hout. f_equal. rewrite Hfs. apply write_write.
Qed.

Lemma zscore_params_ignore_prior_values_witness :
  compute_zscore_params (map (set_zscore None None) MetaSpec.frames)
    MetaSpec.ints "in" (Some "dataset") 0 MetaSpec.disk
  = (Ok (merge_left (agg_cols_of "dataset") MetaSpec.frames
           (ints_agg_of (agg_cols_of "dataset") MetaSpec.ints 0)),
     snd (compute_zscore_params MetaSpec.frames MetaSpec.ints "in"
            (Some "dataset") 0 MetaSpec.disk)) /\
  compute_zscore_params
    (merge_left (agg_cols_of "dataset") MetaSpec.frames
       (ints_agg_of (agg_cols_of "dataset") MetaSpec.ints 0))
    MetaSpec.ints "in" (Some "dataset") 0
    (snd (compute_zscore_params MetaSpec.frames MetaSpec.ints "in"
            (Some "dataset") 0 MetaSpec.disk))
  = (Ok (merge_left (agg_cols_of "dataset") MetaSpec.frames
           (ints_agg_of (agg_cols_of "dataset") MetaSpec.ints 0)),
     snd (compute_zscore_params MetaSpec.frames MetaSpec.ints "in"
            (Some "dataset") 0 MetaSpec.disk)).
Proof.
  apply (zscore_params_ignore_prior_values MetaSpec.frames
           (map (set_zscore None None) MetaSpec.frames)
           MetaSpec.ints "in" "dataset" 0 MetaSpec.disk).
  - unfold same_other_columns. repeat constructor.
  - vm_compute. reflexivity.
Defined.

End ZScoreValues.

Section Quartiles.
Import MetaUtils MetaSpec ZScoreSpec.
Local Open Scope Q_scope.


Lemma insert_q_length (x : Q) (l : list Q) :
  List.length (insert_q x l) = S (List.length l).
Proof.
  induction l as [| y l IH]; simpl; [reflexivity |].
  destruct (Qle_bool x y); simpl; [reflexivity | now rewrite IH].
Qed.

Lemma sort_q_length (l : list Q) : List.length (sort_q l) = List.length l.
Proof.
  induction l as [| x l IH]; simpl; [reflexivity |].
  now rewrite insert_q_length, IH.
Qed.

Lemma insert_q_Forall (P : Q -> Prop) (x : Q) (l : list Q) :
  P x -> Forall P l -> Forall P (insert_q x l).
Proof.
  intros Hx. induction 1 as [| y l Hy Hl IH]; simpl.
  - now constructor.
  - destruct (Qle_bool x y); repeat constructor; assumption.
Qed.

Lemma sort_q_Forall (P : Q -> Prop) (l : list Q) :
  Forall P l -> Forall P (sort_q l).
Proof.
  induction 1; simpl; [constructor | now apply insert_q_Forall].
Qed.

Lemma insert_q_sorted (x : Q) (l : list Q) :
  StronglySorted Qle l -> StronglySorted Qle (insert_q x l).
Proof.
  induction 1 as [| y l Hs IH Hy]; simpl.
  - repeat constructor.
  - destruct (Qle_bool x y) eqn:E.
    + apply Qle_bool_iff in E. constructor; [now constructor |].
      constructor; [assumption |].
      eapply Forall_impl; [| exact Hy]. intros z Hz. now apply Qle_trans with y.
    + assert (y <= x).
      { apply Qlt_le_weak, Qnot_le_lt. intros H.
        apply Qle_bool_iff in H. congruence. }
      constructor; [assumption |]. now apply insert_q_Forall.
Qed.

Lemma sort_q_sorted (l : list Q) : StronglySorted Qle (sort_q l).
Proof.
  induction l; simpl; [constructor | now apply insert_q_sorted].
Qed.

Lemma sorted_nth_le (s : list Q) (d : Q) (i j : nat) :
  StronglySorted Qle s -> (i <= j)%nat -> (j < List.length s)%nat ->
  nth i s d <= nth j s d.
Proof.
  intros Hs. revert i j.
  induction Hs as [| x s Hs IH Hx]; intros i j Hij Hj; simpl in Hj; [lia |].
  destruct i as [| i], j as [| j]; simpl; try lia.
  - apply Qle_refl.
  - rewrite Forall_forall in Hx. apply Hx, nth_In. lia.
  - apply IH; lia.
Qed.

(** The interpolated value at a rank grows with the rank. *)
Lemma interpolation_monotone (s : list Q) (x0 p1 p3 : Q) :
  StronglySorted Qle s ->
  0 <= p1 -> p1 <= p3 ->
  p3 <= inject_Z (Z.of_nat (List.length s) - 1) ->
  nth (Z.to_nat (Qfloor p1)) s x0
    + (nth (Z.to_nat (Qfloor p1 + 1)) s (nth (Z.to_nat (Qfloor p1)) s x0)
       - nth (Z.to_nat (Qfloor p1)) s x0) * (p1 - inject_Z (Qfloor p1))
  <= nth (Z.to_nat (Qfloor p3)) s x0
    + (nth (Z.to_nat (Qfloor p3 + 1)) s (nth (Z.to_nat (Qfloor p3)) s x0)
       - nth (Z.to_nat (Qfloor p3)) s x0) * (p3 - inject_Z (Qfloor p3)).
Proof.
  intros Hs H0 H13 Hn.
  assert (Hl1 : (0 <= Qfloor p1)%Z).
  { change 0%Z with (Qfloor 0). now apply Qfloor_resp_le. }
  assert (Hl13 : (Qfloor p1 <= Qfloor p3)%Z) by now apply Qfloor_resp_le.
  assert (Hl3 : (Qfloor p3 <= Z.of_nat (List.length s) - 1)%Z).
  { rewrite <- (Qfloor_Z (Z.of_nat (List.length s) - 1)).
    now apply Qfloor_resp_le. }
  pose proof (Qfloor_le p1) as Hf1. pose proof (Qlt_floor p1) as Hc1.
  pose proof (Qfloor_le p3) as Hf3. pose proof (Qlt_floor p3) as Hc3.
  assert (Hstep : forall lo, (0 <= lo <= Z.of_nat (List.length s) - 1)%Z ->
             nth (Z.to_nat lo) s x0
             <= nth (Z.to_nat (lo + 1)) s (nth (Z.to_nat lo) s x0)).
  { intros lo Hlo.
    destruct (Z.eq_dec lo (Z.of_nat (List.length s) - 1)) as [-> | Hne].
    - rewrite (nth_overflow s (n := Z.to_nat (Z.of_nat (List.length s) - 1 + 1)))
        by lia.
      apply Qle_refl.
    - rewrite (nth_indep s (n := Z.to_nat (lo + 1)) _ x0) by lia.
      apply sorted_nth_le; [assumption | lia | lia]. }
  set (a1 := nth (Z.to_nat (Qfloor p1)) s x0) in *.
  set (a3 := nth (Z.to_nat (Qfloor p3)) s x0) in *.
  pose proof (Hstep (Qfloor p1) ltac:(lia)) as Hb1.
  pose proof (Hstep (Qfloor p3) ltac:(lia)) as Hb3.
  fold a1 in Hb1. fold a3 in Hb3.
  set (b1 := nth (Z.to_nat (Qfloor p1 + 1)) s a1) in *.
  set (b3 := nth (Z.to_nat (Qfloor p3 + 1)) s a3) in *.
  rewrite inject_Z_plus in Hc1, Hc3.
  change (inject_Z 1) with 1 in Hc1, Hc3.
  destruct (Z.eq_dec (Qfloor p1) (Qfloor p3)) as [E | E].
  - assert (a1 = a3) as Ha by (unfold a1, a3; now rewrite E).
    assert (b1 = b3) as Hb by (unfold b1, b3; now rewrite E, Ha).
    rewrite Ha, Hb, E in *. clear Ha Hb.
    nra.
  - assert (Hba : b1 <= a3).
    { unfold b1, a3.
      rewrite (nth_indep s (n := Z.to_nat (Qfloor p1 + 1)) _ x0) by lia.
      apply sorted_nth_le; [assumption | lia | lia]. }
    assert (H1 : 0 <= (b1 - a1) * (1 - (p1 - inject_Z (Qfloor p1))))
      by (apply Qmult_le_0_compat; lra).
    assert (H3 : 0 <= (b3 - a3) * (p3 - inject_Z (Qfloor p3)))
      by (apply Qmult_le_0_compat; lra).
    nra.
Qed.

End Quartiles.

Section QuartileValues.
Import MetaUtils MetaSpec ZScoreSpec.
Local Open Scope Q_scope.

Lemma quantile_monotone (q1 q3 : Q) (l : list Q) (v1 v3 : Q) :
  0 <= q1 -> q1 <= q3 -> q3 <= 1 ->
  quantile q1 l = Some v1 -> quantile q3 l = Some v3 -> v1 <= v3.
Proof.
  intros H0 H13 H1. unfold quantile.
  pose proof (sort_q_sorted l) as Hs.
  destruct (sort_q l) as [| x0 s'] eqn:Es; [discriminate |].
  set (s := x0 :: s') in *. cbv zeta.
  match goal with
  | |- Some (Qred ?e1) = _ -> Some (Qred ?e3) = _ -> _ =>
      intros E1 E3;
      assert (Hv1 : v1 = Qred e1) by congruence;
      assert (Hv3 : v3 = Qred e3) by congruence
  end.
  rewrite Hv1, Hv3, !Qred_correct.
  assert (Hn : 0 <= inject_Z (Z.of_nat (List.length s) - 1)).
  { change 0 with (inject_Z 0). rewrite <- Zle_Qle. unfold s.
    cbn [List.length]. lia. }
  apply interpolation_monotone; try assumption;
    set (n := inject_Z (Z.of_nat (List.length s) - 1)) in *.
  - now apply Qmult_le_0_compat.
  - rewrite !(Qmult_comm n). now apply Qmult_le_compat_r.
  - rewrite <- (Qmult_1_r n) at 2. rewrite !(Qmult_comm n).
    now apply Qmult_le_compat_r.
Qed.

Lemma nth_all_eq (s : list Q) (v d : Q) (i : nat) :
  (forall x, In x s -> x == v) -> d == v -> nth i s d == v.
Proof.
  intros Hs Hd. destruct (nth_in_or_default i s d) as [H | ->]; auto.
Qed.

Lemma quantile_constant (q : Q) (l : list Q) (v : Q) :
  l <> [] -> (forall x, In x l -> x == v) -> quantile q l = Some (Qred v).
Proof.
  intros Hne Hall. unfold quantile.
  assert (Hs : forall x, In x (sort_q l) -> x == v).
  { apply Forall_forall, sort_q_Forall, Forall_forall. exact Hall. }
  destruct (sort_q l) as [| x0 s'] eqn:Es.
  - apply (f_equal (@List.length Q)) in Es. rewrite sort_q_length in Es.
    destruct l; [congruence | discriminate].
  - set (s := x0 :: s') in *. cbv zeta. f_equal. apply Qred_complete.
    assert (H0 : x0 == v) by (apply Hs; now left).
    set (a := nth _ s x0).
    assert (Ha : a == v) by now apply nth_all_eq.
    set (b := nth _ s a).
    assert (Hb : b == v) by now apply nth_all_eq.
    rewrite Ha, Hb. ring.
Qed.

Lemma iqr_nonneg (vals : list Q) (d : Q) : iqr vals = Some d -> 0 <= d.
Proof.
  unfold iqr, sub_opt.
  destruct (quantile (3 # 4) vals) as [hi |] eqn:Ehi; [| discriminate].
  destruct (quantile (1 # 4) vals) as [lo |] eqn:Elo; [| discriminate].
  intros E. assert (Hd : d = Qred (hi - lo)) by congruence.
  rewrite Hd, Qred_correct.
  assert (lo <= hi).
  { apply (quantile_monotone (1 # 4) (3 # 4) vals); auto; discriminate. }
  lra.
Qed.

Lemma iqr_constant (vals : list Q) (v : Q) :
  vals <> [] -> (forall x, In x vals -> x == v) ->
  iqr vals = Some 0 /\ median vals = Some (Qred v).
Proof.
  intros Hne Hall. unfold iqr, median.
  rewrite !(quantile_constant _ vals v) by assumption. split; [| reflexivity].
  unfold sub_opt. f_equal. change 0 with (Qred 0) at 1.
  apply Qred_complete. ring.
Qed.

(** X14.  For [normalize_im] one of dataset, volume and slice, the
    [zscore_iqr] that a frame comes back with is never negative, and it
    is 0, with the common intensity as [zscore_median], when the samples
    that count for the frame all have the same intensity: a frame with a
    single such sample is returned with an inter-quartile range of 0. *)
Theorem zscore_iqr_nonnegative (frames_meta : list Frame.t)
  (ints_meta : list Ints.t) (input_dir scheme : string) (min_fraction : Q)
  (fs fs' : Fs.t) (out : list Frame.t) :
  compute_zscore_params frames_meta ints_meta input_dir (Some scheme)
    min_fraction fs = (Ok out, fs') ->
  Forall2
    (fun r r' =>
       (forall d, Frame.zscore_iqr r' = Some d -> 0 <= d) /\
       (forall v,
           frame_samples (agg_cols_of scheme) ints_meta min_fraction r <> [] ->
           (forall x,
               In x (frame_samples (agg_cols_of scheme) ints_meta
                       min_fraction r) -> x == v) ->
           Frame.zscore_iqr r' = Some 0 /\
           Frame.zscore_median r' = Some (Qred v)))
    frames_meta out.
Proof.
  intros Hrun.
  eapply Forall2_impl; [| exact (frame_rows_from_samples _ _ _ _ _ _ _ _ Hrun)].
  intros r r' (Hm & Hi). rewrite Hm, Hi. split.
  - apply iqr_nonneg.
  - intros v Hne Hall. now apply iqr_constant.
Qed.

Lemma zscore_iqr_nonnegative_witness :
  Forall2
    (fun r r' =>
       (forall d, Frame.zscore_iqr r' = Some d -> 0 <= d) /\
       (forall v,
           frame_samples (agg_cols_of "slice") MetaSpec.ints 0 r <> [] ->
           (forall x,
               In x (frame_samples (agg_cols_of "slice") MetaSpec.ints 0 r) ->
               x == v) ->
           Frame.zscore_iqr r' = Some 0 /\
           Frame.zscore_median r' = Some (Qred v)))
    MetaSpec.frames
    (merge_left (agg_cols_of "slice") MetaSpec.frames
       (ints_agg_of (agg_cols_of "slice") MetaSpec.ints 0)).
Proof.
  apply (zscore_iqr_nonnegative MetaSpec.frames MetaSpec.ints "in" "slice" 0
           MetaSpec.disk
           (snd (compute_zscore_params MetaSpec.frames MetaSpec.ints "in"
                   (Some "slice") 0 MetaSpec.disk))).
  vm_compute. reflexivity.
Defined.

End QuartileValues.


(* ================================================================== *)
(** ** Mask generation *)
(* ================================================================== *)

Lemma px_bind_ok {A B} (c : Px.result A) (k : A -> Px.result B) (b : B) :
  Px.bind c k = Px.Ok b -> exists a, c = Px.Ok a /\ k a = Px.Ok b.
Proof. destruct c; simpl; [eauto | discriminate]. Qed.

Lemma px_for_each_invariant {A S} (Inv : list A -> S -> Prop)
  (body : A -> S -> Px.result S) :
  forall (l done : list A) (s s' : S),
    (forall a done' s1 s2,
        In a l -> Inv done' s1 -> body a s1 = Px.Ok s2 ->
        Inv (done' ++ [a]) s2) ->
    Inv done s -> Px.for_each l body s = Px.Ok s' -> Inv (done ++ l) s'.
Proof.
  induction l as [| a l IH]; simpl; intros done s s' Hbody Hs Hrun.
  - inversion Hrun; subst. now rewrite app_nil_r.
  - apply px_bind_ok in Hrun as (s1 & H1 & H2).
    replace (done ++ a :: l) with ((done ++ [a]) ++ l)
      by now rewrite <- app_assoc.
    eapply IH; [| | exact H2].
    + intros; eapply Hbody; eauto.
    + eapply Hbody; eauto.
Qed.

Lemma px_for_each_ok_each {A S} (body : A -> S -> Px.result S) :
  forall (l : list A) (s s' : S),
    Px.for_each l body s = Px.Ok s' ->
    forall a, In a l -> exists s1 s2, body a s1 = Px.Ok s2.
Proof.
  induction l as [| x l IH]; simpl; intros s s' Hrun a Ha; [destruct Ha |].
  apply px_bind_ok in Hrun as (s1 & Hx & Hrest).
  destruct Ha as [<- | Ha]; [eauto | eapply IH; eauto].
Qed.

Lemma insert_frame_by_name_sorted (r : Frame.t) (l : list Frame.t) :
  Sorted (fun a b => String.leb (Frame.file_name a) (Frame.file_name b) = true)
    l ->
  Sorted (fun a b => String.leb (Frame.file_name a) (Frame.file_name b) = true)
    (insert_frame_by_name r l).
Proof.
  induction l as [| r' l IH]; simpl; intros Hs.
  - repeat constructor.
  - destruct (String.leb (Frame.file_name r) (Frame.file_name r')) eqn:E.
    + constructor; [assumption |]. constructor. exact E.
    + inversion Hs as [| ? ? Hl Hhd]; subst.
      constructor; [auto |].
      assert (Hr : String.leb (Frame.file_name r') (Frame.file_name r) = true).
      { destruct (String.leb_total (Frame.file_name r) (Frame.file_name r'));
          congruence. }
      destruct l as [| r'' l]; simpl.
      * now constructor.
      * destruct (String.leb (Frame.file_name r) (Frame.file_name r''));
          constructor; [assumption |].
        now inversion Hhd.
Qed.

Lemma insert_frame_by_name_perm (r : Frame.t) (l : list Frame.t) :
  Permutation (insert_frame_by_name r l) (r :: l).
Proof.
  induction l as [| r' l IH]; simpl; [reflexivity |].
  destruct (String.leb _ _); [reflexivity |].
  rewrite IH. apply perm_swap.
Qed.

Lemma sort_mask_meta_ok (rows df : list Frame.t) :
  sort_mask_meta rows = Ok df ->
  rows <> [] /\
  Sorted (fun a b => String.leb (Frame.file_name a) (Frame.file_name b) = true)
    df /\
  Permutation df rows.
Proof.
  unfold sort_mask_meta. destruct rows as [| r rows]; [discriminate |].
  intros H.
  assert (Hdf : df = fold_right insert_frame_by_name [] (r :: rows))
    by congruence.
  split; [discriminate |]. rewrite Hdf.
  generalize (r :: rows) as l. clear. intros l. split.
  - induction l; simpl; [constructor | now apply insert_frame_by_name_sorted].
  - induction l as [| a l IH]; simpl; [reflexivity |].
    rewrite insert_frame_by_name_perm. now constructor.
Qed.


Section MaskGenerationFacts.

Variable get_meta_idx : list Frame.t -> Z -> Z -> Z -> Z -> result Z.
Variable mp_create_save_mask :
  list MaskJob.t -> Z -> Px.M Fs.t (list Frame.t).
Variable channel_is_number : bool.

Let run_generate_masks :=
  generate_masks get_meta_idx mp_create_save_mask channel_is_number.
Let args_of := mask_args get_meta_idx channel_is_number.

(** A call that returns, step by step. *)
Lemma generate_masks_run (self self' : MaskProcessor)
  (correct_flat_field : bool) (str_elem_radius : Z) (fs fs' : Fs.t) :
  run_generate_masks self correct_flat_field str_elem_radius fs
  = (Px.Ok self', fs') ->
  exists fn_args mask_meta_list fs1 mask_meta_df,
    args_of self correct_flat_field str_elem_radius = Px.Ok fn_args /\
    mp_create_save_mask fn_args (mp_num_workers self) fs
    = (Px.Ok mask_meta_list, fs1) /\
    sort_mask_meta mask_meta_list = Ok mask_meta_df /\
    self'
    = set_frames_metadata
        (merge_fg_frac (mp_frames_metadata self) mask_meta_df) self /\
    fs'
    = Fs.write (Fs.join (mp_input_dir self) "frames_meta.csv")
        (Fs.FramesMeta (merge_fg_frac (mp_frames_metadata self) mask_meta_df))
        (Fs.write (Fs.join (mp_mask_dir self) "frames_meta.csv")
           (Fs.FramesMeta mask_meta_df) fs1).
Proof.
  unfold run_generate_masks, args_of, generate_masks, Px.mbind, Px.lift,
    Px.of_m, Px.ret.
  destruct (mask_args _ _ _ _ _) as [fn_args | e] eqn:Ea; [| discriminate].
  destruct (mp_create_save_mask fn_args (mp_num_workers self) fs)
    as [[mask_meta_list | e] fs1] eqn:Ep; [| discriminate].
  destruct (sort_mask_meta mask_meta_list) as [mask_meta_df | e] eqn:Es;
    simpl; [| discriminate].
  destruct (Fs.to_csv _ _ fs1) as [[[] | e] fs2] eqn:E1; simpl;
    [| discriminate].
  apply to_csv_ok in E1 as (_ & ->).
  destruct (Fs.to_csv _ _ (Fs.write _ _ fs1)) as [[[] | e] fs3] eqn:E2; simpl;
    [| discriminate].
  apply to_csv_ok in E2 as (_ & ->).
  intros H. exists fn_args, mask_meta_list, fs1, mask_meta_df.
  split; [reflexivity |]. split; [exact Ep |]. split; [exact Es |].
  split; congruence.
Qed.


(** X16.  After a call of [generate_masks] that returns, when the table
    of the masks and the table of the frames are two files:
    [frames_meta.csv] of the mask directory holds the rows that the pool
    has returned, each once, in ascending order of file names; there is
    at least one; and no other path has changed since the pool ended. *)
Theorem generate_masks_mask_table (self self' : MaskProcessor)
  (correct_flat_field : bool) (str_elem_radius : Z) (fs fs' : Fs.t) :
  generate_masks get_meta_idx mp_create_save_mask channel_is_number self
    correct_flat_field str_elem_radius fs = (Px.Ok self', fs') ->
  Fs.join (mp_mask_dir self) "frames_meta.csv"
  <> Fs.join (mp_input_dir self) "frames_meta.csv" ->
  exists fn_args mask_meta_list fs1 mask_meta_df,
    mask_args get_meta_idx channel_is_number self correct_flat_field
      str_elem_radius = Px.Ok fn_args /\
    mp_create_save_mask fn_args (mp_num_workers self) fs
    = (Px.Ok mask_meta_list, fs1) /\
    mask_meta_list <> [] /\
    Fs.lookup (Fs.join (mp_mask_dir self) "frames_meta.csv") fs'
    = Some (Fs.FramesMeta mask_meta_df) /\
    Sorted
      (fun a b => String.leb (Frame.file_name a) (Frame.file_name b) = true)
      mask_meta_df /\
    Permutation mask_meta_df mask_meta_list /\
    forall p,
      p <> Fs.join (mp_mask_dir self) "frames_meta.csv" ->
      p <> Fs.join (mp_input_dir self) "frames_meta.csv" ->
      Fs.lookup p fs' = Fs.lookup p fs1.
Proof.
  intros Hrun Hpaths.
  apply generate_masks_run in Hrun
    as (fn_args & rows & fs1 & df & Hargs & Hpool & Hsort & -> & ->).
  apply sort_mask_meta_ok in Hsort as (Hne & Hsorted & Hperm).
  exists fn_args, rows, fs1, df.
  repeat (split; [assumption |]).
  split; [| split; [assumption | split; [assumption |]]].
  - rewrite lookup_write_other by assumption. apply lookup_write.
  - intros p Hp1 Hp2. now rewrite !lookup_write_other by assumption.
Qed.

End MaskGenerationFacts.


Lemma generate_masks_mask_table_witness :
  exists fn_args mask_meta_list fs1 mask_meta_df,
    mask_args DemoMaskGen.get_meta_idx true DemoMaskGen.processor_t0 false 5
    = Px.Ok fn_args /\
    DemoMaskGen.pool fn_args 4 DemoMaskGen.disk = (Px.Ok mask_meta_list, fs1) /\
    mask_meta_list <> [] /\
    Fs.lookup "out/mask_channels_0-1/frames_meta.csv"
      (snd (DemoMaskGen.after DemoMaskGen.processor_t0))
    = Some (Fs.FramesMeta mask_meta_df) /\
    Sorted
      (fun a b => String.leb (Frame.file_name a) (Frame.file_name b) = true)
      mask_meta_df /\
    Permutation mask_meta_df mask_meta_list /\
    forall p,
      p <> "out/mask_channels_0-1/frames_meta.csv" ->
      p <> "in/frames_meta.csv" ->
      Fs.lookup p (snd (DemoMaskGen.after DemoMaskGen.processor_t0))
      = Fs.lookup p fs1.
Proof.
  apply (generate_masks_mask_table DemoMaskGen.get_meta_idx DemoMaskGen.pool
           true DemoMaskGen.processor_t0
           (fst (DemoMaskGen.after DemoMaskGen.processor_t0)) false 5
           DemoMaskGen.disk
           (snd (DemoMaskGen.after DemoMaskGen.processor_t0))).
  - vm_compute. reflexivity.
  - vm_compute. discriminate.
Defined.

(** A loop that appends: what each round adds. *)
Lemma px_for_each_appends {A J} (R : A -> list J -> Prop)
  (body : A -> list J -> Px.result (list J)) :
  forall (l : list A) (s s' : list J),
    (forall a s1 s2,
        In a l -> body a s1 = Px.Ok s2 -> exists js, s2 = s1 ++ js /\ R a js) ->
    Px.for_each l body s = Px.Ok s' ->
    exists jss, s' = s ++ List.concat jss /\ Forall2 R l jss.
Proof.
  induction l as [| a l IH]; simpl; intros s s' Hbody Hrun.
  - inversion Hrun; subst. exists []. simpl. now rewrite app_nil_r.
  - apply px_bind_ok in Hrun as (s1 & H1 & H2).
    apply Hbody in H1 as (js & -> & Hjs); [| now left].
    apply IH in H2 as (jss & -> & Hjss); [| intros; eapply Hbody; eauto].
    exists (js :: jss). simpl. rewrite app_assoc. split; [reflexivity |].
    now constructor.
Qed.

Lemma id_row_eqb_eq (a b : id_row) : id_row_eqb a b = true <-> a = b.
Proof.
  destruct a as [[[d t] p] s], b as [[[d' t'] p'] s']. unfold id_row_eqb.
  rewrite !andb_true_iff, String.eqb_eq, !Z.eqb_eq. split.
  - intros (((-> & ->) & ->) & ->). reflexivity.
  - intros [= -> -> -> ->]. auto.
Qed.

Lemma in_drop_duplicates (l : list id_row) (x : id_row) :
  In x (drop_duplicates l) <-> In x l.
Proof.
  induction l as [| y l IH]; simpl; [tauto |].
  rewrite filter_In, IH. split.
  - intros [H | [H _]]; auto.
  - intros [H | H]; [auto |].
    destruct (id_row_eqb x y) eqn:E.
    + apply id_row_eqb_eq in E. auto.
    + right. auto.
Qed.

Lemma drop_duplicates_nodup (l : list id_row) : NoDup (drop_duplicates l).
Proof.
  induction l as [| y l IH]; simpl; constructor.
  - rewrite filter_In. intros [_ H].
    assert (id_row_eqb y y = true) by now apply id_row_eqb_eq.
    rewrite H0 in H. discriminate.
  - now apply NoDup_filter.
Qed.

Section MaskJobs.

Variable get_meta_idx : list Frame.t -> Z -> Z -> Z -> Z -> result Z.
Variable mp_create_save_mask :
  list MaskJob.t -> Z -> Px.M Fs.t (list Frame.t).
Variable channel_is_number : bool.

(** X17.  The jobs of [generate_masks] on a data set of uniform
    structure: one job for each distinct combination of directory, time,
    position and slice among the selected frames, in the order of their
    first rows.  Under the policy [dataset otsu] a job carries the
    thresholds of all the channels of its directory, in the order of the
    threshold table; under the other policies it carries [None]. *)
Theorem uniform_mask_jobs (self : MaskProcessor) (correct_flat_field : bool)
  (str_elem_radius : Z) (fn_args : list MaskJob.t) :
  mp_uniform_struct self = true ->
  mask_args get_meta_idx channel_is_number self correct_flat_field
    str_elem_radius = Px.Ok fn_args ->
  let ids := drop_duplicates (map id_of (mp_frames_meta_sub self)) in
  NoDup ids /\
  (forall id, In id ids <-> In id (map id_of (mp_frames_meta_sub self))) /\
  Forall2
    (fun (id : id_row) (j : MaskJob.t) =>
       let '(dir_name, time_idx, pos_idx, slice_idx) := id in
       MaskJob.time_idx j = time_idx /\
       MaskJob.pos_idx j = pos_idx /\
       MaskJob.slice_idx j = slice_idx /\
       MaskJob.channel_thrs j
       = Thrs
           (if String.eqb (mp_mask_type self) "dataset otsu" then
              option_map
                (fun channel_thr_df => thresholds_of_dir channel_thr_df dir_name)
                (mp_channel_thr_df self)
            else None))
    ids fn_args.
Proof.
  intros Huni Hrun ids.
  split; [apply drop_duplicates_nodup |].
  split; [intros id; apply in_drop_duplicates |].
  unfold mask_args in Hrun. rewrite Huni in Hrun.
  apply px_bind_ok in Hrun as ([thrs jobs] & Hrun & [= <-]).
  unfold uniform_mask_args in Hrun. fold ids in Hrun.
  set (R := fun (id : id_row) (j : MaskJob.t) =>
              let '(dir_name, time_idx, pos_idx, slice_idx) := id in
              MaskJob.time_idx j = time_idx /\
              MaskJob.pos_idx j = pos_idx /\
              MaskJob.slice_idx j = slice_idx /\
              MaskJob.channel_thrs j
              = Thrs
                  (if String.eqb (mp_mask_type self) "dataset otsu" then
                     option_map
                       (fun channel_thr_df =>
                          thresholds_of_dir channel_thr_df dir_name)
                       (mp_channel_thr_df self)
                   else None)).
  change (Forall2 R ([] ++ ids) (snd (thrs, jobs))).
  revert Hrun.
  apply (px_for_each_invariant
           (fun done (acc : option (list Q) * list MaskJob.t) =>
              Forall2 R done (snd acc) /\
              (String.eqb (mp_mask_type self) "dataset otsu" = false ->
               fst acc = None))).
  - intros [[[d t] p] s] done [thrs1 jobs1] [thrs2 jobs2] _ (Hdone & Hnone)
      Hbody.
    apply px_bind_ok in Hbody as (names & _ & Hbody).
    apply px_bind_ok in Hbody as (channel_thrs & Hthr & [= <- <-]).
    simpl in *.
    destruct (String.eqb (mp_mask_type self) "dataset otsu") eqn:Et.
    + split; [| discriminate].
      apply Forall2_app; [assumption |]. constructor; [| constructor].
      unfold R. cbv beta iota. try rewrite Et.
      destruct (mp_channel_thr_df self); [| discriminate].
      inversion Hthr; subst. auto.
    + inversion Hthr; subst. rewrite Hnone by reflexivity.
      split; [| reflexivity].
      apply Forall2_app; [assumption |]. constructor; [| constructor].
      unfold R. cbv beta iota. try rewrite Et. auto.
  - simpl. split; [constructor | reflexivity].
Qed.

Lemma get_args_of_mask_job (self : MaskProcessor)
  (names : list string * option string) (radius t p s : Z) (thr : thr_arg) :
  MaskJob.time_idx (mask_job self names radius t p s thr) = t /\
  MaskJob.pos_idx (mask_job self names radius t p s thr) = p /\
  MaskJob.slice_idx (mask_job self names radius t p s thr) = s /\
  MaskJob.channel_thrs (mask_job self names radius t p s thr) = thr.
Proof. repeat split. Qed.

(** X18.  The jobs of [generate_masks] on a data set that is not of
    uniform structure: every time point of the index tree has the first
    of the channels, and the jobs are its slices, position by position
    and time point by time point, in the order of the tree.  No job
    carries thresholds, under [dataset otsu] as under the other
    policies. *)
Theorem nonuniform_mask_jobs (self : MaskProcessor)
  (correct_flat_field : bool) (str_elem_radius : Z)
  (fn_args : list MaskJob.t) (ch0 : Z) (rest : list Z) :
  mp_uniform_struct self = false ->
  mp_channel_ids self = ch0 :: rest ->
  mask_args get_meta_idx channel_is_number self correct_flat_field
    str_elem_radius = Px.Ok fn_args ->
  (forall tp tp_dict,
      In (tp, tp_dict) (mp_nested_id_dict self) ->
      dict_get ch0 tp_dict <> None) /\
  map (fun j => (MaskJob.time_idx j, MaskJob.pos_idx j, MaskJob.slice_idx j))
    fn_args
  = flat_map
      (fun tp : Z * ChannelDict =>
         match dict_get ch0 (snd tp) with
         | Some mask_channel_dict =>
             flat_map
               (fun pe : Z * list Z =>
                  map (fun sl_idx => (fst tp, fst pe, sl_idx)) (snd pe))
               mask_channel_dict
         | None => []
         end)
      (mp_nested_id_dict self) /\
  Forall (fun j => MaskJob.channel_thrs j = NoThrs) fn_args.
Proof.
  intros Huni Hch Hrun. unfold mask_args in Hrun. rewrite Huni in Hrun.
  unfold nonuniform_mask_args in Hrun. rewrite Hch in Hrun.
  set (place := fun j =>
                  (MaskJob.time_idx j, MaskJob.pos_idx j, MaskJob.slice_idx j)).
  apply (px_for_each_appends
           (fun (tp : Z * ChannelDict) js =>
              exists d,
                dict_get ch0 (snd tp) = Some d /\
                map place js
                = flat_map
                    (fun pe : Z * list Z =>
                       map (fun sl_idx => (fst tp, fst pe, sl_idx)) (snd pe))
                    d /\
                Forall (fun j => MaskJob.channel_thrs j = NoThrs) js))
    in Hrun.
  - destruct Hrun as (jss & -> & Hjss). simpl.
    clear Hch Huni. induction Hjss as [| tp js tree jss (d & Hd & Hp & Ht) _ IH].
    + repeat split; [intros ? ? [] | constructor].
    + destruct IH as (IH1 & IH2 & IH3). split; [| split].
      * intros tp0 tp_dict [E | Hin]; [subst tp; simpl in *; congruence | eauto].
      * simpl. rewrite map_app, IH2, Hd, Hp. reflexivity.
      * simpl. apply Forall_app. auto.
  - intros [tp tp_dict] s1 s2 _ Hbody. simpl in Hbody.
    apply px_bind_ok in Hbody as (d & Hd & Hbody).
    unfold getitem in Hd. simpl.
    destruct (dict_get ch0 tp_dict) as [d' |] eqn:Ed; [| discriminate].
    injection Hd as <-.
    apply (px_for_each_appends
             (fun (pe : Z * list Z) js =>
                map place js = map (fun sl_idx => (tp, fst pe, sl_idx)) (snd pe)
                /\ Forall (fun j => MaskJob.channel_thrs j = NoThrs) js))
      in Hbody.
    + destruct Hbody as (jss & -> & Hjss). exists (List.concat jss).
      split; [reflexivity |]. exists d'. split; [reflexivity |].
      clear Ed. induction Hjss as [| pe js d jss (Hp & Ht) _ (IH1 & IH2)];
        [split; [reflexivity | constructor] |].
      simpl. rewrite map_app, Hp, IH1. split; [reflexivity |].
      apply Forall_app. auto.
    + intros [pos sls] s3 s4 _ Hinner. simpl in Hinner.
      apply (px_for_each_appends
               (fun (sl : Z) js =>
                  map place js = [(tp, pos, sl)] /\
                  Forall (fun j => MaskJob.channel_thrs j = NoThrs) js))
        in Hinner.
      * destruct Hinner as (jss & -> & Hjss). exists (List.concat jss).
        split; [reflexivity |]. simpl.
        induction Hjss as [| sl js sls' jss (Hp & Ht) _ (IH1 & IH2)];
          [split; [reflexivity | constructor] |].
        simpl. rewrite map_app, Hp, IH1. split; [reflexivity |].
        apply Forall_app. auto.
      * intros sl s5 s6 _ Hjob.
        apply px_bind_ok in Hjob as (names & _ & [= <-]).
        eexists. split; [reflexivity |]. split; [reflexivity |].
        repeat constructor.
Qed.

(** Without the first channel at a time point the jobs are not made. *)
Lemma nonuniform_mask_args_raise (self : MaskProcessor)
  (correct_flat_field : bool) (str_elem_radius : Z) (ch0 : Z) (rest : list Z)
  (tp : Z) (tp_dict : ChannelDict) :
  mp_channel_ids self = ch0 :: rest ->
  In (tp, tp_dict) (mp_nested_id_dict self) ->
  dict_get ch0 tp_dict = None ->
  (exists e,
      nonuniform_mask_args get_meta_idx channel_is_number self
        correct_flat_field str_elem_radius = Px.Raise e) /\
  ((forall tp' tp_dict' ch_dict pos sls sl,
       In (tp', tp_dict') (mp_nested_id_dict self) ->
       dict_get ch0 tp_dict' = Some ch_dict ->
       In (pos, sls) ch_dict ->
       In sl sls ->
       exists names,
         _get_args_read_image get_meta_idx channel_is_number self tp'
           (mp_channel_ids self) sl pos correct_flat_field = Px.Ok names) ->
   nonuniform_mask_args get_meta_idx channel_is_number self
     correct_flat_field str_elem_radius = Px.Raise (Px.Std KeyError)).
Proof.
  intros Hch Hin Hnone. unfold nonuniform_mask_args.
  match goal with
  | |- (exists e, Px.for_each _ ?b _ = _) /\ _ => set (B := b)
  end.
  cut (forall s,
          (exists e, Px.for_each (mp_nested_id_dict self) B s = Px.Raise e) /\
          ((forall tp' tp_dict' ch_dict pos sls sl,
               In (tp', tp_dict') (mp_nested_id_dict self) ->
               dict_get ch0 tp_dict' = Some ch_dict ->
               In (pos, sls) ch_dict ->
               In sl sls ->
               exists names,
                 _get_args_read_image get_meta_idx channel_is_number self tp'
                   (mp_channel_ids self) sl pos correct_flat_field
                 = Px.Ok names) ->
           Px.for_each (mp_nested_id_dict self) B s
           = Px.Raise (Px.Std KeyError))); [intros H; apply H |].
  induction (mp_nested_id_dict self) as [| [tp' tp_dict'] tree IH];
    [destruct Hin |].
  intros s. cbn [Px.for_each].
  destruct Hin as [[= -> ->] | Hin].
  - assert (Hb : B (tp, tp_dict) s = Px.Raise (Px.Std KeyError)).
    { unfold B. rewrite Hch. simpl. unfold getitem. now rewrite Hnone. }
    rewrite Hb. simpl. split; [eauto | reflexivity].
  - split.
    + destruct (B (tp', tp_dict') s) as [s1 | e]; simpl; [| eauto].
      apply (IH Hin s1).
    + intros Hargs.
      assert (Hb : B (tp', tp_dict') s = Px.Raise (Px.Std KeyError) \/
                   exists s1, B (tp', tp_dict') s = Px.Ok s1).
      { unfold B. rewrite Hch. simpl. unfold getitem.
        destruct (dict_get ch0 tp_dict') as [d |] eqn:Hd; simpl;
          [right | now left].
        assert (Hleaf : forall pos sls sl,
                   In (pos, sls) d -> In sl sls ->
                   exists names,
                     _get_args_read_image get_meta_idx channel_is_number self
                       tp' (ch0 :: rest) sl pos correct_flat_field
                     = Px.Ok names).
        { intros pos sls sl Hp Hs. rewrite <- Hch.
          apply (Hargs tp' tp_dict' d pos sls sl); auto. now left. }
        clear Hd. generalize s.
        induction d as [| [pos sls] d IHd]; intros s0; simpl; [eauto |].
        match goal with
        | |- exists s1, Px.bind (Px.for_each sls ?b s0) _ = _ =>
            assert (Hs : forall s1, exists s2, Px.for_each sls b s1 = Px.Ok s2)
        end.
        { assert (Hsl : forall sl, In sl sls ->
                     exists names,
                       _get_args_read_image get_meta_idx channel_is_number
                         self tp' (ch0 :: rest) sl pos correct_flat_field
                       = Px.Ok names).
          { intros sl Hs. apply (Hleaf pos sls sl); [now left | exact Hs]. }
          clear Hleaf IHd.
          induction sls as [| sl sls IHs]; intros s1; simpl; [eauto |].
          destruct (Hsl sl) as (names & Hn); [now left |].
          rewrite Hn. simpl. apply IHs. intros sl' Hs'. apply Hsl. now right. }
        destruct (Hs s0) as (s2 & ->). simpl. apply IHd.
        intros pos' sls' sl' Hp' Hs'. apply (Hleaf pos' sls' sl'); auto.
        now right. }
      destruct Hb as [-> | (s1 & ->)]; simpl; [reflexivity |].
      apply (IH Hin s1).
      intros tp0 tp_dict0 d0 pos0 sls0 sl0 Hin0. apply Hargs. now right.
Qed.

(** X19.  On a data set that is not of uniform structure, a time point of
    the index tree without the first of the channels makes
    [generate_masks] raise before the pool is started: the disk is as it
    was, though masks could be made at the other time points.  When the
    file names can be found for every slice of the first channel in the
    tree, the exception is the [KeyError] of the missing channel. *)
Theorem generate_masks_needs_first_channel (self : MaskProcessor)
  (correct_flat_field : bool) (str_elem_radius : Z) (fs : Fs.t) (ch0 : Z)
  (rest : list Z) (tp : Z) (tp_dict : ChannelDict) :
  mp_uniform_struct self = false ->
  mp_channel_ids self = ch0 :: rest ->
  In (tp, tp_dict) (mp_nested_id_dict self) ->
  dict_get ch0 tp_dict = None ->
  (exists e,
      generate_masks get_meta_idx mp_create_save_mask channel_is_number self
        correct_flat_field str_elem_radius fs = (Px.Raise e, fs)) /\
  ((forall tp' tp_dict' ch_dict pos sls sl,
       In (tp', tp_dict') (mp_nested_id_dict self) ->
       dict_get ch0 tp_dict' = Some ch_dict ->
       In (pos, sls) ch_dict ->
       In sl sls ->
       exists names,
         _get_args_read_image get_meta_idx channel_is_number self tp'
           (mp_channel_ids self) sl pos correct_flat_field = Px.Ok names) ->
   generate_masks get_meta_idx mp_create_save_mask channel_is_number self
     correct_flat_field str_elem_radius fs
   = (Px.Raise (Px.Std KeyError), fs)).
Proof.
  intros Huni Hch Hin Hnone.
  destruct (nonuniform_mask_args_raise self correct_flat_field str_elem_radius
              ch0 rest tp tp_dict Hch Hin Hnone) as ((e & He) & Hkey).
  unfold generate_masks, Px.mbind, Px.lift, mask_args. rewrite Huni. split.
  - rewrite He. eauto.
  - intros Hargs. now rewrite (Hkey Hargs).
Qed.

End MaskJobs.

Lemma uniform_mask_jobs_witness :
  let ids :=
    drop_duplicates
      (map id_of
         (mp_frames_meta_sub
            (DemoMaskGen.processor true "dataset otsu"
               (Some [("in", 0, 3 # 1); ("x", 0, 1 # 1); ("in", 1, 5 # 1)]))))
  in
  NoDup ids /\
  (forall id,
      In id ids <->
      In id
        (map id_of
           (mp_frames_meta_sub
              (DemoMaskGen.processor true "dataset otsu"
                 (Some [("in", 0, 3 # 1); ("x", 0, 1 # 1); ("in", 1, 5 # 1)]))))) /\
  Forall2
    (fun (id : id_row) (j : MaskJob.t) =>
       let '(dir_name, time_idx, pos_idx, slice_idx) := id in
       MaskJob.time_idx j = time_idx /\
       MaskJob.pos_idx j = pos_idx /\
       MaskJob.slice_idx j = slice_idx /\
       MaskJob.channel_thrs j
       = Thrs
           (if String.eqb "dataset otsu" "dataset otsu" then
              option_map
                (fun channel_thr_df => thresholds_of_dir channel_thr_df dir_name)
                (Some [("in", 0, 3 # 1); ("x", 0, 1 # 1); ("in", 1, 5 # 1)])
            else None))
    ids
    [MaskJob.mk ["in/im_c0_z0_t0_p0.png"; "in/im_c1_z0_t0_p0.png"] None 5
       "out/mask_channels_0-1" 2 0 0 0 3 "dataset otsu" ".npy"
       (Thrs (Some [3 # 1; 5 # 1]))].
Proof.
  apply (uniform_mask_jobs DemoMaskGen.get_meta_idx true
           (DemoMaskGen.processor true "dataset otsu"
              (Some [("in", 0, 3 # 1); ("x", 0, 1 # 1); ("in", 1, 5 # 1)]))
           false 5).
  - reflexivity.
  - vm_compute. reflexivity.
Defined.

Lemma nonuniform_mask_jobs_witness :
  (forall tp tp_dict,
      In (tp, tp_dict) (firstn 1 DemoMaskGen.tree) ->
      dict_get 0 tp_dict <> None) /\
  map (fun j => (MaskJob.time_idx j, MaskJob.pos_idx j, MaskJob.slice_idx j))
    [MaskJob.mk ["in/im_c0_z0_t0_p0.png"; "in/im_c1_z0_t0_p0.png"] None 5
       "out/mask_channels_0-1" 2 0 0 0 3 "dataset otsu" ".npy" NoThrs]
  = flat_map
      (fun tp : Z * ChannelDict =>
         match dict_get 0 (snd tp) with
         | Some mask_channel_dict =>
             flat_map
               (fun pe : Z * list Z =>
                  map (fun sl_idx => (fst tp, fst pe, sl_idx)) (snd pe))
               mask_channel_dict
         | None => []
         end)
      (firstn 1 DemoMaskGen.tree) /\
  Forall (fun j => MaskJob.channel_thrs j = NoThrs)
    [MaskJob.mk ["in/im_c0_z0_t0_p0.png"; "in/im_c1_z0_t0_p0.png"] None 5
       "out/mask_channels_0-1" 2 0 0 0 3 "dataset otsu" ".npy" NoThrs].
Proof.
  apply (nonuniform_mask_jobs DemoMaskGen.get_meta_idx true
           DemoMaskGen.processor_t0 false 5 _ 0 [1]).
  - reflexivity.
  - reflexivity.
  - vm_compute. reflexivity.
Defined.

Lemma generate_masks_needs_first_channel_witness :
  (exists e,
      DemoMaskGen.run (DemoMaskGen.processor false "otsu" None)
      = (Px.Raise e, DemoMaskGen.disk)) /\
  DemoMaskGen.run (DemoMaskGen.processor false "otsu" None)
  = (Px.Raise (Px.Std KeyError), DemoMaskGen.disk).
Proof.
  destruct (generate_masks_needs_first_channel DemoMaskGen.get_meta_idx
              DemoMaskGen.pool true (DemoMaskGen.processor false "otsu" None)
              false 5 DemoMaskGen.disk 0 [1] 1 [(1, [(0, [0])])])
    as (Hraise & Hkey).
  - reflexivity.
  - reflexivity.
  - simpl. right. left. reflexivity.
  - reflexivity.
  - split; [exact Hraise |]. apply Hkey.
    intros tp' tp_dict' ch_dict pos sls sl Htp Hch Hpos Hsl.
    simpl in Htp. destruct Htp as [[= <- <-] | [[= <- <-] | []]];
      simpl in Hch; [| discriminate].
    injection Hch as <-.
    destruct Hpos as [[= <- <-] | []]. destruct Hsl as [<- | []].
    eexists. vm_compute. reflexivity.
Defined.

(* ================================================================== *)
(** ** The construction of the mask processor *)
(* ================================================================== *)




Section MaskConstructionFacts.

Variable validate_metadata_indices :
  list Frame.t -> ids -> ids -> ids -> ids -> bool ->
  result (MetadataIds * IndexTree).
Variable get_sub_meta :
  list Frame.t -> list Z -> list Z -> list Z -> list Z -> list Frame.t.
Variable threshold_otsu : list Q -> result Q.
Variable interned : bool.

(** The steps before the test of [mask_type], when they go through. *)
Lemma MaskProcessor_setup_ok (args : MaskArgs.t) (fs fs1 : Fs.t)
  (self : MaskProcessor) :
  MaskProcessor_setup validate_metadata_indices get_sub_meta interned args fs
  = (Ok self, fs1) ->
  read_meta (MaskArgs.input_dir args) fs = (Ok (mp_frames_metadata self), fs) /\
  match MaskArgs.mask_channel args with
  | None => next_channel (mp_frames_metadata self)
  | Some c => Ok c
  end = Ok (mp_mask_channel self) /\
  Fs.makedirs (mp_mask_dir self) fs = (Ok tt, fs1).
Proof.
  unfold MaskProcessor_setup, mbind, lift, ret.
  destruct (read_meta (MaskArgs.input_dir args) fs) as [[frames | e] fs0] eqn:Er;
    [| discriminate].
  assert (fs0 = fs) as ->.
  { revert Er. unfold read_meta.
    destruct (Fs.lookup _ fs) as [[] |]; congruence. }
  destruct (match MaskArgs.mask_channel args with
            | None => next_channel frames
            | Some c => Ok c
            end) as [mask_channel | e] eqn:Ec; [| discriminate].
  destruct (validate_metadata_indices _ _ _ _ _ _) as [validated | e];
    [| discriminate].
  cbv zeta.
  match goal with
  | |- context [Fs.makedirs ?d fs] =>
      destruct (Fs.makedirs d fs) as [[[] | e] fs2] eqn:Em; [| discriminate]
  end.
  intros H. assert (Hs : fs2 = fs1) by congruence. subst fs2.
  match type of H with
  | (Ok ?s, _) = _ => assert (Hself : self = s) by congruence
  end.
  rewrite Hself. simpl. auto.
Qed.



(** X21.  A [mask_type] that the constructor does not support is found
    out after the mask directory has been made: when the steps before
    the test go through, the constructor raises the assertion and leaves
    the directory of the masks on the disk, new when it was not there. *)
Theorem rejected_mask_type_leaves_directory (args : MaskArgs.t)
  (fs fs1 : Fs.t) (self : MaskProcessor) :
  mask_type_supported (MaskArgs.mask_type args) = false ->
  MaskProcessor_setup validate_metadata_indices get_sub_meta interned args fs
  = (Ok self, fs1) ->
  (exists msg,
      MaskProcessor__init__ validate_metadata_indices get_sub_meta
        threshold_otsu interned args fs = (Raise (AssertionError msg), fs1)) /\
  Fs.lookup (mp_mask_dir self) fs1 = Some Fs.Directory /\
  (Fs.lookup (mp_mask_dir self) fs = None ->
   fs1 = Fs.write (mp_mask_dir self) Fs.Directory fs /\ fs1 <> fs).
Proof.
  intros Hno Hsetup. split; [| split].
  - rewrite MaskProcessor__init__after_setup, Hsetup, Hno. eauto.
  - apply MaskProcessor_setup_ok in Hsetup as (_ & _ & Hm).
    revert Hm. unfold Fs.makedirs.
    destruct (Fs.lookup (mp_mask_dir self) fs) as [[] |] eqn:El;
      try discriminate; intros [= <-]; [assumption | apply lookup_write].
  - intros Hnew.
    apply MaskProcessor_setup_ok in Hsetup as (_ & _ & Hm).
    revert Hm. unfold Fs.makedirs. rewrite Hnew. intros [= <-].
    split; [reflexivity |]. intros Heq.
    pose proof (lookup_write (mp_mask_dir self) Fs.Directory fs) as Hl.
    rewrite Heq in Hl. congruence.
Qed.

End MaskConstructionFacts.


Lemma rejected_mask_type_leaves_directory_witness :
  (exists msg,
      DemoMask.init "dataset_otsu"
      = (Raise (AssertionError msg),
         snd (MaskProcessor_setup_value "dataset_otsu"))) /\
  Fs.lookup "out/mask_channels_0-1"
    (snd (MaskProcessor_setup_value "dataset_otsu"))
  = Some Fs.Directory /\
  (Fs.lookup "out/mask_channels_0-1" DemoMask.disk = None ->
   snd (MaskProcessor_setup_value "dataset_otsu")
   = Fs.write "out/mask_channels_0-1" Fs.Directory DemoMask.disk /\
   snd (MaskProcessor_setup_value "dataset_otsu") <> DemoMask.disk).
Proof.
  apply (rejected_mask_type_leaves_directory DemoInit.validate
           DemoMask.get_sub_meta DemoMask.threshold true
           (DemoMask.args "dataset_otsu") DemoMask.disk
           (snd (MaskProcessor_setup_value "dataset_otsu"))
           (fst (MaskProcessor_setup_value "dataset_otsu"))).
  - reflexivity.
  - vm_compute. reflexivity.
Defined.

Section ThresholdTable.
Import MetaUtils ZScoreSpec.

Variable threshold_otsu : list Q -> result Q.

Lemma for_each_appends {A J} (R : A -> list J -> Prop)
  (body : A -> list J -> result (list J)) :
  forall (l : list A) (s s' : list J),
    (forall a s1 s2,
        In a l -> body a s1 = Ok s2 -> exists js, s2 = s1 ++ js /\ R a js) ->
    for_each l body s = Ok s' ->
    exists jss, s' = s ++ List.concat jss /\ Forall2 R l jss.
Proof.
  induction l as [| a l IH]; simpl; intros s s' Hbody Hrun.
  - inversion Hrun; subst. exists []. simpl. now rewrite app_nil_r.
  - apply bind_ok in Hrun as (s1 & H1 & H2).
    apply Hbody in H1 as (js & -> & Hjs); [| now left].
    apply IH in H2 as (jss & -> & Hjss); [| intros; eapply Hbody; eauto].
    exists (js :: jss). simpl. rewrite app_assoc. split; [reflexivity |].
    now constructor.
Qed.

(** The samples of a directory and channel among the selected ones. *)
Lemma samples_of_selected (ints_metadata : list Ints.t) (channel_ids : list Z)
  (d : string) (c : Z) :
  samples_of [DirName; ChannelIdx] [CStr d; CInt c]
    (filter (fun r => existsb (Z.eqb (Ints.channel_idx r)) channel_ids)
       ints_metadata)
  = if existsb (Z.eqb c) channel_ids then
      map Ints.intensity
        (filter
           (fun r => String.eqb (Ints.dir_name r) d && (Ints.channel_idx r =? c))
           ints_metadata)
    else [].
Proof.
  unfold samples_of.
  assert (Hkey : forall r,
             key_eqb (ints_key [DirName; ChannelIdx] r) [CStr d; CInt c]
             = String.eqb (Ints.dir_name r) d && (Ints.channel_idx r =? c)).
  { intros r. simpl. now rewrite andb_true_r. }
  destruct (existsb (Z.eqb c) channel_ids) eqn:Ec.
  - f_equal. induction ints_metadata as [| r l IH]; [reflexivity |].
    cbn [filter].
    destruct (existsb (Z.eqb (Ints.channel_idx r)) channel_ids) eqn:Er.
    + cbn [filter]. rewrite Hkey, IH. reflexivity.
    + rewrite IH.
      destruct (Z.eqb_spec (Ints.channel_idx r) c) as [E | _];
        [rewrite E in Er; congruence |].
      now rewrite andb_false_r.
  - induction ints_metadata as [| r l IH]; [reflexivity |].
    cbn [filter].
    destruct (existsb (Z.eqb (Ints.channel_idx r)) channel_ids) eqn:Er;
      [| exact IH].
    cbn [filter]. rewrite Hkey.
    destruct (Z.eqb_spec (Ints.channel_idx r) c) as [E | _];
      [rewrite E in Er; congruence |].
    rewrite andb_false_r. exact IH.
Qed.

(** X22.  The threshold table of the policy [dataset otsu] has one row
    for each pair of a directory and a requested channel that has
    intensity samples, and no other row: the row holds the threshold
    that [threshold_otsu] gives for all the samples of the pair.  No
    pair has two rows. *)
Theorem channel_thr_df_rows (ints_metadata : list Ints.t)
  (channel_ids : list Z) (channel_thr_df : list ThrRow) :
  get_channel_thr_df threshold_otsu ints_metadata channel_ids
  = Ok channel_thr_df ->
  NoDup (map (fun row : ThrRow => fst row) channel_thr_df) /\
  forall (d : string) (c : Z) (thr : Q),
    In (d, c, thr) channel_thr_df <->
    In c channel_ids /\
    map Ints.intensity
      (filter
         (fun r => String.eqb (Ints.dir_name r) d && (Ints.channel_idx r =? c))
         ints_metadata) <> [] /\
    threshold_otsu
      (map Ints.intensity
         (filter
            (fun r =>
               String.eqb (Ints.dir_name r) d && (Ints.channel_idx r =? c))
            ints_metadata)) = Ok thr.
Proof.
  unfold get_channel_thr_df. cbv zeta.
  set (sub := filter _ ints_metadata).
  intros Hrun.
  apply (for_each_appends
           (fun (g : key * list Q) (js : list ThrRow) =>
              exists thr,
                threshold_otsu (snd g) = Ok thr /\
                match fst g with
                | [CStr d; CInt c] => js = [(d, c, thr)]
                | _ => js = []
                end)) in Hrun.
  2:{ intros [k vs] s1 s2 _ Hbody. apply bind_ok in Hbody as (thr & Ht & Hs).
      simpl in *.
      destruct k as [| [z | d] [| [c | s] [| x k]]];
        try (injection Hs as <-; exists []; rewrite app_nil_r;
             split; [reflexivity |]; exists thr; auto).
      injection Hs as <-. eexists. split; [reflexivity |]. exists thr. auto. }
  destruct Hrun as (jss & -> & Hjss). simpl.
  pose proof (groupby_nodup [DirName; ChannelIdx] sub) as Hnd.
  assert (Hin : forall k vs,
             In (k, vs) (groupby [DirName; ChannelIdx] sub) <->
             vs = samples_of [DirName; ChannelIdx] k sub /\ vs <> [])
    by (intros; apply in_groupby).
  assert (Hrows : forall d c thr,
             In (d, c, thr) (List.concat jss) <->
             exists vs,
               In ([CStr d; CInt c], vs) (groupby [DirName; ChannelIdx] sub) /\
               threshold_otsu vs = Ok thr).
  { clear Hin Hnd. induction Hjss as [| [k vs] js gs jss (t & Ht & Hk) _ IH];
      intros d c thr; simpl.
    - split; [intros [] | intros (vs & [] & _)].
    - rewrite in_app_iff, IH. simpl in *. split.
      + intros [Hj | (vs' & Hg & Hthr)]; [| eauto].
        destruct k as [| [z | d'] [| [c' | s] [| x k]]]; subst js;
          try (destruct Hj; fail).
        destruct Hj as [Hj | []]. injection Hj as -> -> ->. eauto.
      + intros (vs' & [Hg | Hg] & Hthr); [| eauto].
        inversion Hg; subst. simpl in Hk. subst js. left. left.
        rewrite Hthr in Ht. now inversion Ht. }
  split.
  - assert (Hkeys : forall d c,
               In (d, c) (map (fun row : ThrRow => fst row) (List.concat jss)) ->
               In [CStr d; CInt c]
                 (map fst (groupby [DirName; ChannelIdx] sub))).
    { intros d c Hdc. apply in_map_iff in Hdc as ([[d' c'] thr] & [= -> ->] & Hr).
      apply Hrows in Hr as (vs & Hg & _).
      apply in_map_iff. exists ([CStr d; CInt c], vs). auto. }
    clear Hrows Hin. revert Hnd Hkeys.
    induction Hjss as [| [k vs] js gs jss (t & Ht & Hk) Hrest IH];
      intros Hnd Hkeys; simpl; [constructor |].
    simpl in Hnd. inversion Hnd as [| ? ? Hnotin Hnd']; subst.
    assert (IH' : NoDup (map (fun row : ThrRow => fst row) (List.concat jss))).
    { apply IH; [assumption |]. intros d c Hdc.
      clear IH Hkeys Hnd Hnotin Hnd' Ht Hk.
      apply in_map_iff in Hdc as ([[d' c'] thr] & [= -> ->] & Hr).
      revert Hr. induction Hrest as [| [k' vs'] js' gs jss (t' & Ht' & Hk') _ IH];
        simpl; [intros [] |].
      rewrite in_app_iff. intros [Hj | Hj]; [| right; auto].
      left. simpl in Hk'.
      destruct k' as [| [z | d'] [| [c' | s] [| x k']]]; subst js';
        try (destruct Hj; fail).
      destruct Hj as [Hj | []]. now injection Hj as -> -> ->. }
    rewrite map_app. simpl in Hk.
    destruct k as [| [z | d] [| [c | s] [| x k]]]; subst js; simpl;
      try assumption.
    constructor; [| assumption].
    intros Hdc. apply Hnotin.
    clear - Hdc Hrest.
    apply in_map_iff in Hdc as ([[d' c'] thr] & [= -> ->] & Hr).
    revert Hr. induction Hrest as [| [k' vs'] js' gs jss (t' & Ht' & Hk') _ IH];
      simpl; [intros [] |].
    rewrite in_app_iff. intros [Hj | Hj]; [| right; auto].
    left. simpl in Hk'.
    destruct k' as [| [z | d'] [| [c' | s] [| x k']]]; subst js';
      try (destruct Hj; fail).
    destruct Hj as [Hj | []]. now injection Hj as -> -> ->.
  - intros d c thr. rewrite Hrows. unfold sub. split.
    + intros (vs & Hg & Hthr). apply Hin in Hg as (Hvs & Hne).
      fold sub in Hvs. unfold sub in Hvs.
      rewrite samples_of_selected in Hvs.
      destruct (existsb (Z.eqb c) channel_ids) eqn:Ec; [| congruence].
      apply existsb_exists in Ec as (c' & Hc' & Heq).
      apply Z.eqb_eq in Heq. subst c' vs. auto.
    + intros (Hc & Hne & Hthr).
      assert (Ec : existsb (Z.eqb c) channel_ids = true).
      { apply existsb_exists. exists c. split; [assumption | apply Z.eqb_refl]. }
      exists (map Ints.intensity
                (filter
                   (fun r =>
                      String.eqb (Ints.dir_name r) d
                      && (Ints.channel_idx r =? c))
                   ints_metadata)).
      split; [| exact Hthr].
      apply Hin. unfold sub. rewrite samples_of_selected, Ec. auto.
Qed.

End ThresholdTable.

Lemma channel_thr_df_rows_witness :
  NoDup (map (fun row : ThrRow => fst row) [("in", 0, 25 # 1); ("in", 1, 7 # 1)]) /\
  forall (d : string) (c : Z) (thr : Q),
    In (d, c, thr) [("in", 0, 25 # 1); ("in", 1, 7 # 1)] <->
    In c [0; 1] /\
    map Ints.intensity
      (filter
         (fun r => String.eqb (Ints.dir_name r) d && (Ints.channel_idx r =? c))
         MetaSpec.ints) <> [] /\
    DemoMask.threshold
      (map Ints.intensity
         (filter
            (fun r =>
               String.eqb (Ints.dir_name r) d && (Ints.channel_idx r =? c))
            MetaSpec.ints)) = Ok thr.
Proof.
  apply (channel_thr_df_rows DemoMask.threshold MetaSpec.ints [0; 1]).
  vm_compute. reflexivity.
Defined.

(* ================================================================== *)
(** ** The table of intensity samples *)
(* ================================================================== *)

Lemma append_inj_r (a b1 b2 : string) :
  (a ++ b1)%string = (a ++ b2)%string -> b1 = b2.
Proof.
  induction a as [| c a IH]; simpl; [auto |]. intros [= H]. auto.
Qed.

(** The two tables of intensity samples have different paths. *)
Lemma ints_meta_paths_differ (input_dir : string) :
  Fs.join input_dir "intensity_meta.csv" <> Fs.join input_dir "ints_meta.csv".
Proof.
  unfold Fs.join. simpl.
  destruct (String.eqb input_dir ""); [discriminate |].
  destruct (Fs.ends_with_slash input_dir); intros H;
    apply append_inj_r in H; discriminate.
Qed.

(** A loop that adds one element in each round. *)
Lemma for_each_forall2 {A S J} (proj : S -> list J) (R : A -> J -> Prop)
  (body : A -> S -> result S) :
  forall (l done : list A) (s s' : S),
    (forall a s1 s2,
        In a l -> body a s1 = Ok s2 ->
        exists j, proj s2 = proj s1 ++ [j] /\ R a j) ->
    Forall2 R done (proj s) ->
    for_each l body s = Ok s' ->
    Forall2 R (done ++ l) (proj s').
Proof.
  induction l as [| a l IH]; simpl; intros done s s' Hbody Hs Hrun.
  - inversion Hrun; subst. now rewrite app_nil_r.
  - apply bind_ok in Hrun as (s1 & H1 & H2).
    replace (done ++ a :: l) with ((done ++ [a]) ++ l)
      by now rewrite <- app_assoc.
    eapply IH; [| | exact H2].
    + intros; eapply Hbody; eauto.
    + destruct (Hbody a s s1 (or_introl eq_refl) H1) as (j & -> & Hj).
      apply Forall2_app; [assumption | now repeat constructor].
Qed.

Section IntsMetaFacts.

Variable import_object :
  string -> string -> string ->
  result (ParseArgs.t -> result (Frame.t * list string)).
Variable get_sorted_names : string -> Fs.t -> result (list string).
Variable mp_sample_im_pixels :
  list BlockArgs -> Z -> M Fs.t (list (list Ints.t)).

(** The jobs of the pool: one for each image name, in order. *)
Lemma ints_meta_args_ok
  (parse_func : ParseArgs.t -> result (Frame.t * list string))
  (input_dir order name_parser : string) (im_names : list string)
  (acc : list string * list string * list BlockArgs) :
  ints_meta_args parse_func input_dir order name_parser im_names = Ok acc ->
  Forall2
    (fun im_name (a : BlockArgs) =>
       exists row,
         a = (Fs.join input_dir im_name, 256, row) /\
         Frame.dir_name row = input_dir)
    im_names (snd acc).
Proof.
  unfold ints_meta_args. intros Hrun.
  change im_names with ([] ++ im_names).
  revert Hrun.
  apply (for_each_forall2
           (fun s : list string * list string * list BlockArgs => snd s)).
  - intros im_name [[cn fa] ba] s2 _ Hbody.
    apply bind_ok in Hbody as (parsed & _ & Hs2).
    injection Hs2 as <-. simpl. eexists. split; [reflexivity |].
    eexists. split; reflexivity.
  - constructor.
Qed.

(** A call that returns, step by step. *)
Lemma ints_meta_generator_run (input_dir order name_parser : string)
  (num_workers : Z) (fs fs' : Fs.t) (ints_meta : list Ints.t) :
  ints_meta_generator import_object get_sorted_names mp_sample_im_pixels
    input_dir order name_parser num_workers fs = (Ok ints_meta, fs') ->
  exists parse_func im_names acc im_ints_list fs1,
    import_object "utils.aux_utils" name_parser "function" = Ok parse_func /\
    get_sorted_names input_dir fs = Ok im_names /\
    ints_meta_args parse_func input_dir order name_parser im_names = Ok acc /\
    mp_sample_im_pixels (snd acc) num_workers fs = (Ok im_ints_list, fs1) /\
    ints_meta = List.concat im_ints_list /\
    fs'
    = Fs.write (Fs.join input_dir "ints_meta.csv") (Fs.IntsMeta ints_meta) fs1.
Proof.
  unfold ints_meta_generator, mbind, lift, ret, Fs.to_csv.
  destruct (import_object _ _ _) as [parse_func | e]; [| discriminate].
  destruct (get_sorted_names input_dir fs) as [im_names | e]; [| discriminate].
  destruct (ints_meta_args _ _ _ _ _) as [acc | e] eqn:Ea; [| discriminate].
  destruct (mp_sample_im_pixels (snd acc) num_workers fs)
    as [[im_ints_list | e] fs1] eqn:Ep; [| discriminate].
  destruct (Fs.open_for_writing _ fs1) as [[] | e]; [| discriminate].
  intros H. exists parse_func, im_names, acc, im_ints_list, fs1.
  split; [reflexivity |]. split; [reflexivity |]. split; [exact Ea |].
  split; [exact Ep |]. split; congruence.
Qed.

(** X23.  A call of [ints_meta_generator] that returns has given the pool
    one job for each image name of the directory, in their order, with
    the path of the image in the input directory, the block size 256 and
    a row whose [dir_name] is the input directory.  It returns the rows
    of the pool, job after job, and this is the table that
    [ints_meta.csv] of the input directory holds; it writes no other
    path. *)
Theorem ints_meta_generator_table (input_dir order name_parser : string)
  (num_workers : Z) (fs fs' : Fs.t) (ints_meta : list Ints.t) :
  ints_meta_generator import_object get_sorted_names mp_sample_im_pixels
    input_dir order name_parser num_workers fs = (Ok ints_meta, fs') ->
  exists im_names mp_block_args im_ints_list fs1,
    get_sorted_names input_dir fs = Ok im_names /\
    Forall2
      (fun im_name (a : BlockArgs) =>
         exists row,
           a = (Fs.join input_dir im_name, 256, row) /\
           Frame.dir_name row = input_dir)
      im_names mp_block_args /\
    mp_sample_im_pixels mp_block_args num_workers fs
    = (Ok im_ints_list, fs1) /\
    ints_meta = List.concat im_ints_list /\
    Fs.lookup (Fs.join input_dir "ints_meta.csv") fs'
    = Some (Fs.IntsMeta ints_meta) /\
    forall p,
      p <> Fs.join input_dir "ints_meta.csv" ->
      Fs.lookup p fs' = Fs.lookup p fs1.
Proof.
  intros Hrun.
  apply ints_meta_generator_run in Hrun
    as (parse_func & im_names & acc & im_ints_list & fs1 & _ & Hn & Ha & Hp
        & Hm & ->).
  exists im_names, (snd acc), im_ints_list, fs1.
  split; [exact Hn |]. split; [eapply ints_meta_args_ok; exact Ha |].
  split; [exact Hp |]. split; [exact Hm |]. split; [apply lookup_write |].
  intros p Hne. now apply lookup_write_other.
Qed.

(** X24.  The table that [ints_meta_generator] writes is not the table
    that [MaskProcessor] reads.  After a call of [ints_meta_generator]
    that returns, on a directory that had no [intensity_meta.csv] and
    with a pool that does not write, the constructor of [MaskProcessor]
    with the policy [dataset otsu] on the same input directory raises,
    whatever its other arguments. *)
Theorem ints_meta_is_not_read_by_mask_processor
  (validate_metadata_indices :
     list Frame.t -> ids -> ids -> ids -> ids -> bool ->
     result (MetadataIds * IndexTree))
  (get_sub_meta :
     list Frame.t -> list Z -> list Z -> list Z -> list Z -> list Frame.t)
  (threshold_otsu : list Q -> result Q) (interned : bool)
  (order name_parser : string) (num_workers : Z) (fs fs' : Fs.t)
  (ints_meta : list Ints.t) (args : MaskArgs.t) :
  (forall a w fs0, snd (mp_sample_im_pixels a w fs0) = fs0) ->
  Fs.lookup (Fs.join (MaskArgs.input_dir args) "intensity_meta.csv") fs = None ->
  ints_meta_generator import_object get_sorted_names mp_sample_im_pixels
    (MaskArgs.input_dir args) order name_parser num_workers fs
  = (Ok ints_meta, fs') ->
  MaskArgs.mask_type args = "dataset otsu" ->
  exists e fs'',
    MaskProcessor__init__ validate_metadata_indices get_sub_meta threshold_otsu
      interned args fs' = (Raise e, fs'').
Proof.
  intros Hpool Hnone Hrun Htype.
  apply ints_meta_generator_run in Hrun
    as (parse_func & im_names & acc & im_ints_list & fs1 & _ & _ & _ & Hp
        & _ & ->).
  assert (fs1 = fs) as ->.
  { rewrite <- (Hpool (snd acc) num_workers fs), Hp. reflexivity. }
  set (fs' := Fs.write _ _ fs).
  assert (Hl : Fs.lookup (Fs.join (MaskArgs.input_dir args)
                            "intensity_meta.csv") fs' = None).
  { unfold fs'. rewrite lookup_write_other; [assumption |].
    apply ints_meta_paths_differ. }
  rewrite MaskProcessor__init__after_setup.
  destruct (MaskProcessor_setup validate_metadata_indices get_sub_meta interned
              args fs') as [[self | e] fs2] eqn:Hs; [| eauto].
  rewrite Htype. simpl mask_type_supported. cbv iota.
  simpl String.eqb. cbv iota.
  apply MaskProcessor_setup_ok in Hs as (_ & _ & Hm).
  assert (Hl2 : forall rows,
             Fs.lookup (Fs.join (MaskArgs.input_dir args)
                          "intensity_meta.csv") fs2
             <> Some (Fs.IntsMeta rows)).
  { intros rows. revert Hm. unfold Fs.makedirs.
    destruct (Fs.lookup (mp_mask_dir self) fs') as [[] |] eqn:El;
      try discriminate; intros [= <-]; [congruence |].
    destruct (String.eqb_spec (mp_mask_dir self)
                (Fs.join (MaskArgs.input_dir args) "intensity_meta.csv"))
      as [<- | Hne].
    - rewrite lookup_write. discriminate.
    - rewrite lookup_write_other by congruence. congruence. }
  unfold dataset_thresholds, mbind, read_ints_meta.
  destruct (Fs.lookup (Fs.join (MaskArgs.input_dir args)
                         "intensity_meta.csv") fs2) as [[] |] eqn:El2;
    try (simpl; eauto; fail).
  exfalso. exact (Hl2 _ eq_refl).
Qed.

End IntsMetaFacts.

Lemma ints_meta_generator_table_witness :
  exists im_names mp_block_args im_ints_list fs1,
    DemoInts.get_sorted_names "in" DemoInit.fresh = Ok im_names /\
    Forall2
      (fun im_name (a : BlockArgs) =>
         exists row,
           a = (Fs.join "in" im_name, 256, row) /\ Frame.dir_name row = "in")
      im_names mp_block_args /\
    DemoInts.pool mp_block_args 4 DemoInit.fresh = (Ok im_ints_list, fs1) /\
    List.concat (map DemoInts.sample
                   [("in/im_c0_z0_t0_p0.png", 256,
                     Frame.mk "in" 0 0 0 0 "im_c0_z0_t0_p0.png" None None None);
                    ("in/im_c1_z0_t0_p0.png", 256,
                     Frame.mk "in" 0 1 0 0 "im_c1_z0_t0_p0.png" None None None)])
    = List.concat im_ints_list /\
    Fs.lookup (Fs.join "in" "ints_meta.csv") (snd DemoInts.run)
    = Some
        (Fs.IntsMeta
           (List.concat
              (map DemoInts.sample
                 [("in/im_c0_z0_t0_p0.png", 256,
                   Frame.mk "in" 0 0 0 0 "im_c0_z0_t0_p0.png" None None None);
                  ("in/im_c1_z0_t0_p0.png", 256,
                   Frame.mk "in" 0 1 0 0 "im_c1_z0_t0_p0.png" None None
                     None)]))) /\
    forall p,
      p <> Fs.join "in" "ints_meta.csv" ->
      Fs.lookup p (snd DemoInts.run) = Fs.lookup p fs1.
Proof.
  apply (ints_meta_generator_table DemoInts.import_object
           DemoInts.get_sorted_names DemoInts.pool "in" "cztp"
           "parse_idx_from_name" 4 DemoInit.fresh (snd DemoInts.run)).
  vm_compute. reflexivity.
Defined.

Lemma ints_meta_is_not_read_by_mask_processor_witness :
  exists e fs'',
    MaskProcessor__init__ DemoInit.validate DemoMask.get_sub_meta
      DemoMask.threshold true (DemoMask.args "dataset otsu")
      (snd DemoInts.run) = (Raise e, fs'').
Proof.
  apply (ints_meta_is_not_read_by_mask_processor DemoInts.import_object
           DemoInts.get_sorted_names DemoInts.pool DemoInit.validate
           DemoMask.get_sub_meta DemoMask.threshold true "cztp"
           "parse_idx_from_name" 4 DemoInit.fresh (snd DemoInts.run)
           (List.concat
              (map DemoInts.sample
                 [("in/im_c0_z0_t0_p0.png", 256,
                   Frame.mk "in" 0 0 0 0 "im_c0_z0_t0_p0.png" None None None);
                  ("in/im_c1_z0_t0_p0.png", 256,
                   Frame.mk "in" 0 1 0 0 "im_c1_z0_t0_p0.png" None None
                     None)]))
           (DemoMask.args "dataset otsu")).
  - reflexivity.
  - reflexivity.
  - vm_compute. reflexivity.
  - reflexivity.
Defined.

(* ================================================================== *)
(** ** The metrics of a prediction *)
(* ================================================================== *)

Section MetricsRows.
Import Metrics.

Lemma row_get_set_same (r : row) (k : string) (v : cell) :
  row_get k (row_set r k v) = Some v.
Proof.
  induction r as [| [k' v'] r IH]; simpl.
  - now rewrite String.eqb_refl.
  - destruct (String.eqb k' k) eqn:E; simpl; now rewrite E.
Qed.

Lemma row_get_set_other (r : row) (k k' : string) (v : cell) :
  k' <> k -> row_get k' (row_set r k v) = row_get k' r.
Proof.
  intros Hne. induction r as [| [k0 v0] r IH]; simpl.
  - destruct (String.eqb_spec k k'); [congruence | reflexivity].
  - destruct (String.eqb_spec k0 k) as [-> | Hk]; simpl.
    + destruct (String.eqb_spec k k'); [congruence | reflexivity].
    + destruct (String.eqb_spec k0 k'); [reflexivity | assumption].
Qed.

Lemma keys_row_set_in (r : row) (k : string) (v : cell) :
  In k (map fst r) -> map fst (row_set r k v) = map fst r.
Proof.
  induction r as [| [k' v'] r IH]; simpl; [intros [] |].
  destruct (String.eqb_spec k' k) as [-> | Hne]; simpl; [reflexivity |].
  intros [H | H]; [contradiction | now rewrite IH].
Qed.

Lemma keys_row_set_new (r : row) (k : string) (v : cell) :
  ~ In k (map fst r) -> map fst (row_set r k v) = map fst r ++ [k].
Proof.
  induction r as [| [k' v'] r IH]; simpl; [reflexivity |].
  intros Hn. destruct (String.eqb_spec k' k) as [-> | Hne]; simpl.
  - exfalso. auto.
  - rewrite IH; [reflexivity |]. auto.
Qed.

Lemma keys_fold_row_set (ks : list string) (r : row) :
  NoDup (map fst r) ->
  NoDup (map fst (fold_left (fun r k => row_set r k CNone) ks r)) /\
  forall k,
    In k (map fst (fold_left (fun r k => row_set r k CNone) ks r)) <->
    In k (map fst r) \/ In k ks.
Proof.
  revert r. induction ks as [| k0 ks IH]; intros r Hnd; simpl.
  - split; [assumption | tauto].
  - destruct (in_dec string_dec k0 (map fst r)) as [Hin | Hnin].
    + destruct (IH (row_set r k0 CNone)) as (H1 & H2).
      { now rewrite keys_row_set_in. }
      split; [assumption |]. intros k. rewrite H2, keys_row_set_in by assumption.
      split; [tauto |]. intros [H | [<- | H]]; auto.
    + destruct (IH (row_set r k0 CNone)) as (H1 & H2).
      { rewrite keys_row_set_new by assumption.
        apply NoDup_app; [assumption | repeat constructor; auto |].
        intros x Hx [<- | []]. contradiction. }
      split; [assumption |]. intros k.
      rewrite H2, keys_row_set_new, in_app_iff by assumption. simpl. tauto.
Qed.

(** The keys of [dict.fromkeys(keys)] are the keys, each once. *)
Lemma keys_fromkeys (ks : list string) :
  NoDup (map fst (fromkeys ks)) /\
  forall k, In k (map fst (fromkeys ks)) <-> In k ks.
Proof.
  destruct (keys_fold_row_set ks [] (NoDup_nil _)) as (H1 & H2).
  split; [exact H1 |]. intros k. rewrite (H2 k). simpl. tauto.
Qed.

Lemma fold_left_masked_names (ml init : list string) :
  fold_left (fun names m => names ++ [(m ++ "_masked")%string]) ml init
  = init ++ map (fun m => (m ++ "_masked")%string) ml.
Proof.
  revert init. induction ml as [| m ml IH]; intros init; simpl.
  - now rewrite app_nil_r.
  - rewrite IH, <- app_assoc. reflexivity.
Qed.

(** The object that the constructor returns. *)
Lemma MetricsEstimator__init__ok (ml : list string) (masked : bool)
  (self : MetricsEstimator) :
  MetricsEstimator__init__ ml masked = Ok self ->
  Forall (fun m => In m available_metrics) ml /\
  metrics_list self = ml /\
  masked_metrics self = masked /\
  pd_col_names self
  = ml
    ++ (if masked then
          "vol_frac" :: map (fun m => (m ++ "_masked")%string) ml
        else [])
    ++ ["pred_name"] /\
  metrics_xyz self = None /\ metrics_xy self = None /\
  metrics_xz self = None /\ metrics_yz self = None.
Proof.
  unfold MetricsEstimator__init__.
  destruct (forallb _ ml) eqn:Ef; [| discriminate].
  intros H. assert (Hs : self = _) by (symmetry; injection H as H; exact H).
  clear H. rewrite Hs. cbn [metrics_list masked_metrics pd_col_names
                              metrics_xyz metrics_xy metrics_xz metrics_yz].
  split.
  - rewrite forallb_forall in Ef. apply Forall_forall. intros m Hm.
    apply Ef in Hm. apply existsb_exists in Hm as (a & Ha & Heq).
    apply String.eqb_eq in Heq. now subst.
  - repeat (split; [reflexivity |]). split; [| repeat split].
    destruct masked.
    + rewrite fold_left_masked_names, <- !app_assoc. reflexivity.
    + reflexivity.
Qed.

(** The names that the loop of [compute_metrics_row] writes are not
    [pred_name], and a masked name is no metric. *)
Lemma available_names (m : string) :
  In m available_metrics ->
  m <> "pred_name" /\ m <> "vol_frac" /\
  (m ++ "_masked")%string <> "pred_name" /\
  (m ++ "_masked")%string <> "vol_frac" /\
  (forall m', In m' available_metrics -> (m ++ "_masked")%string <> m') /\
  exists f, fn_mapping (m ++ "_metric") = Ok f.
Proof.
  unfold available_metrics. simpl.
  intros [<- | [<- | [<- | [<- | [<- | []]]]]];
    (repeat (split; [discriminate |]));
    (split;
     [intros m' [<- | [<- | [<- | [<- | [<- | []]]]]]; discriminate
     | vm_compute; eauto]).
Qed.

End MetricsRows.

Section EstimatorFacts.
Import Metrics.

Variable Arr : Type.
Variable shape : Arr -> list Z.
Variable dtype : Arr -> string.
Variable base_metric : metric -> Arr -> Arr -> Px.result Q.
Variable ssim : Arr -> Arr -> Px.result Q.
Variable ssim_full : Arr -> Arr -> Px.result (Q * Arr).
Variable index_by : Arr -> option Arr -> Px.result Arr.
Variable np_mean : Arr -> Px.result Q.
Variable np_mean_mask : option Arr -> Px.result Q.
Variable str_shape : list Z -> string.

Lemma masked_name_inj (m m' : string) :
  In m available_metrics -> In m' available_metrics ->
  (m ++ "_masked")%string = (m' ++ "_masked")%string -> m = m'.
Proof.
  unfold available_metrics. simpl.
  intros [<- | [<- | [<- | [<- | [<- | []]]]]]
         [<- | [<- | [<- | [<- | [<- | []]]]]]; simpl; congruence.
Qed.

Lemma built_fields (ml : list string) (masked : bool)
  (self : MetricsEstimator) :
  built ml masked self ->
  Forall (fun m => In m available_metrics) ml /\
  metrics_list self = ml /\
  masked_metrics self = masked /\
  pd_col_names self
  = ml
    ++ (if masked then
          "vol_frac" :: map (fun m => (m ++ "_masked")%string) ml
        else [])
    ++ ["pred_name"].
Proof.
  intros (self0 & Hinit & Hml & Hcols & Hmasked).
  apply MetricsEstimator__init__ok in Hinit as (Hav & H1 & H2 & H3 & _).
  rewrite Hml, Hmasked, Hcols. auto.
Qed.

(** The row of [compute_metrics_row] on an object of the constructor. *)
Lemma compute_metrics_row_ok (ml : list string) (masked : bool)
  (self : MetricsEstimator) (target prediction : Arr) (pred_name : string)
  (mask : option Arr) (metrics_row : row) :
  Forall (fun m => In m available_metrics) ml ->
  metrics_list self = ml ->
  masked_metrics self = masked ->
  pd_col_names self
  = ml
    ++ (if masked then
          "vol_frac" :: map (fun m => (m ++ "_masked")%string) ml
        else [])
    ++ ["pred_name"] ->
  compute_metrics_row Arr base_metric ssim ssim_full index_by np_mean
    np_mean_mask self target prediction pred_name mask = Px.Ok metrics_row ->
  NoDup (map fst metrics_row) /\
  (forall k, In k (map fst metrics_row) <-> In k (pd_col_names self)) /\
  row_get "pred_name" metrics_row = Some (CName pred_name) /\
  (forall m, In m ml -> exists v, row_get m metrics_row = Some (CNum v)) /\
  (masked = true ->
   forall m,
     In m ml ->
     (exists v, row_get (m ++ "_masked") metrics_row = Some (CNum v)) /\
     exists v, row_get "vol_frac" metrics_row = Some (CNum v)).
Proof.
  intros Hav Hml Hmasked Hcols Hrun.
  destruct (keys_fromkeys (pd_col_names self)) as (Hnd & Hkeys).
  unfold compute_metrics_row in Hrun. cbv zeta in Hrun.
  rewrite Hml, Hmasked in Hrun.
  set (row0 := row_set (fromkeys (pd_col_names self)) "pred_name"
                 (CName pred_name)) in Hrun.
  assert (Hpred : In "pred_name" (pd_col_names self)).
  { rewrite Hcols, !in_app_iff. right. right. now left. }
  assert (Hk0 : map fst row0 = map fst (fromkeys (pd_col_names self))).
  { apply keys_row_set_in. now apply Hkeys. }
  assert (Hin_m : forall m, In m ml -> In m (map fst row0)).
  { intros m Hm. rewrite Hk0. apply Hkeys. rewrite Hcols, in_app_iff. auto. }
  assert (Hin_masked : masked = true -> forall m, In m ml ->
             In (m ++ "_masked")%string (map fst row0) /\
             In "vol_frac" (map fst row0)).
  { intros -> m Hm. rewrite Hk0. split; apply Hkeys; rewrite Hcols.
    - rewrite !in_app_iff. right. left. right.
      apply in_map_iff. exists m. auto.
    - rewrite !in_app_iff. right. left. now left. }
  rewrite Forall_forall in Hav.
  assert (Hinv :
            map fst metrics_row = map fst row0 /\
            row_get "pred_name" metrics_row = Some (CName pred_name) /\
            (forall m, In m ([] ++ ml) -> In m available_metrics) /\
            (forall m, In m ([] ++ ml) ->
                       exists v, row_get m metrics_row = Some (CNum v)) /\
            (masked = true ->
             forall m, In m ([] ++ ml) ->
               (exists v,
                   row_get (m ++ "_masked") metrics_row = Some (CNum v)) /\
               exists v, row_get "vol_frac" metrics_row = Some (CNum v))).
  { revert Hrun.
    apply (px_for_each_invariant
             (fun (done : list string) (r : row) =>
                map fst r = map fst row0 /\
                row_get "pred_name" r = Some (CName pred_name) /\
                (forall m, In m done -> In m available_metrics) /\
                (forall m, In m done -> exists v, row_get m r = Some (CNum v)) /\
                (masked = true ->
                 forall m, In m done ->
                   (exists v, row_get (m ++ "_masked") r = Some (CNum v)) /\
                   exists v, row_get "vol_frac" r = Some (CNum v)))).
    - intros m done r1 r2 Hm (Hk & Hp & Hda & Hd & Hdm) Hbody.
      destruct (available_names m (Hav m Hm))
        as (Hn1 & Hn2 & Hn3 & Hn4 & Hn5 & _).
      assert (Hda' : forall m', In m' (done ++ [m]) -> In m' available_metrics).
      { intros m' Hm'. apply in_app_iff in Hm' as [Hm' | [<- | []]]; auto. }
      apply px_bind_ok in Hbody as (f & _ & Hbody).
      destruct masked.
      + destruct (Hin_masked eq_refl m Hm) as (Hkm & Hkv).
        apply px_bind_ok in Hbody as (out & _ & Hbody).
        apply px_bind_ok in Hbody as (vf & _ & Hbody).
        apply px_bind_ok in Hbody as (v & _ & Hbody).
        apply px_bind_ok in Hbody as (vm & _ & Hbody).
        assert (Hr2 : r2 = row_set
                            (row_set (row_set r1 "vol_frac" (CNum vf)) m
                               (CNum v))
                            (m ++ "_masked") (CNum vm)) by congruence.
        clear Hbody. subst r2.
        assert (Hk1 : map fst (row_set r1 "vol_frac" (CNum vf)) = map fst row0).
        { rewrite keys_row_set_in; [assumption | now rewrite Hk]. }
        assert (Hk2 : map fst (row_set (row_set r1 "vol_frac" (CNum vf)) m
                                 (CNum v)) = map fst row0).
        { rewrite keys_row_set_in; [assumption |]. rewrite Hk1. auto. }
        split; [| split; [| split; [| split]]].
        * rewrite keys_row_set_in; [assumption | now rewrite Hk2].
        * rewrite !row_get_set_other by congruence. assumption.
        * exact Hda'.
        * intros m' Hm'.
          destruct (available_names m' (Hda' m' Hm')) as (_ & Hv' & _).
          rewrite row_get_set_other
            by (intros ->; exact (Hn5 _ (Hda' _ Hm') eq_refl)).
          destruct (string_dec m' m) as [-> | Hne].
          -- rewrite row_get_set_same. eauto.
          -- rewrite !row_get_set_other by congruence.
             apply in_app_iff in Hm' as [Hm' | [<- | []]]; [auto | congruence].
        * intros _ m' Hm'.
          destruct (available_names m' (Hda' m' Hm'))
            as (_ & _ & _ & Hv' & Hm5 & _).
          split.
          -- destruct (string_dec m' m) as [-> | Hne].
             ++ rewrite row_get_set_same. eauto.
             ++ rewrite !row_get_set_other;
                  [| congruence
                   | intros E; exact (Hm5 m (Hav m Hm) E)
                   | intros E; apply Hne;
                     exact (masked_name_inj _ _ (Hda' _ Hm') (Hav _ Hm) E)].
                apply in_app_iff in Hm' as [Hm' | [<- | []]];
                  [| congruence].
                now apply (Hdm eq_refl m').
          -- rewrite !row_get_set_other by congruence.
             rewrite row_get_set_same. eauto.
      + apply px_bind_ok in Hbody as (v & _ & Hbody).
        assert (Hr2 : r2 = row_set r1 m (CNum v)) by congruence.
        clear Hbody. subst r2.
        split; [| split; [| split; [| split]]].
        * rewrite keys_row_set_in; [assumption |]. rewrite Hk. auto.
        * rewrite row_get_set_other by congruence. assumption.
        * exact Hda'.
        * intros m' Hm'. destruct (string_dec m' m) as [-> | Hne].
          -- rewrite row_get_set_same. eauto.
          -- rewrite row_get_set_other by congruence.
             apply in_app_iff in Hm' as [Hm' | [<- | []]]; [auto | congruence].
        * discriminate.
    - split; [reflexivity |]. split; [apply row_get_set_same |].
      split; [intros ? [] |]. split; [intros ? [] |]. intros _ ? []. }
  destruct Hinv as (Hk & Hp & _ & Hd & Hdm). simpl in Hd, Hdm.
  split; [rewrite Hk, Hk0; assumption |].
  split; [intros k; rewrite Hk, Hk0; apply Hkeys |].
  split; [assumption |]. split; assumption.
Qed.

(** X25.  On an object that the constructor has returned, the row that
    [compute_metrics_row] returns has the columns of the object for its
    keys, each once and no other: every name that the loop writes is a
    column already.  The row has the name of the prediction under
    [pred_name], a number under every metric, and with masked metrics a
    number under every masked name and under [vol_frac]. *)
Theorem metrics_row_has_the_columns (ml : list string) (masked : bool)
  (self : MetricsEstimator) (target prediction : Arr) (pred_name : string)
  (mask : option Arr) (metrics_row : row) :
  built ml masked self ->
  compute_metrics_row Arr base_metric ssim ssim_full index_by np_mean
    np_mean_mask self target prediction pred_name mask = Px.Ok metrics_row ->
  NoDup (map fst metrics_row) /\
  (forall k, In k (map fst metrics_row) <-> In k (pd_col_names self)) /\
  row_get "pred_name" metrics_row = Some (CName pred_name) /\
  (forall m, In m ml -> exists v, row_get m metrics_row = Some (CNum v)) /\
  (masked = true ->
   forall m,
     In m ml ->
     (exists v, row_get (m ++ "_masked") metrics_row = Some (CNum v)) /\
     exists v, row_get "vol_frac" metrics_row = Some (CNum v)).
Proof.
  intros Hb Hrun.
  destruct (built_fields ml masked self Hb) as (Hav & Hml & Hmasked & Hcols).
  exact (compute_metrics_row_ok ml masked self target prediction pred_name
           mask metrics_row Hav Hml Hmasked Hcols Hrun).
Qed.


Variable slice_xy : Arr -> Z -> Arr.
Variable slice_xz : Arr -> Z -> Arr.
Variable slice_yz : Arr -> Z -> Arr.

(** A row whose keys are columns adds no column. *)
Lemma append_aligned (df : Table) (r : row) :
  (forall k, In k (map fst r) -> In k (columns df)) ->
  append df r = {| columns := columns df; rows := rows df ++ [r] |}.
Proof.
  intros Hkeys. unfold append. f_equal.
  replace (filter _ (map fst r)) with (@nil string);
    [apply app_nil_r |].
  symmetry. induction (map fst r) as [| k ks IH]; [reflexivity |].
  simpl.
  assert (Hk : existsb (String.eqb k) (columns df) = true).
  { apply existsb_exists. exists k. split; [| apply String.eqb_refl].
    apply Hkeys. now left. }
  rewrite Hk. simpl. apply IH. intros k' Hk'. apply Hkeys. now right.
Qed.

(** The loop over the slices: when it ends, with or without an
    exception, the table has got a row for each of the first slices. *)
Lemma slice_rows_run (slicer : Arr -> Z -> Arr) (infix : string)
  (get : MetricsEstimator -> option Table)
  (set : option Table -> MetricsEstimator -> MetricsEstimator)
  (target prediction : Arr) (pred_name : string) (mask : option Arr)
  (ml : list string) (masked : bool) :
  (forall x s, get (set x s) = x) ->
  (forall x s,
      metrics_list (set x s) = metrics_list s /\
      pd_col_names (set x s) = pd_col_names s /\
      masked_metrics (set x s) = masked_metrics s) ->
  forall (slices : list Z) (self self' : MetricsEstimator)
         (res : Px.result unit) (cols : list string) (rows0 : list row),
    built ml masked self ->
    get self = Some {| columns := cols; rows := rows0 |} ->
    cols = pd_col_names self ->
    slice_rows Arr base_metric ssim ssim_full index_by np_mean np_mean_mask
      slicer infix get set target prediction pred_name mask slices self
    = (res, self') ->
    exists k rows',
      (k <= List.length slices)%nat /\
      get self' = Some {| columns := cols; rows := rows0 ++ rows' |} /\
      map (row_get "pred_name") rows'
      = map (fun i => Some (CName (pred_name ++ infix ++ py_str i)%string))
          (firstn k slices) /\
      (res = Px.Ok tt -> k = List.length slices) /\
      (forall e, res = Px.Raise e -> (k < List.length slices)%nat) /\
      built ml masked self' /\
      forall (F : Type) (f : MetricsEstimator -> F),
        (forall x s, f (set x s) = f s) -> f self' = f self.
Proof.
  intros Hgs Hfields.
  induction slices as [| i rest IH]; intros self self' res cols rows0 Hb Hget Hc
    Hrun.
  - simpl in Hrun. injection Hrun as <- <-. exists 0%nat, [].
    rewrite app_nil_r. simpl.
    repeat split; try (intros; simpl; lia); try discriminate; auto.
  - cbn [slice_rows] in Hrun. unfold Px.mbind, Px.get, Px.lift in Hrun.
    destruct (compute_metrics_row Arr base_metric ssim ssim_full index_by
                np_mean np_mean_mask self (slicer target i)
                (slicer prediction i) (pred_name ++ infix ++ py_str i)
                (option_map (fun m => slicer m i) mask))
      as [r | e] eqn:Er.
    + rewrite Hget in Hrun. unfold append_to, Px.modify in Hrun.
      destruct (built_fields ml masked self Hb) as (Hav & Hml & Hmk & Hcols).
      destruct (compute_metrics_row_ok ml masked self _ _ _ _ r Hav Hml Hmk
                  Hcols Er)
        as (_ & Hkeys & Hname & _).
      rewrite append_aligned in Hrun
        by (simpl; intros k Hk; rewrite Hc; now apply Hkeys).
      simpl columns in Hrun. simpl rows in Hrun.
      set (self1 := set (Some {| columns := cols; rows := rows0 ++ [r] |}) self)
        in Hrun.
      destruct (Hfields (Some {| columns := cols; rows := rows0 ++ [r] |}) self)
        as (Hf1 & Hf2 & Hf3).
      assert (Hb1 : built ml masked self1).
      { destruct Hb as (self0 & Hi & H1 & H2 & H3). exists self0.
        unfold self1. rewrite Hf1, Hf2, Hf3. auto. }
      destruct (IH self1 self' res cols (rows0 ++ [r]) Hb1)
        as (k & rows' & Hk & Hget' & Hnames & Hok & Hraise & Hb' & Hframe).
      { unfold self1. apply Hgs. }
      { unfold self1. now rewrite Hf2. }
      { exact Hrun. }
      exists (S k), (r :: rows'). simpl.
      split; [lia |]. split; [now rewrite <- app_assoc in Hget' |].
      split; [now rewrite Hname, Hnames |].
      split; [intros H; now rewrite (Hok H) |].
      split; [intros e H; specialize (Hraise e H); lia |].
      split; [assumption |].
      intros F f Hf. rewrite (Hframe F f Hf). unfold self1. apply Hf.
    + injection Hrun as <- <-. exists 0%nat, []. rewrite app_nil_r. simpl.
      repeat split; try (intros; simpl; lia); try discriminate; auto.
Qed.

(** The three functions that go slice by slice. *)
Lemma estimate_slices_run (axis : nat) (msg : list Z -> string)
  (slicer : Arr -> Z -> Arr) (infix : string)
  (get : MetricsEstimator -> option Table)
  (set : option Table -> MetricsEstimator -> MetricsEstimator)
  (target prediction : Arr) (pred_name : string) (mask : option Arr)
  (ml : list string) (masked : bool) (self self' : MetricsEstimator)
  (res : Px.result unit) :
  (forall x s, get (set x s) = x) ->
  (forall x s,
      metrics_list (set x s) = metrics_list s /\
      pd_col_names (set x s) = pd_col_names s /\
      masked_metrics (set x s) = masked_metrics s) ->
  (axis < 3)%nat ->
  built ml masked self ->
  estimate_slices Arr shape dtype base_metric ssim ssim_full index_by np_mean
    np_mean_mask str_shape axis msg slicer infix get set target prediction
    pred_name mask self = (res, self') ->
  (res = Px.Ok tt \/
   (assert_input Arr shape dtype str_shape target prediction pred_name mask
    = Ok tt /\ List.length (shape target) = 3%nat)) ->
  exists n k,
    nth_error (shape target) axis = Some n /\
    (k <= List.length (range n))%nat /\
    table_of_slices (pd_col_names self) pred_name infix (firstn k (range n))
      (get self') /\
    (res = Px.Ok tt -> k = List.length (range n)) /\
    (forall e, res = Px.Raise e -> (k < List.length (range n))%nat) /\
    built ml masked self' /\
    forall (F : Type) (f : MetricsEstimator -> F),
      (forall x s, f (set x s) = f s) -> f self' = f self.
Proof.
  intros Hgs Hfields Haxis Hb Hrun Hpre.
  unfold estimate_slices, Px.mbind, Px.lift, Px.modify in Hrun.
  destruct (assert_input Arr shape dtype str_shape target prediction pred_name
              mask) as [[] | e] eqn:Ea; simpl in Hrun.
  2:{ injection Hrun as <- <-. destruct Hpre as [H | [H _]]; discriminate. }
  destruct (Z.of_nat (List.length (shape target)) =? 3) eqn:E3.
  2:{ injection Hrun as <- <-. destruct Hpre as [H | [_ H]]; [discriminate |].
      rewrite H in E3. discriminate. }
  apply Z.eqb_eq in E3.
  destruct (nth_error (shape target) axis) as [n |] eqn:En.
  2:{ apply nth_error_None in En. lia. }
  set (self1 := set (Some (DataFrame (pd_col_names self))) self) in Hrun.
  destruct (Hfields (Some (DataFrame (pd_col_names self))) self)
    as (Hf1 & Hf2 & Hf3).
  assert (Hb1 : built ml masked self1).
  { destruct Hb as (self0 & Hi & H1 & H2 & H3). exists self0.
    unfold self1. rewrite Hf1, Hf2, Hf3. auto. }
  destruct (slice_rows_run slicer infix get set target prediction pred_name
              mask ml masked Hgs Hfields (range n) self1 self' res
              (pd_col_names self) [] Hb1)
    as (k & rows' & Hk & Hget' & Hnames & Hok & Hraise & Hb' & Hframe).
  { unfold self1. rewrite Hgs. reflexivity. }
  { unfold self1. now rewrite Hf2. }
  { exact Hrun. }
  exists n, k. split; [reflexivity |]. split; [assumption |].
  split; [exists rows'; split; assumption |].
  split; [assumption |]. split; [assumption |]. split; [assumption |].
  intros F f Hf. rewrite (Hframe F f Hf). unfold self1. apply Hf.
Qed.

(** X26.  On an object that the constructor has returned, a call of
    [estimate_xy_metrics], [estimate_xz_metrics] or [estimate_yz_metrics]
    that returns leaves a table of its own: the columns of the object,
    and one row for each index along the last, the first or the second
    axis of the target, in ascending order, named after the prediction
    and the index ([pred_xy0], [pred_xy1], ...).  The rows of an earlier
    call are not kept, and the tables of the other orientations are as
    they were. *)
Theorem slice_tables_name_every_slice (ml : list string) (masked : bool)
  (self : MetricsEstimator) (target prediction : Arr) (pred_name : string)
  (mask : option Arr) :
  built ml masked self ->
  (forall self',
      estimate_xy_metrics Arr shape dtype base_metric ssim ssim_full index_by
        np_mean np_mean_mask slice_xy str_shape target prediction pred_name
        mask self = (Px.Ok tt, self') ->
      exists n,
        nth_error (shape target) 2 = Some n /\
        table_of_slices (pd_col_names self) pred_name "_xy" (range n)
          (metrics_xy self') /\
        metrics_xz self' = metrics_xz self /\
        metrics_yz self' = metrics_yz self /\
        metrics_xyz self' = metrics_xyz self) /\
  (forall self',
      estimate_xz_metrics Arr shape dtype base_metric ssim ssim_full index_by
        np_mean np_mean_mask slice_xz str_shape target prediction pred_name
        mask self = (Px.Ok tt, self') ->
      exists n,
        nth_error (shape target) 0 = Some n /\
        table_of_slices (pd_col_names self) pred_name "_xz" (range n)
          (metrics_xz self') /\
        metrics_xy self' = metrics_xy self /\
        metrics_yz self' = metrics_yz self /\
        metrics_xyz self' = metrics_xyz self) /\
  (forall self',
      estimate_yz_metrics Arr shape dtype base_metric ssim ssim_full index_by
        np_mean np_mean_mask slice_yz str_shape target prediction pred_name
        mask self = (Px.Ok tt, self') ->
      exists n,
        nth_error (shape target) 1 = Some n /\
        table_of_slices (pd_col_names self) pred_name "_yz" (range n)
          (metrics_yz self') /\
        metrics_xy self' = metrics_xy self /\
        metrics_xz self' = metrics_xz self /\
        metrics_xyz self' = metrics_xyz self).
Proof.
  intros Hb. split; [| split]; intros self' Hrun.
  - destruct (estimate_slices_run 2
                (fun s =>
                   ("Dataset is assumed to be 3D but target image has shape "
                    ++ str_shape s)%string)
                slice_xy "_xy" metrics_xy set_metrics_xy
                target prediction pred_name mask ml masked self self'
                (Px.Ok tt) (fun _ _ => eq_refl)
                (fun _ _ => conj eq_refl (conj eq_refl eq_refl)) ltac:(lia) Hb
                Hrun (or_introl eq_refl))
      as (n & k & Hn & _ & Ht & Hk & _ & _ & Hframe).
    exists n. rewrite (Hk eq_refl), firstn_all in Ht.
    split; [assumption |]. split; [assumption |].
    repeat split; apply Hframe; reflexivity.
  - destruct (estimate_slices_run 0 (fun _ => "Dataset is assumed to be 3D")
                slice_xz "_xz" metrics_xz set_metrics_xz
                target prediction pred_name mask ml masked self self'
                (Px.Ok tt) (fun _ _ => eq_refl)
                (fun _ _ => conj eq_refl (conj eq_refl eq_refl)) ltac:(lia) Hb
                Hrun (or_introl eq_refl))
      as (n & k & Hn & _ & Ht & Hk & _ & _ & Hframe).
    exists n. rewrite (Hk eq_refl), firstn_all in Ht.
    split; [assumption |]. split; [assumption |].
    repeat split; apply Hframe; reflexivity.
  - destruct (estimate_slices_run 1 (fun _ => "Dataset is assumed to be 3D")
                slice_yz "_yz" metrics_yz set_metrics_yz
                target prediction pred_name mask ml masked self self'
                (Px.Ok tt) (fun _ _ => eq_refl)
                (fun _ _ => conj eq_refl (conj eq_refl eq_refl)) ltac:(lia) Hb
                Hrun (or_introl eq_refl))
      as (n & k & Hn & _ & Ht & Hk & _ & _ & Hframe).
    exists n. rewrite (Hk eq_refl), firstn_all in Ht.
    split; [assumption |]. split; [assumption |].
    repeat split; apply Hframe; reflexivity.
Qed.

(** X27.  When [estimate_xy_metrics] raises after its tests of the input
    have passed (the arrays agree and the target is 3D), the table of the
    xy slices that the object had is gone all the same: in its place is a
    table with the rows of the slices before the one that failed, fewer
    than the target has. *)
Theorem failed_estimate_replaces_table (ml : list string) (masked : bool)
  (self self' : MetricsEstimator) (target prediction : Arr)
  (pred_name : string) (mask : option Arr) (e : Px.exn) :
  built ml masked self ->
  assert_input Arr shape dtype str_shape target prediction pred_name mask
  = Ok tt ->
  List.length (shape target) = 3%nat ->
  estimate_xy_metrics Arr shape dtype base_metric ssim ssim_full index_by
    np_mean np_mean_mask slice_xy str_shape target prediction pred_name mask
    self = (Px.Raise e, self') ->
  exists n k,
    nth_error (shape target) 2 = Some n /\
    (k < List.length (range n))%nat /\
    table_of_slices (pd_col_names self) pred_name "_xy" (firstn k (range n))
      (metrics_xy self').
Proof.
  intros Hb Ha H3 Hrun.
  destruct (estimate_slices_run 2
                (fun s =>
                   ("Dataset is assumed to be 3D but target image has shape "
                    ++ str_shape s)%string)
                slice_xy "_xy" metrics_xy set_metrics_xy
              target prediction pred_name mask ml masked self self'
              (Px.Raise e) (fun _ _ => eq_refl)
              (fun _ _ => conj eq_refl (conj eq_refl eq_refl)) ltac:(lia) Hb
              Hrun (or_intror (conj Ha H3)))
    as (n & k & Hn & _ & Ht & _ & Hk & _).
  exists n, k. split; [assumption |]. split; [now apply (Hk e) | assumption].
Qed.

End EstimatorFacts.

Lemma built_estimator (masked : bool) :
  built ["mse"; "ssim"] masked (DemoMetrics.estimator masked).
Proof.
  exists (DemoMetrics.estimator masked). destruct masked; repeat split.
Defined.

Lemma metrics_row_has_the_columns_witness :
  NoDup
    (map fst
       [("mse", Metrics.CNum 1); ("ssim", Metrics.CNum 1);
        ("vol_frac", Metrics.CNum (1 # 2)); ("mse_masked", Metrics.CNum 1);
        ("ssim_masked", Metrics.CNum 1); ("pred_name", Metrics.CName "pred")]) /\
  (forall k,
      In k
        (map fst
           [("mse", Metrics.CNum 1); ("ssim", Metrics.CNum 1);
            ("vol_frac", Metrics.CNum (1 # 2)); ("mse_masked", Metrics.CNum 1);
            ("ssim_masked", Metrics.CNum 1);
            ("pred_name", Metrics.CName "pred")]) <->
      In k (Metrics.pd_col_names (DemoMetrics.estimator true))) /\
  Metrics.row_get "pred_name"
    [("mse", Metrics.CNum 1); ("ssim", Metrics.CNum 1);
     ("vol_frac", Metrics.CNum (1 # 2)); ("mse_masked", Metrics.CNum 1);
     ("ssim_masked", Metrics.CNum 1); ("pred_name", Metrics.CName "pred")]
  = Some (Metrics.CName "pred") /\
  (forall m,
      In m ["mse"; "ssim"] ->
      exists v,
        Metrics.row_get m
          [("mse", Metrics.CNum 1); ("ssim", Metrics.CNum 1);
           ("vol_frac", Metrics.CNum (1 # 2)); ("mse_masked", Metrics.CNum 1);
           ("ssim_masked", Metrics.CNum 1);
           ("pred_name", Metrics.CName "pred")]
        = Some (Metrics.CNum v)) /\
  (true = true ->
   forall m,
     In m ["mse"; "ssim"] ->
     (exists v,
         Metrics.row_get (m ++ "_masked")
           [("mse", Metrics.CNum 1); ("ssim", Metrics.CNum 1);
            ("vol_frac", Metrics.CNum (1 # 2)); ("mse_masked", Metrics.CNum 1);
            ("ssim_masked", Metrics.CNum 1);
            ("pred_name", Metrics.CName "pred")]
         = Some (Metrics.CNum v)) /\
     exists v,
       Metrics.row_get "vol_frac"
         [("mse", Metrics.CNum 1); ("ssim", Metrics.CNum 1);
          ("vol_frac", Metrics.CNum (1 # 2)); ("mse_masked", Metrics.CNum 1);
          ("ssim_masked", Metrics.CNum 1);
          ("pred_name", Metrics.CName "pred")]
       = Some (Metrics.CNum v)).
Proof.
  apply (metrics_row_has_the_columns DemoMetrics.Arr
           (DemoMetrics.base_metric (-2)) DemoMetrics.ssim
           DemoMetrics.ssim_full DemoMetrics.index_by DemoMetrics.np_mean
           DemoMetrics.np_mean_mask ["mse"; "ssim"] true
           (DemoMetrics.estimator true) DemoMetrics.target DemoMetrics.target
           "pred" (Some DemoMetrics.target)).
  - apply built_estimator.
  - vm_compute. reflexivity.
Defined.

Lemma slice_tables_name_every_slice_witness :
  (exists n,
      nth_error [4; 5; 2] 2 = Some n /\
      table_of_slices ["mse"; "ssim"; "pred_name"] "pred" "_xy"
        (Metrics.range n)
        (Metrics.metrics_xy
           (snd (DemoMetrics.xy (-2) (DemoMetrics.estimator false))))) /\
  (exists n,
      nth_error [4; 5; 2] 0 = Some n /\
      table_of_slices ["mse"; "ssim"; "pred_name"] "pred" "_xz"
        (Metrics.range n)
        (Metrics.metrics_xz (snd (DemoMetrics.xz (DemoMetrics.estimator false))))) /\
  (exists n,
      nth_error [4; 5; 2] 1 = Some n /\
      table_of_slices ["mse"; "ssim"; "pred_name"] "pred" "_yz"
        (Metrics.range n)
        (Metrics.metrics_yz (snd (DemoMetrics.yz (DemoMetrics.estimator false))))).
Proof.
  destruct (slice_tables_name_every_slice DemoMetrics.Arr DemoMetrics.shape
              DemoMetrics.dtype (DemoMetrics.base_metric (-2))
              DemoMetrics.ssim DemoMetrics.ssim_full DemoMetrics.index_by
              DemoMetrics.np_mean DemoMetrics.np_mean_mask
              DemoMetrics.str_shape DemoMetrics.slice_xy DemoMetrics.slice_xz
              DemoMetrics.slice_yz ["mse"; "ssim"] false
              (DemoMetrics.estimator false) DemoMetrics.target
              DemoMetrics.target "pred" None (built_estimator false))
    as (Hxy & Hxz & Hyz).
  split; [| split].
  - destruct (Hxy (snd (DemoMetrics.xy (-2) (DemoMetrics.estimator false)))
                eq_refl) as (n & Hn & Ht & _).
    exists n. split; assumption.
  - destruct (Hxz (snd (DemoMetrics.xz (DemoMetrics.estimator false)))
                eq_refl) as (n & Hn & Ht & _).
    exists n. split; assumption.
  - destruct (Hyz (snd (DemoMetrics.yz (DemoMetrics.estimator false)))
                eq_refl) as (n & Hn & Ht & _).
    exists n. split; assumption.
Defined.

Lemma failed_estimate_replaces_table_witness :
  exists n k,
    nth_error [4; 5; 2] 2 = Some n /\
    (k < List.length (Metrics.range n))%nat /\
    table_of_slices ["mse"; "ssim"; "pred_name"] "pred" "_xy"
      (firstn k (Metrics.range n))
      (Metrics.metrics_xy
         (snd (DemoMetrics.xy 1
                 (snd (DemoMetrics.xy (-2) (DemoMetrics.estimator false)))))).
Proof.
  apply (failed_estimate_replaces_table DemoMetrics.Arr DemoMetrics.shape
           DemoMetrics.dtype (DemoMetrics.base_metric 1) DemoMetrics.ssim
           DemoMetrics.ssim_full DemoMetrics.index_by DemoMetrics.np_mean
           DemoMetrics.np_mean_mask DemoMetrics.str_shape DemoMetrics.slice_xy
           ["mse"; "ssim"] false
           (snd (DemoMetrics.xy (-2) (DemoMetrics.estimator false)))
           (snd (DemoMetrics.xy 1
                   (snd (DemoMetrics.xy (-2) (DemoMetrics.estimator false)))))
           DemoMetrics.target DemoMetrics.target "pred" None
           (Px.Std ValueError)).
  - exists (DemoMetrics.estimator false). repeat split.
  - reflexivity.
  - reflexivity.
  - vm_compute. reflexivity.
Defined.

Section WholeVolume.
Import Metrics.

Variable Arr : Type.
Variable shape : Arr -> list Z.
Variable dtype : Arr -> string.
Variable base_metric : metric -> Arr -> Arr -> Px.result Q.
Variable ssim : Arr -> Arr -> Px.result Q.
Variable ssim_full : Arr -> Arr -> Px.result (Q * Arr).
Variable index_by : Arr -> option Arr -> Px.result Arr.
Variable np_mean : Arr -> Px.result Q.
Variable np_mean_mask : option Arr -> Px.result Q.
Variable str_shape : list Z -> string.

(** X28.  On an object that the constructor has returned, a call of
    [estimate_xyz_metrics] that returns leaves a table of one row, the
    row of this prediction, under the columns of the object: the table
    of an earlier call is not appended to.  The tables of the slices are
    as they were. *)
Theorem xyz_table_has_one_row (ml : list string) (masked : bool)
  (self self' : MetricsEstimator) (target prediction : Arr)
  (pred_name : string) (mask : option Arr) :
  built ml masked self ->
  estimate_xyz_metrics Arr shape dtype base_metric ssim ssim_full index_by
    np_mean np_mean_mask str_shape target prediction pred_name mask self
  = (Px.Ok tt, self') ->
  exists metrics_row,
    compute_metrics_row Arr base_metric ssim ssim_full index_by np_mean
      np_mean_mask self target prediction pred_name mask = Px.Ok metrics_row /\
    metrics_xyz self'
    = Some {| columns := pd_col_names self; rows := [metrics_row] |} /\
    row_get "pred_name" metrics_row = Some (CName pred_name) /\
    metrics_xy self' = metrics_xy self /\
    metrics_xz self' = metrics_xz self /\
    metrics_yz self' = metrics_yz self.
Proof.
  intros Hb Hrun.
  unfold estimate_xyz_metrics, Px.mbind, Px.lift, Px.modify, Px.get in Hrun.
  destruct (assert_input Arr shape dtype str_shape target prediction pred_name
              mask) as [[] | e]; simpl in Hrun; [| discriminate].
  set (self1 := set_metrics_xyz (Some (DataFrame (pd_col_names self))) self)
    in Hrun.
  assert (Hb1 : built ml masked self1).
  { destruct Hb as (self0 & Hi & H1 & H2 & H3). exists self0. auto. }
  assert (Hsame : compute_metrics_row Arr base_metric ssim ssim_full index_by
                    np_mean np_mean_mask self1 target prediction pred_name mask
                  = compute_metrics_row Arr base_metric ssim ssim_full index_by
                      np_mean np_mean_mask self target prediction pred_name
                      mask) by reflexivity.
  destruct (compute_metrics_row Arr base_metric ssim ssim_full index_by np_mean
              np_mean_mask self1 target prediction pred_name mask)
    as [r | e] eqn:Er; [| discriminate].
  destruct (built_fields ml masked self1 Hb1) as (Hav & Hml & Hmk & Hcols).
  destruct (compute_metrics_row_ok Arr base_metric ssim ssim_full index_by
              np_mean np_mean_mask ml masked self1 _ _ _ _ r Hav Hml Hmk Hcols
              Er)
    as (_ & Hkeys & Hname & _).
  simpl in Hrun.
  rewrite append_aligned in Hrun by (simpl; intros k Hk; now apply Hkeys).
  simpl in Hrun. exists r.
  assert (Hs : self' = set_metrics_xyz
                         (Some {| columns := pd_col_names self; rows := [r] |})
                         self1) by congruence.
  split; [symmetry; exact Hsame |].
  rewrite Hs. simpl. repeat split; auto.
Qed.

End WholeVolume.

Lemma xyz_table_has_one_row_witness :
  exists metrics_row,
    DemoMetrics.row_of false None = Px.Ok metrics_row /\
    Metrics.metrics_xyz
      (snd (Metrics.estimate_xyz_metrics DemoMetrics.Arr DemoMetrics.shape
              DemoMetrics.dtype (DemoMetrics.base_metric (-2))
              DemoMetrics.ssim DemoMetrics.ssim_full DemoMetrics.index_by
              DemoMetrics.np_mean DemoMetrics.np_mean_mask
              DemoMetrics.str_shape DemoMetrics.target DemoMetrics.target
              "pred" None (DemoMetrics.estimator false)))
    = Some
        {| Metrics.columns :=
             Metrics.pd_col_names (DemoMetrics.estimator false);
           Metrics.rows := [metrics_row] |} /\
    Metrics.row_get "pred_name" metrics_row = Some (Metrics.CName "pred") /\
    Metrics.metrics_xy
      (snd (Metrics.estimate_xyz_metrics DemoMetrics.Arr DemoMetrics.shape
              DemoMetrics.dtype (DemoMetrics.base_metric (-2))
              DemoMetrics.ssim DemoMetrics.ssim_full DemoMetrics.index_by
              DemoMetrics.np_mean DemoMetrics.np_mean_mask
              DemoMetrics.str_shape DemoMetrics.target DemoMetrics.target
              "pred" None (DemoMetrics.estimator false)))
    = Metrics.metrics_xy (DemoMetrics.estimator false) /\
    Metrics.metrics_xz
      (snd (Metrics.estimate_xyz_metrics DemoMetrics.Arr DemoMetrics.shape
              DemoMetrics.dtype (DemoMetrics.base_metric (-2))
              DemoMetrics.ssim DemoMetrics.ssim_full DemoMetrics.index_by
              DemoMetrics.np_mean DemoMetrics.np_mean_mask
              DemoMetrics.str_shape DemoMetrics.target DemoMetrics.target
              "pred" None (DemoMetrics.estimator false)))
    = Metrics.metrics_xz (DemoMetrics.estimator false) /\
    Metrics.metrics_yz
      (snd (Metrics.estimate_xyz_metrics DemoMetrics.Arr DemoMetrics.shape
              DemoMetrics.dtype (DemoMetrics.base_metric (-2))
              DemoMetrics.ssim DemoMetrics.ssim_full DemoMetrics.index_by
              DemoMetrics.np_mean DemoMetrics.np_mean_mask
              DemoMetrics.str_shape DemoMetrics.target DemoMetrics.target
              "pred" None (DemoMetrics.estimator false)))
    = Metrics.metrics_yz (DemoMetrics.estimator false).
Proof.
  apply (xyz_table_has_one_row DemoMetrics.Arr DemoMetrics.shape
           DemoMetrics.dtype (DemoMetrics.base_metric (-2)) DemoMetrics.ssim
           DemoMetrics.ssim_full DemoMetrics.index_by DemoMetrics.np_mean
           DemoMetrics.np_mean_mask DemoMetrics.str_shape ["mse"; "ssim"]
           false (DemoMetrics.estimator false)).
  - apply built_estimator.
  - vm_compute. reflexivity.
Defined.
